(** * Research Agent: the orchestration core of [research-agent-v2.jsx]

    A shallow embedding of the React component [ResearchAgentV2] and of the
    helpers around it: the agent calls, the storage adapter, the library
    load and save, and the event handlers that drive the collection of
    sources, the pipeline, the refinement chat and the library.

    Conventions.
    - A JavaScript string is a [string]: a sequence of code units, here the
      8-bit ones.  [String.length] is the [length] property.  The few
      characters of the prompts outside that range stand as their UTF-8
      bytes; nothing depends on them.
    - The [useState] cells of the component are the fields of [AppState].
      A handler reads the cells of the render it was created in (its
      closure) and writes through the setters, which act on the current
      state.
    - [fetch] is the only suspension point of the asynchronous handlers: a
      handler is a tree whose nodes are the requests it issues, and it is
      run against the outcomes the network gives.  An exception is the
      [message] of the [Error] thrown.
    - [uid()] and [new Date().toISOString()] are inputs of the handlers
      that call them.
    - [localStorage] is a finite map with a quota; [setItem] throws when the
      value does not fit, [getItem] never throws.
    - [JSON.stringify] and [JSON.parse] are those of the language, on the
      values the component stores.

    The rendering, the effect that loads the library when the component
    mounts and the effect that scrolls the chat are not part of the model. *)

From stdpp Require Import gmap strings.
From Stdlib Require Import String Ascii List ZArith QArith Lia Bool DecimalString.
Import ListNotations.
Close Scope Q_scope.
Open Scope string_scope.
Open Scope list_scope.
Open Scope nat_scope.

(* Let [simpl] compute the concatenation of strings. *)
Arguments String.append !s1 s2 : simpl nomatch.

(** ** JavaScript strings *)

Module JS.

Definition LF : string := String "010"%char EmptyString.
Definition DQ : ascii := "034"%char.
Definition BS : ascii := "092"%char.

(** [s.length] *)
Definition length (s : string) : nat := String.length s.

(** Truthiness of a string: every string but the empty one. *)
Definition truthy (s : string) : bool :=
  match s with
  | EmptyString => false
  | String _ _ => true
  end.

(** [a || b] on strings. *)
Definition or_else (a b : string) : string := if truthy a then a else b.

(** White space and line terminators of [String.prototype.trim], among the
    code units below 256: TAB, LF, VT, FF, CR, SP and NBSP. *)
Definition is_white_space (c : ascii) : bool :=
  let n := nat_of_ascii c in
  ((9 <=? n) && (n <=? 13) || (n =? 32) || (n =? 160))%nat.

Fixpoint trimStart (s : string) : string :=
  match s with
  | EmptyString => EmptyString
  | String c s' => if is_white_space c then trimStart s' else s
  end.

Fixpoint trimEnd (s : string) : string :=
  match s with
  | EmptyString => EmptyString
  | String c s' =>
      match trimEnd s' with
      | EmptyString => if is_white_space c then EmptyString else String c EmptyString
      | t => String c t
      end
  end.

(** [s.trim()] *)
Definition trim (s : string) : string := trimEnd (trimStart s).

(** [`${n}`] for a non-negative integer [n]. *)
Definition of_nat (n : nat) : string := NilZero.string_of_uint (Nat.to_uint n).

(** [xs.join(sep)] *)
Definition join (sep : string) (xs : list string) : string := String.concat sep xs.

(** [xs.map((x, i) => f(x, i))], the index counted from [i]. *)
Fixpoint mapi_from {A B} (i : nat) (f : A -> nat -> B) (xs : list A) : list B :=
  match xs with
  | [] => []
  | x :: xs' => f x i :: mapi_from (S i) f xs'
  end.

Definition mapi {A B} (f : A -> nat -> B) (xs : list A) : list B := mapi_from 0 f xs.

(** [a > b * 0.5] for two lengths.  Halving an integer below 2^53 is exact
    in binary floating point, so the comparison is the one of the
    rationals. *)
Definition gt_half (a b : nat) : bool :=
  negb (Qle_bool (inject_Z (Z.of_nat a)) (inject_Z (Z.of_nat b) * (1 # 2))%Q).

End JS.

(** ** JSON values, [JSON.stringify] and [JSON.parse]

    The values the component stores are strings, arrays and plain objects;
    [null] and the booleans complete the fragment.  An object is the list of
    its members in insertion order.  Outside the fragment, since the
    component writes none of them: number literals and [\u] escapes above
    [00FF], on which [parse] answers [None] as it does on a syntax error;
    objects with a key repeated or a key that is an array index, which
    [JSON.parse] would merge or move first. *)

Module JSON.

Import JS.

#[warnings="-register-all"] Inductive value :=
| Null
| Bool (b : bool)
| Str (s : string)
| Arr (xs : list value)
| Obj (ms : list (string * value)).

(** *** QuoteJSONString *)

Definition hex_digit (n : nat) : ascii :=
  if (n <? 10)%nat then ascii_of_nat (48 + n) else ascii_of_nat (87 + n).

Definition quote_char (c : ascii) : string :=
  let n := nat_of_ascii c in
  if (n =? 8)%nat then String BS "b"
  else if (n =? 9)%nat then String BS "t"
  else if (n =? 10)%nat then String BS "n"
  else if (n =? 12)%nat then String BS "f"
  else if (n =? 13)%nat then String BS "r"
  else if (n =? 34)%nat then String BS (String DQ EmptyString)
  else if (n =? 92)%nat then String BS (String BS EmptyString)
  else if (n <? 32)%nat then
    String BS ("u00" +:+ String (hex_digit (n / 16)) (String (hex_digit (n mod 16)) EmptyString))
  else String c EmptyString.

Fixpoint quote_chars (s : string) : string :=
  match s with
  | EmptyString => EmptyString
  | String c s' => quote_char c +:+ quote_chars s'
  end.

Definition quote (s : string) : string :=
  String DQ (quote_chars s +:+ String DQ EmptyString).

(** *** [JSON.stringify(v)], without indentation *)

Fixpoint stringify (v : value) : string :=
  match v with
  | Null => "null"
  | Bool true => "true"
  | Bool false => "false"
  | Str s => quote s
  | Arr xs => "[" +:+ join "," (map stringify xs) +:+ "]"
  | Obj ms =>
      "{" +:+ join "," (map (fun m => quote (fst m) +:+ ":" +:+ stringify (snd m)) ms) +:+ "}"
  end.

(** The number of values in [v], itself and the separators of its elements
    included: the fuel [parse_value] needs on [stringify v]. *)
Fixpoint size (v : value) : nat :=
  match v with
  | Arr xs => S (list_sum (map (fun x => S (size x)) xs))
  | Obj ms => S (list_sum (map (fun m => S (size (snd m))) ms))
  | _ => 1
  end.

(** *** [JSON.parse(text)] *)

Definition is_ws (c : ascii) : bool :=
  let n := nat_of_ascii c in
  ((n =? 32) || (n =? 9) || (n =? 10) || (n =? 13))%nat.

Fixpoint skip_ws (s : string) : string :=
  match s with
  | EmptyString => EmptyString
  | String c s' => if is_ws c then skip_ws s' else s
  end.

Definition hex_value (c : ascii) : option nat :=
  let n := nat_of_ascii c in
  if ((48 <=? n) && (n <=? 57))%nat then Some (n - 48)
  else if ((97 <=? n) && (n <=? 102))%nat then Some (n - 87)
  else if ((65 <=? n) && (n <=? 70))%nat then Some (n - 55)
  else None.

Definition hex4 (a b c d : ascii) : option nat :=
  match hex_value a, hex_value b, hex_value c, hex_value d with
  | Some x, Some y, Some z, Some w => Some (((x * 16 + y) * 16 + z) * 16 + w)
  | _, _, _, _ => None
  end.

(** The character a one-letter escape stands for. *)
Definition unescape (e : ascii) : option ascii :=
  let n := nat_of_ascii e in
  if (n =? 34)%nat then Some DQ
  else if (n =? 92)%nat then Some BS
  else if (n =? 47)%nat then Some "/"%char
  else if (n =? 98)%nat then Some "008"%char
  else if (n =? 102)%nat then Some "012"%char
  else if (n =? 110)%nat then Some "010"%char
  else if (n =? 114)%nat then Some "013"%char
  else if (n =? 116)%nat then Some "009"%char
  else None.

Definition cons_char (c : ascii) (r : option (string * string)) : option (string * string) :=
  match r with
  | Some (t, rest) => Some (String c t, rest)
  | None => None
  end.

(** The characters of a string literal, after its opening quote, up to and
    including the closing one. *)
Fixpoint parse_chars (s : string) : option (string * string) :=
  match s with
  | EmptyString => None
  | String c s1 =>
      if (c =? DQ)%char then Some (EmptyString, s1)
      else if (c =? BS)%char then
        match s1 with
        | EmptyString => None
        | String e s2 =>
            match unescape e with
            | Some d => cons_char d (parse_chars s2)
            | None =>
                if (e =? "u")%char then
                  match s2 with
                  | String h1 (String h2 (String h3 (String h4 s3))) =>
                      match hex4 h1 h2 h3 h4 with
                      | Some n =>
                          if (n <? 256)%nat then cons_char (ascii_of_nat n) (parse_chars s3)
                          else None
                      | None => None
                      end
                  | _ => None
                  end
                else None
            end
        end
      else if (nat_of_ascii c <? 32)%nat then None
      else cons_char c (parse_chars s1)
  end.

Fixpoint parse_value (fuel : nat) (s : string) {struct fuel} : option (value * string) :=
  match fuel with
  | 0 => None
  | S fuel' =>
      match skip_ws s with
      | EmptyString => None
      | String c s1 =>
          if (c =? DQ)%char then
            match parse_chars s1 with
            | Some (t, rest) => Some (Str t, rest)
            | None => None
            end
          else if (c =? "[")%char then
            match skip_ws s1 with
            | EmptyString => None
            | String d s2 =>
                if (d =? "]")%char then Some (Arr [], s2)
                else
                  match parse_elements fuel' s1 with
                  | Some (xs, rest) => Some (Arr xs, rest)
                  | None => None
                  end
            end
          else if (c =? "{")%char then
            match skip_ws s1 with
            | EmptyString => None
            | String d s2 =>
                if (d =? "}")%char then Some (Obj [], s2)
                else
                  match parse_members fuel' s1 with
                  | Some (ms, rest) => Some (Obj ms, rest)
                  | None => None
                  end
            end
          else
            match String c s1 with
            | String "n" (String "u" (String "l" (String "l" rest))) => Some (Null, rest)
            | String "t" (String "r" (String "u" (String "e" rest))) => Some (Bool true, rest)
            | String "f" (String "a" (String "l" (String "s" (String "e" rest)))) =>
                Some (Bool false, rest)
            | _ => None
            end
      end
  end

with parse_elements (fuel : nat) (s : string) {struct fuel} : option (list value * string) :=
  match fuel with
  | 0 => None
  | S fuel' =>
      match parse_value fuel' s with
      | None => None
      | Some (v, s1) =>
          match skip_ws s1 with
          | EmptyString => None
          | String c s2 =>
              if (c =? ",")%char then
                match parse_elements fuel' s2 with
                | Some (vs, rest) => Some (v :: vs, rest)
                | None => None
                end
              else if (c =? "]")%char then Some ([v], s2)
              else None
          end
      end
  end

with parse_members (fuel : nat) (s : string) {struct fuel}
  : option (list (string * value) * string) :=
  match fuel with
  | 0 => None
  | S fuel' =>
      match skip_ws s with
      | String c s1 =>
          if (c =? DQ)%char then
            match parse_chars s1 with
            | None => None
            | Some (k, s2) =>
                match skip_ws s2 with
                | String ":" s3 =>
                    match parse_value fuel' s3 with
                    | None => None
                    | Some (v, s4) =>
                        match skip_ws s4 with
                        | EmptyString => None
                        | String d s5 =>
                            if (d =? ",")%char then
                              match parse_members fuel' s5 with
                              | Some (ms, rest) => Some ((k, v) :: ms, rest)
                              | None => None
                              end
                            else if (d =? "}")%char then Some ([(k, v)], s5)
                            else None
                        end
                    end
                | _ => None
                end
            end
          else None
      | EmptyString => None
      end
  end.

(** The fuel bounds the nesting of the values and the number of elements in
    a row; the length of the text is enough for every text [stringify]
    writes ([parse_stringify] below).  [None] stands for the SyntaxError of
    [JSON.parse] on the texts of the values above.  A text with a number
    literal or with an escape above [\u00FF] is valid JSON outside these
    values, and gets [None] as well: no statement below reads the answer on
    such a text as an error of the code.  The statements rest on [parse] for
    the texts [stringify] writes, and for texts that are no JSON from their
    first code unit on ([starts_no_value]). *)
Definition parse (text : string) : option value :=
  match parse_value (S (String.length text)) text with
  | Some (v, rest) =>
      match skip_ws rest with
      | EmptyString => Some v
      | String _ _ => None
      end
  | None => None
  end.

End JSON.

(** ** The browser's [localStorage] *)

Module Storage.

Record t := { items : gmap string string; quota : N }.

(** Code units held: keys and values. *)
Definition used (m : gmap string string) : N :=
  map_fold (fun k v acc => N.of_nat (String.length k) + N.of_nat (String.length v) + acc)%N
    0%N m.

Definition getItem (key : string) (st : t) : option string := items st !! key.

(** [None] is the [QuotaExceededError] that [setItem] throws when the value
    does not fit. *)
Definition setItem (key val : string) (st : t) : option t :=
  let m := <[key := val]> (items st) in
  if (used m <=? quota st)%N then Some {| items := m; quota := quota st |} else None.

End Storage.

(** ** Data model *)

Module Source.

Inductive kind := url | text | note.

Definition kind_name (k : kind) : string :=
  match k with
  | url => "url"
  | text => "text"
  | note => "note"
  end.

(** [{ id, type, title, content, date }] *)
Record t := { id : string; type : kind; title : string; content : string; date : string }.

Definition to_value (s : t) : JSON.value :=
  JSON.Obj [("id", JSON.Str (id s)); ("type", JSON.Str (kind_name (type s)));
            ("title", JSON.Str (title s)); ("content", JSON.Str (content s));
            ("date", JSON.Str (date s))].

End Source.

Module Draft.

(** [{ id, title, content, outline, analysis, date, format }] *)
Record t := {
  id : string; title : string; content : string; outline : string;
  analysis : string; date : string; format : string
}.

Definition to_value (d : t) : JSON.value :=
  JSON.Obj [("id", JSON.Str (id d)); ("title", JSON.Str (title d));
            ("content", JSON.Str (content d)); ("outline", JSON.Str (outline d));
            ("analysis", JSON.Str (analysis d)); ("date", JSON.Str (date d));
            ("format", JSON.Str (format d))].

End Draft.

Module Library.

(** [{ sources, drafts, notes }] *)
Record t := { sources : list Source.t; drafts : list Draft.t; notes : list Source.t }.

Definition empty : t := {| sources := []; drafts := []; notes := [] |}.

(** [{ ...lib, sources: xs }] and its two siblings. *)
Definition with_sources (lib : t) (xs : list Source.t) : t :=
  {| sources := xs; drafts := drafts lib; notes := notes lib |}.

Definition with_drafts (lib : t) (xs : list Draft.t) : t :=
  {| sources := sources lib; drafts := xs; notes := notes lib |}.

Definition with_notes (lib : t) (xs : list Source.t) : t :=
  {| sources := sources lib; drafts := drafts lib; notes := xs |}.

Definition to_value (lib : t) : JSON.value :=
  JSON.Obj [("sources", JSON.Arr (map Source.to_value (sources lib)));
            ("drafts", JSON.Arr (map Draft.to_value (drafts lib)));
            ("notes", JSON.Arr (map Source.to_value (notes lib)))].

(** The three lists a library item can be deleted from. *)
Inductive category := Sources | Drafts | Notes.

End Library.

Module Turn.

Inductive role_t := user | assistant.

(** [{ role, content }] *)
Record t := { role : role_t; content : string }.

End Turn.

Inductive View := collect | pipeline | refine | library_view.

Record AppState := {
  (* navigation *)
  view : View;
  sidebarOpen : bool;
  (* research collection *)
  sources : list Source.t;
  urlInput : string;
  textInput : string;
  textTitle : string;
  fetchingUrl : bool;
  topicAngle : string;
  (* pipeline: 0 idle, 1 research, 2 outline, 3 writing, 4 done *)
  pipelineStage : nat;
  researchAnalysis : string;
  outline : string;
  draft : string;
  selectedFormat : string;
  (* chat refinement *)
  chatMessages : list Turn.t;
  chatInput : string;
  chatLoading : bool;
  (* library, persistent *)
  library : Library.t;
  libLoaded : bool;
  (* knowledge base note input *)
  noteInput : string;
  noteTitle : string;
  (* error *)
  error : string
}.

(** The setters of the [useState] cells.  [setSources] and [setChatMessages]
    take the updater function, the form the handlers use for them. *)

Definition setView (v : View) (s : AppState) : AppState :=
  {| view := v; sidebarOpen := sidebarOpen s; sources := sources s; urlInput := urlInput s;
     textInput := textInput s; textTitle := textTitle s; fetchingUrl := fetchingUrl s;
     topicAngle := topicAngle s; pipelineStage := pipelineStage s;
     researchAnalysis := researchAnalysis s; outline := outline s; draft := draft s;
     selectedFormat := selectedFormat s; chatMessages := chatMessages s;
     chatInput := chatInput s; chatLoading := chatLoading s; library := library s;
     libLoaded := libLoaded s; noteInput := noteInput s; noteTitle := noteTitle s;
     error := error s |}.

Definition setSidebarOpen (v : bool) (s : AppState) : AppState :=
  {| view := view s; sidebarOpen := v; sources := sources s; urlInput := urlInput s;
     textInput := textInput s; textTitle := textTitle s; fetchingUrl := fetchingUrl s;
     topicAngle := topicAngle s; pipelineStage := pipelineStage s;
     researchAnalysis := researchAnalysis s; outline := outline s; draft := draft s;
     selectedFormat := selectedFormat s; chatMessages := chatMessages s;
     chatInput := chatInput s; chatLoading := chatLoading s; library := library s;
     libLoaded := libLoaded s; noteInput := noteInput s; noteTitle := noteTitle s;
     error := error s |}.

Definition setSources (f : list Source.t -> list Source.t) (s : AppState) : AppState :=
  {| view := view s; sidebarOpen := sidebarOpen s; sources := f (sources s);
     urlInput := urlInput s; textInput := textInput s; textTitle := textTitle s;
     fetchingUrl := fetchingUrl s; topicAngle := topicAngle s;
     pipelineStage := pipelineStage s; researchAnalysis := researchAnalysis s;
     outline := outline s; draft := draft s; selectedFormat := selectedFormat s;
     chatMessages := chatMessages s; chatInput := chatInput s;
     chatLoading := chatLoading s; library := library s; libLoaded := libLoaded s;
     noteInput := noteInput s; noteTitle := noteTitle s; error := error s |}.

Definition setUrlInput (v : string) (s : AppState) : AppState :=
  {| view := view s; sidebarOpen := sidebarOpen s; sources := sources s; urlInput := v;
     textInput := textInput s; textTitle := textTitle s; fetchingUrl := fetchingUrl s;
     topicAngle := topicAngle s; pipelineStage := pipelineStage s;
     researchAnalysis := researchAnalysis s; outline := outline s; draft := draft s;
     selectedFormat := selectedFormat s; chatMessages := chatMessages s;
     chatInput := chatInput s; chatLoading := chatLoading s; library := library s;
     libLoaded := libLoaded s; noteInput := noteInput s; noteTitle := noteTitle s;
     error := error s |}.

Definition setTextInput (v : string) (s : AppState) : AppState :=
  {| view := view s; sidebarOpen := sidebarOpen s; sources := sources s;
     urlInput := urlInput s; textInput := v; textTitle := textTitle s;
     fetchingUrl := fetchingUrl s; topicAngle := topicAngle s;
     pipelineStage := pipelineStage s; researchAnalysis := researchAnalysis s;
     outline := outline s; draft := draft s; selectedFormat := selectedFormat s;
     chatMessages := chatMessages s; chatInput := chatInput s;
     chatLoading := chatLoading s; library := library s; libLoaded := libLoaded s;
     noteInput := noteInput s; noteTitle := noteTitle s; error := error s |}.

Definition setTextTitle (v : string) (s : AppState) : AppState :=
  {| view := view s; sidebarOpen := sidebarOpen s; sources := sources s;
     urlInput := urlInput s; textInput := textInput s; textTitle := v;
     fetchingUrl := fetchingUrl s; topicAngle := topicAngle s;
     pipelineStage := pipelineStage s; researchAnalysis := researchAnalysis s;
     outline := outline s; draft := draft s; selectedFormat := selectedFormat s;
     chatMessages := chatMessages s; chatInput := chatInput s;
     chatLoading := chatLoading s; library := library s; libLoaded := libLoaded s;
     noteInput := noteInput s; noteTitle := noteTitle s; error := error s |}.

Definition setFetchingUrl (v : bool) (s : AppState) : AppState :=
  {| view := view s; sidebarOpen := sidebarOpen s; sources := sources s;
     urlInput := urlInput s; textInput := textInput s; textTitle := textTitle s;
     fetchingUrl := v; topicAngle := topicAngle s; pipelineStage := pipelineStage s;
     researchAnalysis := researchAnalysis s; outline := outline s; draft := draft s;
     selectedFormat := selectedFormat s; chatMessages := chatMessages s;
     chatInput := chatInput s; chatLoading := chatLoading s; library := library s;
     libLoaded := libLoaded s; noteInput := noteInput s; noteTitle := noteTitle s;
     error := error s |}.

Definition setTopicAngle (v : string) (s : AppState) : AppState :=
  {| view := view s; sidebarOpen := sidebarOpen s; sources := sources s;
     urlInput := urlInput s; textInput := textInput s; textTitle := textTitle s;
     fetchingUrl := fetchingUrl s; topicAngle := v; pipelineStage := pipelineStage s;
     researchAnalysis := researchAnalysis s; outline := outline s; draft := draft s;
     selectedFormat := selectedFormat s; chatMessages := chatMessages s;
     chatInput := chatInput s; chatLoading := chatLoading s; library := library s;
     libLoaded := libLoaded s; noteInput := noteInput s; noteTitle := noteTitle s;
     error := error s |}.

Definition setPipelineStage (v : nat) (s : AppState) : AppState :=
  {| view := view s; sidebarOpen := sidebarOpen s; sources := sources s;
     urlInput := urlInput s; textInput := textInput s; textTitle := textTitle s;
     fetchingUrl := fetchingUrl s; topicAngle := topicAngle s; pipelineStage := v;
     researchAnalysis := researchAnalysis s; outline := outline s; draft := draft s;
     selectedFormat := selectedFormat s; chatMessages := chatMessages s;
     chatInput := chatInput s; chatLoading := chatLoading s; library := library s;
     libLoaded := libLoaded s; noteInput := noteInput s; noteTitle := noteTitle s;
     error := error s |}.

Definition setResearchAnalysis (v : string) (s : AppState) : AppState :=
  {| view := view s; sidebarOpen := sidebarOpen s; sources := sources s;
     urlInput := urlInput s; textInput := textInput s; textTitle := textTitle s;
     fetchingUrl := fetchingUrl s; topicAngle := topicAngle s;
     pipelineStage := pipelineStage s; researchAnalysis := v; outline := outline s;
     draft := draft s; selectedFormat := selectedFormat s; chatMessages := chatMessages s;
     chatInput := chatInput s; chatLoading := chatLoading s; library := library s;
     libLoaded := libLoaded s; noteInput := noteInput s; noteTitle := noteTitle s;
     error := error s |}.

Definition setOutline (v : string) (s : AppState) : AppState :=
  {| view := view s; sidebarOpen := sidebarOpen s; sources := sources s;
     urlInput := urlInput s; textInput := textInput s; textTitle := textTitle s;
     fetchingUrl := fetchingUrl s; topicAngle := topicAngle s;
     pipelineStage := pipelineStage s; researchAnalysis := researchAnalysis s;
     outline := v; draft := draft s; selectedFormat := selectedFormat s;
     chatMessages := chatMessages s; chatInput := chatInput s;
     chatLoading := chatLoading s; library := library s; libLoaded := libLoaded s;
     noteInput := noteInput s; noteTitle := noteTitle s; error := error s |}.

Definition setDraft (v : string) (s : AppState) : AppState :=
  {| view := view s; sidebarOpen := sidebarOpen s; sources := sources s;
     urlInput := urlInput s; textInput := textInput s; textTitle := textTitle s;
     fetchingUrl := fetchingUrl s; topicAngle := topicAngle s;
     pipelineStage := pipelineStage s; researchAnalysis := researchAnalysis s;
     outline := outline s; draft := v; selectedFormat := selectedFormat s;
     chatMessages := chatMessages s; chatInput := chatInput s;
     chatLoading := chatLoading s; library := library s; libLoaded := libLoaded s;
     noteInput := noteInput s; noteTitle := noteTitle s; error := error s |}.

Definition setSelectedFormat (v : string) (s : AppState) : AppState :=
  {| view := view s; sidebarOpen := sidebarOpen s; sources := sources s;
     urlInput := urlInput s; textInput := textInput s; textTitle := textTitle s;
     fetchingUrl := fetchingUrl s; topicAngle := topicAngle s;
     pipelineStage := pipelineStage s; researchAnalysis := researchAnalysis s;
     outline := outline s; draft := draft s; selectedFormat := v;
     chatMessages := chatMessages s; chatInput := chatInput s;
     chatLoading := chatLoading s; library := library s; libLoaded := libLoaded s;
     noteInput := noteInput s; noteTitle := noteTitle s; error := error s |}.

Definition setChatMessages (f : list Turn.t -> list Turn.t) (s : AppState) : AppState :=
  {| view := view s; sidebarOpen := sidebarOpen s; sources := sources s;
     urlInput := urlInput s; textInput := textInput s; textTitle := textTitle s;
     fetchingUrl := fetchingUrl s; topicAngle := topicAngle s;
     pipelineStage := pipelineStage s; researchAnalysis := researchAnalysis s;
     outline := outline s; draft := draft s; selectedFormat := selectedFormat s;
     chatMessages := f (chatMessages s); chatInput := chatInput s;
     chatLoading := chatLoading s; library := library s; libLoaded := libLoaded s;
     noteInput := noteInput s; noteTitle := noteTitle s; error := error s |}.

Definition setChatInput (v : string) (s : AppState) : AppState :=
  {| view := view s; sidebarOpen := sidebarOpen s; sources := sources s;
     urlInput := urlInput s; textInput := textInput s; textTitle := textTitle s;
     fetchingUrl := fetchingUrl s; topicAngle := topicAngle s;
     pipelineStage := pipelineStage s; researchAnalysis := researchAnalysis s;
     outline := outline s; draft := draft s; selectedFormat := selectedFormat s;
     chatMessages := chatMessages s; chatInput := v; chatLoading := chatLoading s;
     library := library s; libLoaded := libLoaded s; noteInput := noteInput s;
     noteTitle := noteTitle s; error := error s |}.

Definition setChatLoading (v : bool) (s : AppState) : AppState :=
  {| view := view s; sidebarOpen := sidebarOpen s; sources := sources s;
     urlInput := urlInput s; textInput := textInput s; textTitle := textTitle s;
     fetchingUrl := fetchingUrl s; topicAngle := topicAngle s;
     pipelineStage := pipelineStage s; researchAnalysis := researchAnalysis s;
     outline := outline s; draft := draft s; selectedFormat := selectedFormat s;
     chatMessages := chatMessages s; chatInput := chatInput s; chatLoading := v;
     library := library s; libLoaded := libLoaded s; noteInput := noteInput s;
     noteTitle := noteTitle s; error := error s |}.

Definition setLibrary (v : Library.t) (s : AppState) : AppState :=
  {| view := view s; sidebarOpen := sidebarOpen s; sources := sources s;
     urlInput := urlInput s; textInput := textInput s; textTitle := textTitle s;
     fetchingUrl := fetchingUrl s; topicAngle := topicAngle s;
     pipelineStage := pipelineStage s; researchAnalysis := researchAnalysis s;
     outline := outline s; draft := draft s; selectedFormat := selectedFormat s;
     chatMessages := chatMessages s; chatInput := chatInput s;
     chatLoading := chatLoading s; library := v; libLoaded := libLoaded s;
     noteInput := noteInput s; noteTitle := noteTitle s; error := error s |}.

Definition setLibLoaded (v : bool) (s : AppState) : AppState :=
  {| view := view s; sidebarOpen := sidebarOpen s; sources := sources s;
     urlInput := urlInput s; textInput := textInput s; textTitle := textTitle s;
     fetchingUrl := fetchingUrl s; topicAngle := topicAngle s;
     pipelineStage := pipelineStage s; researchAnalysis := researchAnalysis s;
     outline := outline s; draft := draft s; selectedFormat := selectedFormat s;
     chatMessages := chatMessages s; chatInput := chatInput s;
     chatLoading := chatLoading s; library := library s; libLoaded := v;
     noteInput := noteInput s; noteTitle := noteTitle s; error := error s |}.

Definition setNoteInput (v : string) (s : AppState) : AppState :=
  {| view := view s; sidebarOpen := sidebarOpen s; sources := sources s;
     urlInput := urlInput s; textInput := textInput s; textTitle := textTitle s;
     fetchingUrl := fetchingUrl s; topicAngle := topicAngle s;
     pipelineStage := pipelineStage s; researchAnalysis := researchAnalysis s;
     outline := outline s; draft := draft s; selectedFormat := selectedFormat s;
     chatMessages := chatMessages s; chatInput := chatInput s;
     chatLoading := chatLoading s; library := library s; libLoaded := libLoaded s;
     noteInput := v; noteTitle := noteTitle s; error := error s |}.

Definition setNoteTitle (v : string) (s : AppState) : AppState :=
  {| view := view s; sidebarOpen := sidebarOpen s; sources := sources s;
     urlInput := urlInput s; textInput := textInput s; textTitle := textTitle s;
     fetchingUrl := fetchingUrl s; topicAngle := topicAngle s;
     pipelineStage := pipelineStage s; researchAnalysis := researchAnalysis s;
     outline := outline s; draft := draft s; selectedFormat := selectedFormat s;
     chatMessages := chatMessages s; chatInput := chatInput s;
     chatLoading := chatLoading s; library := library s; libLoaded := libLoaded s;
     noteInput := noteInput s; noteTitle := v; error := error s |}.

Definition setError (v : string) (s : AppState) : AppState :=
  {| view := view s; sidebarOpen := sidebarOpen s; sources := sources s;
     urlInput := urlInput s; textInput := textInput s; textTitle := textTitle s;
     fetchingUrl := fetchingUrl s; topicAngle := topicAngle s;
     pipelineStage := pipelineStage s; researchAnalysis := researchAnalysis s;
     outline := outline s; draft := draft s; selectedFormat := selectedFormat s;
     chatMessages := chatMessages s; chatInput := chatInput s;
     chatLoading := chatLoading s; library := library s; libLoaded := libLoaded s;
     noteInput := noteInput s; noteTitle := noteTitle s; error := v |}.

(** ** The network

    A request to the messages endpoint, and what [fetch] can answer: a
    rejected promise (the network failed), or a response with a status and
    a body that [res.json()] reads or fails to read. *)

Record Tool := { tool_type : string; tool_name : string }.

Record Request := {
  endpoint : string;
  model : string;
  max_tokens : nat;
  system : string;
  messages : list Turn.t;
  tools : option (list Tool)
}.

(** A block of [data.content]; blocks other than text ones have no [text]. *)
Record ContentBlock := { text : option string }.

Inductive Body :=
| BodyError (message : string)
| BodyData (content : option (list ContentBlock)).

Record Response := { status : nat; body : Body }.

(** [res.ok] *)
Definition ok (res : Response) : bool := (200 <=? status res) && (status res <=? 299).

Inductive FetchOutcome :=
| Rejected (message : string)
| Resolved (res : Response).

(** ** Asynchronous code

    An [async] function is a tree: it returns, or it awaits a [fetch] and
    goes on with the outcome.  An exception is the [message] of the [Error]
    thrown; the writes made before it stay. *)

Inductive Prog (A : Type) : Type :=
| Ret (a : A)
| Fetch (req : Request) (k : FetchOutcome -> Prog A).

Arguments Ret {A} a.
Arguments Fetch {A} req k.

Fixpoint pbind {A B} (p : Prog A) (f : A -> Prog B) : Prog B :=
  match p with
  | Ret a => f a
  | Fetch req k => Fetch req (fun o => pbind (k o) f)
  end.

Inductive Result (A : Type) : Type :=
| Ok (a : A)
| Thrown (message : string).

Arguments Ok {A} a.
Arguments Thrown {A} message.

(** The state of the component and the storage of the browser. *)
Record World := { ui : AppState; disk : Storage.t }.

Definition on_ui (f : AppState -> AppState) (w : World) : World :=
  {| ui := f (ui w); disk := disk w |}.

Definition on_disk (f : Storage.t -> Storage.t) (w : World) : World :=
  {| ui := ui w; disk := f (disk w) |}.

Definition Action (A : Type) : Type := World -> Prog (Result A * World).

Definition ret {A} (a : A) : Action A := fun w => Ret (Ok a, w).

Definition throw {A} (message : string) : Action A := fun w => Ret (Thrown message, w).

Definition bind {A B} (m : Action A) (f : A -> Action B) : Action B :=
  fun w =>
    pbind (m w) (fun r =>
      match fst r with
      | Ok a => f a (snd r)
      | Thrown e => Ret (Thrown e, snd r)
      end).

(** [try { m } catch (e) { handler(e.message) }] *)
Definition try_catch {A} (m : Action A) (handler : string -> Action A) : Action A :=
  fun w =>
    pbind (m w) (fun r =>
      match fst r with
      | Ok a => Ret (Ok a, snd r)
      | Thrown e => handler e (snd r)
      end).

(** A call of a setter. *)
Definition set (f : AppState -> AppState) : Action unit := fun w => Ret (Ok tt, on_ui f w).

Notation "x <- m ;; k" := (bind m (fun x => k))
  (at level 100, m at next level, right associativity).
Notation "m ;; k" := (bind m (fun _ => k))
  (at level 100, right associativity).

(** [await fetch(url, { method, headers, body })] *)
Definition fetch (req : Request) : Action Response :=
  fun w =>
    Fetch req (fun o =>
      match o with
      | Rejected e => Ret (Thrown e, w)
      | Resolved res => Ret (Ok res, w)
      end).

(** [await res.json()], then [data.content] *)
Definition json (res : Response) : Action (option (list ContentBlock)) :=
  fun w =>
    match body res with
    | BodyError e => Ret (Thrown e, w)
    | BodyData content => Ret (Ok content, w)
    end.

(** Running a tree against the outcomes the network gives, in order: the
    result, the requests issued and the outcomes left.  [None] when a
    request is still waiting for its outcome. *)
Fixpoint run {A} (p : Prog A) (net : list FetchOutcome)
  : option (A * list Request * list FetchOutcome) :=
  match p with
  | Ret a => Some (a, [], net)
  | Fetch req k =>
      match net with
      | [] => None
      | o :: net' =>
          match run (k o) net' with
          | Some (a, reqs, rest) => Some (a, req :: reqs, rest)
          | None => None
          end
      end
  end.

(** ** Agent prompts *)

Definition RESEARCH_AGENT : string := "You are a Research Analyst agent. Your job is to analyze raw research material (articles, notes, excerpts) and extract:
1. KEY INSIGHTS — the most important ideas, claims, and findings
2. PATTERNS — recurring themes, contradictions, or emerging trends across sources  
3. DATA POINTS — specific stats, quotes, or evidence worth citing
4. CONTRARIAN ANGLES — surprising takes or underexplored perspectives
5. KNOWLEDGE GAPS — what's missing or what questions remain unanswered

Be thorough but concise. Structure your analysis with clear headers. Focus on signal over noise.
If a topic/angle is specified, bias your analysis toward that angle.".

Definition OUTLINE_AGENT : string := "You are a Writing Strategist agent. Given a research analysis, produce a detailed content outline that includes:
1. TITLE OPTIONS — 3 compelling title candidates  
2. HOOK — a strong opening paragraph or lede concept
3. STRUCTURE — ordered sections with:
   - Section header
   - Key argument for this section
   - Supporting evidence to use (from the research)
   - Transition to next section
4. CONCLUSION — the main takeaway and call to action
5. METADATA — suggested word count, tone, target audience

Make the outline actionable — a writer should be able to draft from this alone.".

Definition WRITING_AGENT : string := "You are a Senior Writer agent. Given a research analysis and outline, produce a publication-ready draft.

Guidelines:
- Write with clarity and conviction. No filler.
- Every paragraph earns its place — high insight density.
- Use concrete examples and data from the research.
- Voice: thoughtful practitioner, not generic content creator.
- Strong opening that hooks immediately.
- Clean transitions between sections.
- Ending that resonates — not a bland summary.

Produce the FULL draft. Do not abbreviate or skip sections.".

Definition CHAT_REFINE : string := "You are an editorial assistant helping refine a draft. The user will ask for changes — tone shifts, structural edits, expanding sections, cutting fluff, adding examples, etc.

Rules:
- When asked to edit, output the FULL revised version (not just the changed parts).
- Maintain the original voice unless asked to change it.
- Be opinionated — suggest improvements proactively.
- If the user's request is vague, ask a clarifying question.".

(** ** API helper *)

Definition API_URL : string := "https://api.anthropic.com/v1/messages".
Definition MODEL : string := "claude-sonnet-4-20250514".

(** The text of the reply: the [text] of every block of [data.content], the
    empty ones left out, joined by newlines; the empty string when there is
    no [content]. *)
Definition reply_text (content : option (list ContentBlock)) : string :=
  match content with
  | Some blocks =>
      JS.or_else
        (JS.join JS.LF
           (List.filter JS.truthy
              (map (fun b =>
                      match text b with
                      | Some t => JS.or_else t EmptyString
                      | None => EmptyString
                      end) blocks)))
        EmptyString
  | None => EmptyString
  end.

Definition user_turn (content : string) : Turn.t :=
  {| Turn.role := Turn.user; Turn.content := content |}.

Definition assistant_turn (content : string) : Turn.t :=
  {| Turn.role := Turn.assistant; Turn.content := content |}.

Definition callAgent (systemPrompt userMessage : string) (tools : list Tool) : Action string :=
  let body :=
    {| endpoint := API_URL; model := MODEL; max_tokens := 4000; system := systemPrompt;
       messages := [user_turn userMessage];
       tools := if 0 <? length tools then Some tools else None |} in
  res <- fetch body ;;
  if negb (ok res) then throw ("API " +:+ JS.of_nat (status res))
  else
    content <- json res ;;
    ret (reply_text content).

Definition callAgentChat (systemPrompt : string) (messages : list Turn.t) : Action string :=
  res <- fetch {| endpoint := API_URL; model := MODEL; max_tokens := 4000;
                  system := systemPrompt; messages := messages; tools := None |} ;;
  if negb (ok res) then throw ("API " +:+ JS.of_nat (status res))
  else
    content <- json res ;;
    ret (reply_text content).

Definition fetchUrlContent (url : string) : Action string :=
  res <- fetch {| endpoint := API_URL; model := MODEL; max_tokens := 3000;
                  system := "You extract and summarize web content. Given a URL, use web search to find the content and provide: 1) The article title, 2) A comprehensive summary preserving key facts, data points, arguments and quotes, 3) Key takeaways. Be thorough — this will be used as research material.";
                  messages := [user_turn ("Please fetch and summarize the content at: " +:+ url)];
                  tools := Some [{| tool_type := "web_search_20250305";
                                    tool_name := "web_search" |}] |} ;;
  if negb (ok res) then throw ("Fetch failed: " +:+ JS.of_nat (status res))
  else
    content <- json res ;;
    ret (reply_text content).

(** ** Storage helper *)

Definition STORAGE_KEY : string := "ra:library-v2".

(** The [storage] adapter over [localStorage]: [get] answers the stored
    text, or nothing; [set] throws what [setItem] throws. *)
Definition storage_get (key : string) (st : Storage.t) : option string :=
  Storage.getItem key st.

Definition storage_set (key val : string) (st : Storage.t) : option Storage.t :=
  Storage.setItem key val st.

(** [loadLibrary]: the value parsed from the stored text; the empty library
    when nothing is stored, when the stored text is empty and when it does
    not parse. *)
Definition loadLibrary (st : Storage.t) : JSON.value :=
  match storage_get STORAGE_KEY st with
  | Some text =>
      if JS.truthy text then
        match JSON.parse text with
        | Some v => v
        | None => Library.to_value Library.empty
        end
      else Library.to_value Library.empty
  | None => Library.to_value Library.empty
  end.

(** [saveLibrary]: a failed write is logged on the console and dropped. *)
Definition saveLibrary (lib : Library.t) (st : Storage.t) : Storage.t :=
  match storage_set STORAGE_KEY (JSON.stringify (Library.to_value lib)) st with
  | Some st' => st'
  | None => st
  end.

(** ** The component [ResearchAgentV2]

    [uid] and [now] stand for the results of [uid()] and of
    [new Date().toISOString()] at the time of the call. *)

(** The cells as [useState] initialises them. *)
Definition initial : AppState :=
  {| view := collect; sidebarOpen := true;
     sources := []; urlInput := EmptyString; textInput := EmptyString;
     textTitle := EmptyString; fetchingUrl := false; topicAngle := EmptyString;
     pipelineStage := 0; researchAnalysis := EmptyString; outline := EmptyString;
     draft := EmptyString; selectedFormat := "blog";
     chatMessages := []; chatInput := EmptyString; chatLoading := false;
     library := Library.empty; libLoaded := false;
     noteInput := EmptyString; noteTitle := EmptyString;
     error := EmptyString |}.

(** [xs.find((x) => x.id === id)], read as a condition. *)
Definition has_id {A} (id_of : A -> string) (id : string) (xs : list A) : bool :=
  match List.find (fun x => String.eqb (id_of x) id) xs with
  | Some _ => true
  | None => false
  end.

(** [xs.filter((x) => x.id !== id)] *)
Definition without_id {A} (id_of : A -> string) (id : string) (xs : list A) : list A :=
  List.filter (fun x => negb (String.eqb (id_of x) id)) xs.

Definition addUrl (uid now : string) (c : AppState) : Action unit :=
  if negb (JS.truthy (JS.trim (urlInput c))) then ret tt
  else
    set (setFetchingUrl true) ;;
    set (setError EmptyString) ;;
    try_catch
      (content <- fetchUrlContent (JS.trim (urlInput c)) ;;
       let src := {| Source.id := uid; Source.type := Source.url;
                     Source.title := JS.trim (urlInput c); Source.content := content;
                     Source.date := now |} in
       set (setSources (fun p => p ++ [src])) ;;
       set (setUrlInput EmptyString))
      (fun e => set (setError ("URL fetch failed: " +:+ e))) ;;
    set (setFetchingUrl false).

Definition addText (uid now : string) (w : World) : World :=
  let c := ui w in
  if negb (JS.truthy (JS.trim (textInput c))) then w
  else
    let src := {| Source.id := uid; Source.type := Source.text;
                  Source.title := JS.or_else (textTitle c) "Untitled paste";
                  Source.content := textInput c; Source.date := now |} in
    let w := on_ui (setSources (fun p => p ++ [src])) w in
    let w := on_ui (setTextInput EmptyString) w in
    on_ui (setTextTitle EmptyString) w.

Definition addNote (uid now : string) (w : World) : World :=
  let c := ui w in
  if negb (JS.truthy (JS.trim (noteInput c))) then w
  else
    let note := {| Source.id := uid; Source.type := Source.note;
                   Source.title := JS.or_else (noteTitle c) "Note";
                   Source.content := noteInput c; Source.date := now |} in
    let w := on_ui (setSources (fun p => p ++ [note])) w in
    (* Also save to KB *)
    let newLib := Library.with_notes (library c) (Library.notes (library c) ++ [note]) in
    let w := on_ui (setLibrary newLib) w in
    let w := on_disk (saveLibrary newLib) w in
    let w := on_ui (setNoteInput EmptyString) w in
    on_ui (setNoteTitle EmptyString) w.

Definition removeSource (id : string) (w : World) : World :=
  on_ui (setSources (fun p => without_id Source.id id p)) w.

Definition loadFromLibrary (item : Source.t) (w : World) : World :=
  let c := ui w in
  if negb (has_id Source.id (Source.id item) (sources c)) then
    on_ui (setSources (fun p => p ++ [item])) w
  else w.

(** One entry of the corpus: [`--- SOURCE ${i + 1}: ${s.title} ---\n${s.content}`] *)
Definition source_entry (s : Source.t) (i : nat) : string :=
  "--- SOURCE " +:+ JS.of_nat (i + 1) +:+ ": " +:+ Source.title s +:+ " ---" +:+ JS.LF
  +:+ Source.content s.

Definition runPipeline (c : AppState) : Action unit :=
  if length (sources c) =? 0 then set (setError "Add at least one source first.")
  else
    set (setError EmptyString) ;;
    set (setView pipeline) ;;
    set (setPipelineStage 1) ;;
    set (setResearchAnalysis EmptyString) ;;
    set (setOutline EmptyString) ;;
    set (setDraft EmptyString) ;;
    let allContent := JS.join (JS.LF +:+ JS.LF) (JS.mapi source_entry (sources c)) in
    let angleStr :=
      if JS.truthy (topicAngle c)
      then JS.LF +:+ JS.LF +:+ "TOPIC/ANGLE: " +:+ topicAngle c
      else EmptyString in
    try_catch
      ((* Stage 1: Research *)
       analysis <- callAgent RESEARCH_AGENT (allContent +:+ angleStr) [] ;;
       set (setResearchAnalysis analysis) ;;
       set (setPipelineStage 2) ;;
       (* Stage 2: Outline *)
       let formatNote := "Output format requested: " +:+ selectedFormat c in
       outlineResult <-
         callAgent OUTLINE_AGENT
           ("RESEARCH ANALYSIS:" +:+ JS.LF +:+ analysis +:+ JS.LF +:+ JS.LF
            +:+ formatNote +:+ angleStr) [] ;;
       set (setOutline outlineResult) ;;
       set (setPipelineStage 3) ;;
       (* Stage 3: Writing *)
       draftResult <-
         callAgent WRITING_AGENT
           ("RESEARCH ANALYSIS:" +:+ JS.LF +:+ analysis +:+ JS.LF +:+ JS.LF
            +:+ "OUTLINE:" +:+ JS.LF +:+ outlineResult +:+ JS.LF +:+ JS.LF
            +:+ formatNote +:+ angleStr) [] ;;
       set (setDraft draftResult) ;;
       set (setPipelineStage 4))
      (fun e =>
         set (setError ("Pipeline failed at stage " +:+ JS.of_nat (pipelineStage c)
                        +:+ ": " +:+ e)) ;;
         set (setPipelineStage 0)).

Definition saveDraft (uid now : string) (w : World) : World :=
  let c := ui w in
  if negb (JS.truthy (draft c)) then w
  else
    let d := {| Draft.id := uid; Draft.title := JS.or_else (topicAngle c) "Untitled draft";
                Draft.content := draft c; Draft.outline := outline c;
                Draft.analysis := researchAnalysis c; Draft.date := now;
                Draft.format := selectedFormat c |} in
    let newLib := Library.with_drafts (library c) (Library.drafts (library c) ++ [d]) in
    let w := on_ui (setLibrary newLib) w in
    on_disk (saveLibrary newLib) w.

Definition saveSourcesAll (w : World) : World :=
  let c := ui w in
  let newSources :=
    List.filter
      (fun s => negb (has_id Source.id (Source.id s) (Library.sources (library c))))
      (sources c) in
  if length newSources =? 0 then w
  else
    let newLib :=
      Library.with_sources (library c) (Library.sources (library c) ++ newSources) in
    let w := on_ui (setLibrary newLib) w in
    on_disk (saveLibrary newLib) w.

Definition startRefine (w : World) : World :=
  let c := ui w in
  if negb (JS.truthy (draft c)) then w
  else
    let w :=
      on_ui (setChatMessages (fun _ =>
        [assistant_turn "I have your draft ready. What would you like to change? I can adjust tone, restructure sections, expand arguments, cut fluff, add examples, or rewrite specific parts."])) w in
    on_ui (setView refine) w.

Definition sendChat (c : AppState) : Action unit :=
  if negb (JS.truthy (JS.trim (chatInput c))) || chatLoading c then ret tt
  else
    let userMsg := JS.trim (chatInput c) in
    set (setChatInput EmptyString) ;;
    let newMessages := chatMessages c ++ [user_turn userMsg] in
    set (setChatMessages (fun _ => newMessages)) ;;
    set (setChatLoading true) ;;
    try_catch
      (let apiMessages :=
         [user_turn ("Here is the current draft:" +:+ JS.LF +:+ JS.LF +:+ draft c
                     +:+ JS.LF +:+ JS.LF +:+ "---" +:+ JS.LF
                     +:+ "The user will now ask for edits.");
          assistant_turn "I have the draft. What changes would you like?"]
         ++ map (fun m => {| Turn.role := Turn.role m; Turn.content := Turn.content m |})
              newMessages in
       response <- callAgentChat CHAT_REFINE apiMessages ;;
       set (setChatMessages (fun p => p ++ [assistant_turn response])) ;;
       (* If it looks like a full revision, update draft *)
       if JS.gt_half (JS.length response) (JS.length (draft c))
       then set (setDraft response)
       else ret tt)
      (fun e => set (setChatMessages (fun p => p ++ [assistant_turn ("Error: " +:+ e)]))) ;;
    set (setChatLoading false).

Definition deleteLibItem (category : Library.category) (id : string) (w : World) : World :=
  let c := ui w in
  let newLib :=
    match category with
    | Library.Sources =>
        Library.with_sources (library c) (without_id Source.id id (Library.sources (library c)))
    | Library.Drafts =>
        Library.with_drafts (library c) (without_id Draft.id id (Library.drafts (library c)))
    | Library.Notes =>
        Library.with_notes (library c) (without_id Source.id id (Library.notes (library c)))
    end in
  let w := on_ui (setLibrary newLib) w in
  on_disk (saveLibrary newLib) w.

Record FormatOption := { format_id : string; label : string }.

Definition FORMATS : list FormatOption :=
  [ {| format_id := "blog"; label := "Blog Post" |};
    {| format_id := "thread"; label := "Thread" |};
    {| format_id := "newsletter"; label := "Newsletter" |};
    {| format_id := "outline"; label := "Outline Only" |} ].

(** A click on the chip of format [f]: [setSelectedFormat(f.id)]. *)
Definition chooseFormat (f : FormatOption) (w : World) : World :=
  on_ui (setSelectedFormat (format_id f)) w.

(** A handler starts in the world it is called in, with the cells of that
    world as its closure. *)
Definition start {A} (handler : AppState -> Action A) (w : World) : Prog (Result A * World) :=
  handler (ui w) w.

(** ** Vocabulary of the statements *)

(** What [callAgent] and [callAgentChat] make of the outcome of their
    request: the text of the reply, or the message of the error thrown. *)
Definition agent_reply (o : FetchOutcome) : Result string :=
  match o with
  | Rejected e => Thrown e
  | Resolved res =>
      if negb (ok res) then Thrown ("API " +:+ JS.of_nat (status res))
      else
        match body res with
        | BodyError e => Thrown e
        | BodyData content => Ok (reply_text content)
        end
  end.

(** The request of [callAgent(systemPrompt, userMessage)], without tools. *)
Definition agent_request (systemPrompt userMessage : string) : Request :=
  {| endpoint := API_URL; model := MODEL; max_tokens := 4000; system := systemPrompt;
     messages := [user_turn userMessage]; tools := None |}.

(** The request of [callAgentChat(systemPrompt, messages)]. *)
Definition chat_request (systemPrompt : string) (msgs : list Turn.t) : Request :=
  {| endpoint := API_URL; model := MODEL; max_tokens := 4000; system := systemPrompt;
     messages := msgs; tools := None |}.

(** The conversation [sendChat] sends: the two turns of the preamble around
    the draft, then the transcript. *)
Definition chat_preamble (draft : string) : list Turn.t :=
  [user_turn ("Here is the current draft:" +:+ JS.LF +:+ JS.LF +:+ draft
              +:+ JS.LF +:+ JS.LF +:+ "---" +:+ JS.LF
              +:+ "The user will now ask for edits.");
   assistant_turn "I have the draft. What changes would you like?"].

(** The user messages of the Outline and Writing stages. *)
Definition angle_annotation (topicAngle : string) : string :=
  if JS.truthy topicAngle
  then JS.LF +:+ JS.LF +:+ "TOPIC/ANGLE: " +:+ topicAngle
  else EmptyString.

Definition outline_message (analysis format topicAngle : string) : string :=
  "RESEARCH ANALYSIS:" +:+ JS.LF +:+ analysis +:+ JS.LF +:+ JS.LF
  +:+ ("Output format requested: " +:+ format) +:+ angle_annotation topicAngle.

Definition writing_message (analysis outlineResult format topicAngle : string) : string :=
  "RESEARCH ANALYSIS:" +:+ JS.LF +:+ analysis +:+ JS.LF +:+ JS.LF
  +:+ "OUTLINE:" +:+ JS.LF +:+ outlineResult +:+ JS.LF +:+ JS.LF
  +:+ ("Output format requested: " +:+ format) +:+ angle_annotation topicAngle.

(** The ids of each of the three lists of a library are pairwise distinct. *)
Definition ids_unique (lib : Library.t) : Prop :=
  NoDup (map Source.id (Library.sources lib))
  /\ NoDup (map Draft.id (Library.drafts lib))
  /\ NoDup (map Source.id (Library.notes lib)).

(** What the specification says, in its own words. *)
Module Spec.

(** [mergeSources(existing, incoming)]: set union keyed by [id]; incoming
    records whose [id] already exists are dropped, existing order
    preserved, new records appended. *)
Fixpoint surviving (existing incoming : list Source.t) : list Source.t :=
  match incoming with
  | [] => []
  | s :: rest =>
      if In_dec string_dec (Source.id s) (map Source.id existing)
      then surviving existing rest
      else s :: surviving existing rest
  end.

Definition mergeSources (existing incoming : list Source.t) : list Source.t :=
  existing ++ surviving existing incoming.

(** The corpus: every source as ["--- SOURCE i: <title> ---"], a newline and
    its content, the entries joined by blank lines, numbered from [i]. *)
Definition entry (i : nat) (s : Source.t) : string :=
  "--- SOURCE " +:+ JS.of_nat i +:+ ": " +:+ Source.title s +:+ " ---" +:+ JS.LF
  +:+ Source.content s.

Fixpoint entries (i : nat) (srcs : list Source.t) : string :=
  match srcs with
  | [] => EmptyString
  | [s] => entry i s
  | s :: rest => entry i s +:+ JS.LF +:+ JS.LF +:+ entries (S i) rest
  end.

(** With the topic/angle annotation at the end when one is set. *)
Definition corpus (srcs : list Source.t) (topicAngle : string) : string :=
  entries 1 srcs
  +:+ match topicAngle with
      | EmptyString => EmptyString
      | _ => JS.LF +:+ JS.LF +:+ "TOPIC/ANGLE: " +:+ topicAngle
      end.

End Spec.

(** A string of [n] code units. *)
Definition filler (n : nat) : string := string_of_list_ascii (repeat "x"%char n).

(** Induction on a JSON value, through the lists of its elements and of its
    members. *)
Section value_induction.
Variable P : JSON.value -> Prop.
Hypothesis Hnull : P JSON.Null.
Hypothesis Hbool : forall b, P (JSON.Bool b).
Hypothesis Hstr : forall s, P (JSON.Str s).
Hypothesis Harr : forall xs, Forall P xs -> P (JSON.Arr xs).
Hypothesis Hobj : forall ms, Forall (fun m => P (snd m)) ms -> P (JSON.Obj ms).

Fixpoint value_ind_nested (v : JSON.value) : P v :=
  match v with
  | JSON.Null => Hnull
  | JSON.Bool b => Hbool b
  | JSON.Str s => Hstr s
  | JSON.Arr xs =>
      Harr xs
        ((fix go (l : list JSON.value) : Forall P l :=
            match l with
            | [] => @Forall_nil _ P
            | x :: l' => @Forall_cons _ P x l' (value_ind_nested x) (go l')
            end) xs)
  | JSON.Obj ms =>
      Hobj ms
        ((fix go (l : list (string * JSON.value)) : Forall (fun m => P (snd m)) l :=
            match l with
            | [] => @Forall_nil _ _
            | m :: l' =>
                @Forall_cons _ (fun m => P (snd m)) m l'
                  (match m return P (snd m) with (_, v') => value_ind_nested v' end)
                  (go l')
            end) ms)
  end.
End value_induction.

(** The text of one member of an object. *)
Definition member_text (m : string * JSON.value) : string :=
  JSON.quote (fst m) +:+ ":" +:+ JSON.stringify (snd m).

(** [parse_value] reads [v] back from the start of a text that begins with
    [stringify v], when it has the fuel for it. *)
Definition parses (v : JSON.value) : Prop :=
  forall fuel rest,
    JSON.size v <= fuel ->
    JSON.parse_value fuel (JSON.stringify v +:+ rest) = Some (v, rest).

(** The world [sendChat] ends in when its agent call gave [reply]: the user
    turn and the answer, or the error, are in the transcript; the draft is
    the response when this one is longer than half of it. *)
Definition sendChat_end (w : World) (reply : Result string) : World :=
  let c := ui w in
  let w1 := on_ui (setChatInput EmptyString) w in
  let w2 := on_ui (setChatMessages (fun _ =>
               chatMessages c ++ [user_turn (JS.trim (chatInput c))])) w1 in
  let w3 := on_ui (setChatLoading true) w2 in
  let w4 :=
    match reply with
    | Ok response =>
        let w' := on_ui (setChatMessages (fun p => p ++ [assistant_turn response])) w3 in
        if JS.gt_half (JS.length response) (JS.length (draft c))
        then on_ui (setDraft response) w'
        else w'
    | Thrown e =>
        on_ui (setChatMessages (fun p => p ++ [assistant_turn ("Error: " +:+ e)])) w3
    end in
  on_ui (setChatLoading false) w4.

(** The first request a tree issues, if it issues one. *)
Definition first_request {A} (p : Prog A) : option Request :=
  match p with
  | Ret _ => None
  | Fetch req _ => Some req
  end.

(** The user message of the Research stage, as [runPipeline] builds it. *)
Definition research_message (c : AppState) : string :=
  JS.join (JS.LF +:+ JS.LF) (JS.mapi source_entry (sources c))
  +:+ angle_annotation (topicAngle c).

(** The writes of [runPipeline] before its first call. *)
Definition pipeline_started (w : World) : World :=
  let w := on_ui (setError EmptyString) w in
  let w := on_ui (setView pipeline) w in
  let w := on_ui (setPipelineStage 1) w in
  let w := on_ui (setResearchAnalysis EmptyString) w in
  let w := on_ui (setOutline EmptyString) w in
  on_ui (setDraft EmptyString) w.

(** The writes of its [catch] block; [c] is the closure. *)
Definition pipeline_failed (c : AppState) (e : string) (w : World) : World :=
  let w :=
    on_ui (setError ("Pipeline failed at stage " +:+ JS.of_nat (pipelineStage c)
                     +:+ ": " +:+ e)) w in
  on_ui (setPipelineStage 0) w.

(** The run of [runPipeline] on a non-empty working set, stage by stage:
    the world it ends in, the requests it issued and the outcomes left. *)
Definition pipeline_run (w : World) (net : list FetchOutcome)
  : option (Result unit * World * list Request * list FetchOutcome) :=
  let c := ui w in
  let w0 := pipeline_started w in
  let req1 := agent_request RESEARCH_AGENT (research_message c) in
  match net with
  | [] => None
  | o1 :: net1 =>
      match agent_reply o1 with
      | Thrown e => Some ((Ok tt, pipeline_failed c e w0), [req1], net1)
      | Ok analysis =>
          let w1 := on_ui (setPipelineStage 2) (on_ui (setResearchAnalysis analysis) w0) in
          let req2 :=
            agent_request OUTLINE_AGENT
              (outline_message analysis (selectedFormat c) (topicAngle c)) in
          match net1 with
          | [] => None
          | o2 :: net2 =>
              match agent_reply o2 with
              | Thrown e => Some ((Ok tt, pipeline_failed c e w1), [req1; req2], net2)
              | Ok outlineResult =>
                  let w2 := on_ui (setPipelineStage 3) (on_ui (setOutline outlineResult) w1) in
                  let req3 :=
                    agent_request WRITING_AGENT
                      (writing_message analysis outlineResult (selectedFormat c)
                         (topicAngle c)) in
                  match net2 with
                  | [] => None
                  | o3 :: net3 =>
                      match agent_reply o3 with
                      | Thrown e =>
                          Some ((Ok tt, pipeline_failed c e w2), [req1; req2; req3], net3)
                      | Ok draftResult =>
                          Some ((Ok tt,
                                 on_ui (setPipelineStage 4) (on_ui (setDraft draftResult) w2)),
                                [req1; req2; req3], net3)
                      end
                  end
              end
          end
      end
  end.

(** A string made of white space only, the empty one included. *)
Definition blank (s : string) : bool :=
  forallb JS.is_white_space (list_ascii_of_string s).

(** ** Sample data *)

Definition sample_note : Source.t :=
  {| Source.id := "m5y2k8q04f7zc"; Source.type := Source.note; Source.title := "Note";
     Source.content := "Agents need a shared draft."; Source.date := "2025-01-15T10:00:00.000Z" |}.

Definition one_note_library : Library.t :=
  {| Library.sources := []; Library.drafts := []; Library.notes := [sample_note] |}.

(** A storage that takes no write: the browser gives the page no quota, as
    some do in a private window, or the quota is used up. *)
Definition full_storage : Storage.t := {| Storage.items := ∅; Storage.quota := 0 |}.

(** A storage whose text under the key of the library is cut short. *)
Definition corrupt_storage : Storage.t :=
  {| Storage.items := {[ "ra:library-v2" := "{" +:+ String JS.DQ "sources" +:+ String JS.DQ ":[" ]};
     Storage.quota := 2621440 |}.

(** A storage whose text under the key of the library is what [setItem]
    makes of the value [undefined]. *)
Definition undefined_storage : Storage.t :=
  {| Storage.items := {[ "ra:library-v2" := "undefined" ]}; Storage.quota := 2621440 |}.

(** A storage with room. *)
Definition roomy_storage : Storage.t := {| Storage.items := ∅; Storage.quota := 2621440 |}.

Definition sample_source : Source.t :=
  {| Source.id := "m5y2j1ab9k2xw"; Source.type := Source.url;
     Source.title := "https://example.org/agents";
     Source.content := "Summary: pipelines of agents pass drafts along.";
     Source.date := "2025-01-15T09:30:00.000Z" |}.

(** The library holds [sample_note]; the working set holds a source and
    that note, loaded from the library; a new note is typed in. *)
Definition note_world : World :=
  {| ui := setNoteInput "Outline first, then prose."
             (setSources (fun p => p ++ [sample_source; sample_note])
                (setLibrary one_note_library initial));
     disk := roomy_storage |}.

(** The same session on a storage that takes no write. *)
Definition full_note_world : World := {| ui := ui note_world; disk := full_storage |}.

(** One source collected, an angle set. *)
Definition collect_world : World :=
  {| ui := setTopicAngle "orchestration" (setSources (fun p => p ++ [sample_source]) initial);
     disk := roomy_storage |}.

(** A draft of 1000 code units, open in the refinement chat, a request typed. *)
Definition refine_world : World :=
  on_ui (setChatInput " Tighten the opening. ")
    (startRefine {| ui := setDraft (filler 1000) initial; disk := roomy_storage |}).

(** A response of the agent whose content is one block of text. *)
Definition text_reply (t : string) : FetchOutcome :=
  Resolved {| status := 200; body := BodyData (Some [{| text := Some t |}]) |}.

(** A response of the backend with an error status. *)
Definition overloaded : FetchOutcome :=
  Resolved {| status := 529; body := BodyError "Unexpected end of JSON input" |}.

(** ** The rest of the component: inline handlers and what the view shows *)

(** A click on the card of a draft of the library: the draft, the outline
    and the analysis of the card go to the cells of the pipeline (the empty
    string for an outline or an analysis that is missing), the view is the
    pipeline and the stage marker is 4. *)
Definition openDraft (d : Draft.t) (w : World) : World :=
  let w := on_ui (setDraft (Draft.content d)) w in
  let w := on_ui (setOutline (JS.or_else (Draft.outline d) EmptyString)) w in
  let w := on_ui (setResearchAnalysis (JS.or_else (Draft.analysis d) EmptyString)) w in
  let w := on_ui (setView pipeline) w in
  on_ui (setPipelineStage 4) w.

(** The [disabled] attribute of the Fetch, Send and Run Pipeline buttons. *)
Definition fetch_disabled (c : AppState) : bool :=
  fetchingUrl c || negb (JS.truthy (JS.trim (urlInput c))).

Definition send_disabled (c : AppState) : bool :=
  chatLoading c || negb (JS.truthy (JS.trim (chatInput c))).

Definition run_disabled (c : AppState) : bool := length (sources c) =? 0.

(** The request of [fetchUrlContent(url)]. *)
Definition url_request (url : string) : Request :=
  {| endpoint := API_URL; model := MODEL; max_tokens := 3000;
     system := "You extract and summarize web content. Given a URL, use web search to find the content and provide: 1) The article title, 2) A comprehensive summary preserving key facts, data points, arguments and quotes, 3) Key takeaways. Be thorough — this will be used as research material.";
     messages := [user_turn ("Please fetch and summarize the content at: " +:+ url)];
     tools := Some [{| tool_type := "web_search_20250305"; tool_name := "web_search" |}] |}.

(** A block with a text that is not empty. *)
Definition has_text (b : ContentBlock) : bool :=
  match text b with
  | Some t => JS.truthy t
  | None => false
  end.

(** The reply in the words of its description: the texts of the blocks that
    have one, in their order, and a newline between one text and the next. *)
Fixpoint texts_of (blocks : list ContentBlock) : list string :=
  match blocks with
  | [] => []
  | b :: rest =>
      match text b with
      | Some (String c t) => String c t :: texts_of rest
      | _ => texts_of rest
      end
  end.

Fixpoint newline_separated (ts : list string) : string :=
  match ts with
  | [] => EmptyString
  | [t] => t
  | t :: rest => t +:+ JS.LF +:+ newline_separated rest
  end.

(** A text that is no JSON from its first code unit on: this one is not
    white space, and no value starts with it.  A value starts with a brace,
    a bracket, a double quote, a minus sign, a digit, or the first letter of
    [true], [false] or [null]; on any other text [JSON.parse] throws a
    SyntaxError. *)
Definition starts_no_value (text : string) : bool :=
  match text with
  | EmptyString => false
  | String c _ =>
      let n := nat_of_ascii c in
      negb (JSON.is_ws c
            || (c =? "{")%char || (c =? "[")%char || (c =? JS.DQ)%char
            || (c =? "-")%char || ((48 <=? n) && (n <=? 57))%nat
            || (c =? "t")%char || (c =? "f")%char || (c =? "n")%char)
  end.

(** The view of a stored value as a library of the data model: the value
    [to_value] writes for it, and nothing else. *)
Definition kind_of_name (name : string) : option Source.kind :=
  if String.eqb name "url" then Some Source.url
  else if String.eqb name "text" then Some Source.text
  else if String.eqb name "note" then Some Source.note
  else None.

Definition source_of_value (v : JSON.value) : option Source.t :=
  match v with
  | JSON.Obj [(k1, JSON.Str i); (k2, JSON.Str ty); (k3, JSON.Str t);
              (k4, JSON.Str c); (k5, JSON.Str d)] =>
      if String.eqb k1 "id" && String.eqb k2 "type" && String.eqb k3 "title"
         && String.eqb k4 "content" && String.eqb k5 "date"
      then
        match kind_of_name ty with
        | Some k =>
            Some {| Source.id := i; Source.type := k; Source.title := t;
                    Source.content := c; Source.date := d |}
        | None => None
        end
      else None
  | _ => None
  end.

Definition draft_of_value (v : JSON.value) : option Draft.t :=
  match v with
  | JSON.Obj [(k1, JSON.Str i); (k2, JSON.Str t); (k3, JSON.Str c); (k4, JSON.Str o);
              (k5, JSON.Str a); (k6, JSON.Str d); (k7, JSON.Str f)] =>
      if String.eqb k1 "id" && String.eqb k2 "title" && String.eqb k3 "content"
         && String.eqb k4 "outline" && String.eqb k5 "analysis" && String.eqb k6 "date"
         && String.eqb k7 "format"
      then
        Some {| Draft.id := i; Draft.title := t; Draft.content := c; Draft.outline := o;
                Draft.analysis := a; Draft.date := d; Draft.format := f |}
      else None
  | _ => None
  end.

Fixpoint all_of {A B} (f : A -> option B) (xs : list A) : option (list B) :=
  match xs with
  | [] => Some []
  | x :: xs' =>
      match f x, all_of f xs' with
      | Some y, Some ys => Some (y :: ys)
      | _, _ => None
      end
  end.

Definition library_of_value (v : JSON.value) : option Library.t :=
  match v with
  | JSON.Obj [(k1, JSON.Arr ss); (k2, JSON.Arr ds); (k3, JSON.Arr ns)] =>
      if String.eqb k1 "sources" && String.eqb k2 "drafts" && String.eqb k3 "notes"
      then
        match all_of source_of_value ss, all_of draft_of_value ds,
              all_of source_of_value ns with
        | Some s, Some d, Some n =>
            Some {| Library.sources := s; Library.drafts := d; Library.notes := n |}
        | _, _, _ => None
        end
      else None
  | _ => None
  end.

(** The effect of the mount: [loadLibrary().then((lib) => { setLibrary(lib);
    setLibLoaded(true); })].  [None] when the value loaded is not a library
    of the data model, which the cell [library] of this model cannot hold. *)
Definition mount (w : World) : option World :=
  match library_of_value (loadLibrary (disk w)) with
  | Some lib => Some (on_ui (setLibLoaded true) (on_ui (setLibrary lib) w))
  | None => None
  end.

(** A new session on the storage a session leaves: the cells as
    [useState] initialises them. *)
Definition new_session (st : Storage.t) : World := {| ui := initial; disk := st |}.

(** What [fetchUrlContent] makes of the outcome of its request. *)
Definition url_reply (o : FetchOutcome) : Result string :=
  match o with
  | Rejected e => Thrown e
  | Resolved res =>
      if negb (ok res) then Thrown ("Fetch failed: " +:+ JS.of_nat (status res))
      else
        match body res with
        | BodyError e => Thrown e
        | BodyData content => Ok (reply_text content)
        end
  end.

(** The world [addUrl] ends in when its fetch gave [reply]. *)
Definition addUrl_end (uid now : string) (w : World) (reply : Result string) : World :=
  let c := ui w in
  let w1 := on_ui (setError EmptyString) (on_ui (setFetchingUrl true) w) in
  let w2 :=
    match reply with
    | Ok content =>
        let src := {| Source.id := uid; Source.type := Source.url;
                      Source.title := JS.trim (urlInput c); Source.content := content;
                      Source.date := now |} in
        on_ui (setUrlInput EmptyString) (on_ui (setSources (fun p => p ++ [src])) w1)
    | Thrown e => on_ui (setError ("URL fetch failed: " +:+ e)) w1
    end in
  on_ui (setFetchingUrl false) w2.

(** A response with status [st] whose content is [blocks]. *)
Definition response_of (st : nat) (blocks : option (list ContentBlock)) : FetchOutcome :=
  Resolved {| status := st; body := BodyData blocks |}.

(** A URL typed in, with white space around it. *)
Definition url_world : World :=
  on_ui (setUrlInput "  https://example.org/agents ") collect_world.

(** The pipeline has run on the sample: three artifacts, stage 4. *)
Definition drafted_world : World :=
  on_ui (setPipelineStage 4)
    (on_ui (setDraft "Agents, in sequence.")
       (on_ui (setOutline "TITLE OPTIONS")
          (on_ui (setResearchAnalysis "KEY INSIGHTS") collect_world))).

Definition sample_draft : Draft.t :=
  {| Draft.id := "m5y2m0n1p2q3r"; Draft.title := "Untitled draft";
     Draft.content := "An older draft."; Draft.outline := EmptyString;
     Draft.analysis := EmptyString; Draft.date := "2025-01-14T08:00:00.000Z";
     Draft.format := "blog" |}.

(** A storage another part of the page uses too. *)
Definition shared_storage : Storage.t :=
  {| Storage.items := {[ "theme" := "dark" ]}; Storage.quota := 2621440 |}.

(** A storage with room for the empty library and for little more. *)
Definition tight_storage : Storage.t := {| Storage.items := ∅; Storage.quota := 60 |}.

(** The world and the requests of a run of the pipeline on the sample whose
    three stages succeed. *)
Definition drafted_after_run : World :=
  on_ui (setPipelineStage 4)
    (on_ui (setDraft "Agents, in sequence.")
       (on_ui (setPipelineStage 3)
          (on_ui (setOutline "TITLE OPTIONS")
             (on_ui (setPipelineStage 2)
                (on_ui (setResearchAnalysis "KEY INSIGHTS")
                   (pipeline_started collect_world)))))).

Definition requests_of_run : list Request :=
  [agent_request RESEARCH_AGENT (research_message (ui collect_world));
   agent_request OUTLINE_AGENT
     (outline_message "KEY INSIGHTS" (selectedFormat (ui collect_world))
        (topicAngle (ui collect_world)));
   agent_request WRITING_AGENT
     (writing_message "KEY INSIGHTS" "TITLE OPTIONS" (selectedFormat (ui collect_world))
        (topicAngle (ui collect_world)))].

(** * Properties *)

(** ** Strings *)

Lemma string_app_assoc (a b c : string) : (a +:+ b) +:+ c = a +:+ (b +:+ c).
Proof. induction a as [|x a IH]; simpl; [reflexivity | now rewrite IH]. Qed.

Lemma string_app_nil_r (a : string) : a +:+ EmptyString = a.
Proof. induction a as [|x a IH]; simpl; [reflexivity | now rewrite IH]. Qed.

Lemma string_length_app (a b : string) :
  String.length (a +:+ b) = String.length a + String.length b.
Proof. induction a as [|x a IH]; simpl; [reflexivity | now rewrite IH]. Qed.

Lemma truthy_true_iff (s : string) : JS.truthy s = true <-> s <> EmptyString.
Proof. destruct s; simpl; split; congruence. Qed.

Lemma gt_half_spec (a b : nat) : JS.gt_half a b = (b <? 2 * a).
Proof.
  unfold JS.gt_half, Qle_bool. cbn [Qnum Qden Qmult inject_Z].
  destruct (b <? 2 * a) eqn:E.
  - apply Nat.ltb_lt in E. apply negb_true_iff, Z.leb_gt. lia.
  - apply Nat.ltb_ge in E. apply negb_false_iff, Z.leb_le. lia.
Qed.

(** ** JSON: [parse] inverts [stringify] *)

(** The escape of a character reads back as the character. *)
Lemma parse_quote_char (c : ascii) (tail : string) :
  JSON.parse_chars (JSON.quote_char c +:+ tail) = JSON.cons_char c (JSON.parse_chars tail).
Proof. destruct c as [[] [] [] [] [] [] [] []]; reflexivity. Qed.

Lemma parse_quote_chars (s rest : string) :
  JSON.parse_chars (JSON.quote_chars s +:+ String JS.DQ rest) = Some (s, rest).
Proof.
  induction s as [|c s IH]; simpl.
  - reflexivity.
  - rewrite string_app_assoc, parse_quote_char, IH. reflexivity.
Qed.

Lemma parse_quote (s rest : string) :
  exists t, JSON.quote s +:+ rest = String JS.DQ t /\ JSON.parse_chars t = Some (s, rest).
Proof.
  unfold JSON.quote. simpl. eexists. split; [reflexivity |].
  rewrite string_app_assoc. simpl. apply parse_quote_chars.
Qed.

(** A value is written with a first character that is neither white space
    nor a closing bracket. *)
Lemma stringify_head (v : JSON.value) :
  exists c t, JSON.stringify v = String c t
              /\ JSON.is_ws c = false
              /\ (c =? "]")%char = false
              /\ (c =? "}")%char = false.
Proof.
  destruct v as [|[]| | |]; simpl; eexists; eexists; (split; [reflexivity |]); auto.
Qed.

(** One step of the parser on each shape of text [stringify] writes. *)

Lemma parse_value_string (f : nat) (t : string) :
  JSON.parse_value (S f) (String JS.DQ t) =
    match JSON.parse_chars t with
    | Some (s, rest) => Some (JSON.Str s, rest)
    | None => None
    end.
Proof. reflexivity. Qed.

Lemma parse_value_array (f : nat) (c : ascii) (t : string) :
  JSON.is_ws c = false -> (c =? "]")%char = false ->
  JSON.parse_value (S f) (String "[" (String c t)) =
    match JSON.parse_elements f (String c t) with
    | Some (xs, rest) => Some (JSON.Arr xs, rest)
    | None => None
    end.
Proof.
  intros Hws Hbr.
  change (JSON.parse_value (S f) (String "[" (String c t)))
    with (match JSON.skip_ws (String c t) with
          | EmptyString => None
          | String d s2 =>
              if (d =? "]")%char then Some (JSON.Arr [], s2)
              else match JSON.parse_elements f (String c t) with
                   | Some (xs, rest) => Some (JSON.Arr xs, rest)
                   | None => None
                   end
          end).
  cbn [JSON.skip_ws]. rewrite Hws, Hbr. reflexivity.
Qed.

Lemma parse_value_object (f : nat) (t : string) :
  JSON.parse_value (S f) (String "{" (String JS.DQ t)) =
    match JSON.parse_members f (String JS.DQ t) with
    | Some (ms, rest) => Some (JSON.Obj ms, rest)
    | None => None
    end.
Proof. reflexivity. Qed.

Lemma parse_elements_last (f : nat) (x : JSON.value) (s rest : string) :
  JSON.parse_value f s = Some (x, String "]" rest) ->
  JSON.parse_elements (S f) s = Some ([x], rest).
Proof. intros H. cbn [JSON.parse_elements]. rewrite H. reflexivity. Qed.

Lemma parse_elements_sep (f : nat) (x : JSON.value) (s tail : string) :
  JSON.parse_value f s = Some (x, String "," tail) ->
  JSON.parse_elements (S f) s =
    match JSON.parse_elements f tail with
    | Some (vs, rest) => Some (x :: vs, rest)
    | None => None
    end.
Proof. intros H. cbn [JSON.parse_elements]. rewrite H. reflexivity. Qed.

Lemma parse_members_last (f : nat) (k : string) (v : JSON.value) (t s3 rest : string) :
  JSON.parse_chars t = Some (k, String ":" s3) ->
  JSON.parse_value f s3 = Some (v, String "}" rest) ->
  JSON.parse_members (S f) (String JS.DQ t) = Some ([(k, v)], rest).
Proof.
  intros H1 H2.
  change (JSON.parse_members (S f) (String JS.DQ t))
    with (match JSON.parse_chars t with
          | None => None
          | Some (k, s2) =>
              match JSON.skip_ws s2 with
              | String ":" s3 =>
                  match JSON.parse_value f s3 with
                  | None => None
                  | Some (v, s4) =>
                      match JSON.skip_ws s4 with
                      | EmptyString => None
                      | String d s5 =>
                          if (d =? ",")%char then
                            match JSON.parse_members f s5 with
                            | Some (ms, rest) => Some ((k, v) :: ms, rest)
                            | None => None
                            end
                          else if (d =? "}")%char then Some ([(k, v)], s5)
                          else None
                      end
                  end
              | _ => None
              end
          end).
  rewrite H1. cbn [JSON.skip_ws]. change (JSON.is_ws ":") with false. cbv iota.
  rewrite H2. reflexivity.
Qed.

Lemma parse_members_sep (f : nat) (k : string) (v : JSON.value) (t s3 tail : string) :
  JSON.parse_chars t = Some (k, String ":" s3) ->
  JSON.parse_value f s3 = Some (v, String "," tail) ->
  JSON.parse_members (S f) (String JS.DQ t) =
    match JSON.parse_members f tail with
    | Some (ms, rest) => Some ((k, v) :: ms, rest)
    | None => None
    end.
Proof.
  intros H1 H2.
  change (JSON.parse_members (S f) (String JS.DQ t))
    with (match JSON.parse_chars t with
          | None => None
          | Some (k, s2) =>
              match JSON.skip_ws s2 with
              | String ":" s3 =>
                  match JSON.parse_value f s3 with
                  | None => None
                  | Some (v, s4) =>
                      match JSON.skip_ws s4 with
                      | EmptyString => None
                      | String d s5 =>
                          if (d =? ",")%char then
                            match JSON.parse_members f s5 with
                            | Some (ms, rest) => Some ((k, v) :: ms, rest)
                            | None => None
                            end
                          else if (d =? "}")%char then Some ([(k, v)], s5)
                          else None
                      end
                  end
              | _ => None
              end
          end).
  rewrite H1. cbn [JSON.skip_ws]. change (JSON.is_ws ":") with false. cbv iota.
  rewrite H2. reflexivity.
Qed.

Lemma parse_elements_stringify (xs : list JSON.value) :
  Forall parses xs ->
  forall x fuel rest,
    parses x ->
    S (JSON.size x) + list_sum (map (fun y => S (JSON.size y)) xs) <= fuel ->
    JSON.parse_elements fuel
      (JS.join "," (map JSON.stringify (x :: xs)) +:+ String "]" rest)
    = Some (x :: xs, rest).
Proof.
  induction 1 as [|y ys Hy Hys IH]; intros x fuel rest Hx Hfuel;
    (destruct fuel as [|f]; [simpl in Hfuel; lia |]).
  - apply parse_elements_last. apply Hx. simpl in Hfuel. lia.
  - change (JS.join "," (map JSON.stringify (x :: y :: ys)))
      with (JSON.stringify x +:+ "," +:+ JS.join "," (map JSON.stringify (y :: ys))).
    rewrite !string_app_assoc.
    rewrite (parse_elements_sep f x _
               (JS.join "," (map JSON.stringify (y :: ys)) +:+ String "]" rest)).
    + rewrite IH; [reflexivity | assumption |]. simpl in Hfuel |- *. lia.
    + apply Hx. simpl in Hfuel. lia.
Qed.

Lemma parse_members_stringify (ms : list (string * JSON.value)) :
  Forall (fun m => parses (snd m)) ms ->
  forall m fuel rest,
    parses (snd m) ->
    S (JSON.size (snd m)) + list_sum (map (fun y => S (JSON.size (snd y))) ms) <= fuel ->
    JSON.parse_members fuel
      (JS.join "," (map member_text (m :: ms)) +:+ String "}" rest)
    = Some (m :: ms, rest).
Proof.
  induction 1 as [|y ys Hy Hys IH]; intros [k v] fuel rest Hx Hfuel;
    (destruct fuel as [|f]; [simpl in Hfuel; lia |]); cbn [fst snd] in *.
  - cbn [map JS.join String.concat]. unfold member_text. cbn [fst snd].
    rewrite !string_app_assoc.
    destruct (parse_quote k (":" +:+ JSON.stringify v +:+ String "}" rest))
      as (t & Ht & Hk).
    rewrite Ht. eapply parse_members_last; [exact Hk |].
    apply Hx. simpl in Hfuel. lia.
  - change (JS.join "," (map member_text ((k, v) :: y :: ys)))
      with (member_text (k, v) +:+ "," +:+ JS.join "," (map member_text (y :: ys))).
    unfold member_text at 1. cbn [fst snd].
    rewrite !string_app_assoc.
    destruct (parse_quote k (":" +:+ JSON.stringify v +:+ "," +:+
                JS.join "," (map member_text (y :: ys)) +:+ String "}" rest))
      as (t & Ht & Hk).
    rewrite Ht.
    rewrite (parse_members_sep f k v t
               (JSON.stringify v +:+ "," +:+
                JS.join "," (map member_text (y :: ys)) +:+ String "}" rest)
               (JS.join "," (map member_text (y :: ys)) +:+ String "}" rest) Hk).
    + rewrite IH; [reflexivity | assumption |]. simpl in Hfuel |- *. lia.
    + apply Hx. simpl in Hfuel. lia.
Qed.

Lemma join_head (x : string) (xs : list string) (c : ascii) (t : string) :
  x = String c t -> exists t', JS.join "," (x :: xs) = String c t'.
Proof.
  intros ->. destruct xs as [|y ys]; simpl; eexists; reflexivity.
Qed.

Lemma stringify_obj (ms : list (string * JSON.value)) :
  JSON.stringify (JSON.Obj ms) = "{" +:+ JS.join "," (map member_text ms) +:+ "}".
Proof. reflexivity. Qed.

Lemma stringify_arr (xs : list JSON.value) :
  JSON.stringify (JSON.Arr xs) = "[" +:+ JS.join "," (map JSON.stringify xs) +:+ "]".
Proof. reflexivity. Qed.

Lemma parse_value_stringify (v : JSON.value) : parses v.
Proof.
  induction v as [| b | s | xs IH | ms IH] using value_ind_nested;
    intros fuel rest Hfuel;
    (destruct fuel as [|f]; [simpl in Hfuel; lia |]).
  - reflexivity.
  - destruct b; reflexivity.
  - destruct (parse_quote s rest) as (t & Ht & Hs).
    cbn [JSON.stringify]. rewrite Ht, parse_value_string, Hs. reflexivity.
  - rewrite stringify_arr. destruct IH as [|x xs Hx Hxs].
    + reflexivity.
    + destruct (stringify_head x) as (c & t & Hc & Hws & Hbr & _).
      destruct (join_head (JSON.stringify x) (map JSON.stringify xs) c t Hc) as [t' Ht'].
      cbn [String.append]. rewrite !string_app_assoc.
      pose proof (parse_elements_stringify xs Hxs x f rest Hx) as Hel.
      cbn [map] in Hel |- *. rewrite Ht' in *. cbn [String.append] in *.
      rewrite parse_value_array by assumption.
      rewrite Hel; [reflexivity |]. simpl in Hfuel. lia.
  - rewrite stringify_obj. destruct IH as [|m ms Hm Hms].
    + reflexivity.
    + pose proof (parse_members_stringify ms Hms m f rest Hm) as Hel.
      cbn [String.append]. rewrite !string_app_assoc.
      assert (Hhd : exists t, JS.join "," (map member_text (m :: ms)) = String JS.DQ t).
      { destruct ms; cbn; eexists; reflexivity. }
      destruct Hhd as [t Ht]. rewrite Ht in *. cbn [String.append] in *.
      rewrite parse_value_object.
      rewrite Hel; [reflexivity |]. simpl in Hfuel. lia.
Qed.

Lemma join_length_bound (texts : list string) (sizes : list nat) :
  Forall2 (fun t n => n <= String.length t) texts sizes ->
  list_sum (map S sizes) <= String.length (JS.join "," texts) + 1.
Proof.
  induction 1 as [|t n texts sizes Hn Hrest IH]; simpl.
  - lia.
  - destruct texts as [|t' texts].
    + inversion Hrest; subst. simpl. lia.
    + rewrite !string_length_app. simpl in *. lia.
Qed.

Lemma size_le_length (v : JSON.value) : JSON.size v <= String.length (JSON.stringify v).
Proof.
  induction v as [| b | s | xs IH | ms IH] using value_ind_nested.
  - simpl. lia.
  - destruct b; simpl; lia.
  - simpl. lia.
  - rewrite stringify_arr. cbn [JSON.size].
    rewrite <- (map_map JSON.size S).
    cbn [String.append String.length]. rewrite string_length_app. simpl.
    pose proof (join_length_bound (map JSON.stringify xs) (map JSON.size xs)) as Hb.
    cut (Forall2 (fun t n => n <= String.length t) (map JSON.stringify xs) (map JSON.size xs)).
    { intros HF. specialize (Hb HF). lia. }
    clear Hb. induction IH; simpl; constructor; auto.
  - rewrite stringify_obj. cbn [JSON.size].
    rewrite <- (map_map (fun m => JSON.size (snd m)) S).
    cbn [String.append String.length]. rewrite string_length_app. simpl.
    pose proof (join_length_bound (map member_text ms)
                  (map (fun m => JSON.size (snd m)) ms)) as Hb.
    cut (Forall2 (fun t n => n <= String.length t) (map member_text ms)
           (map (fun m => JSON.size (snd m)) ms)).
    { intros HF. specialize (Hb HF). lia. }
    clear Hb. induction IH as [|m ms Hm Hms IHms]; simpl; constructor; auto.
    unfold member_text. rewrite !string_length_app. lia.
Qed.

(** [JSON.parse(JSON.stringify(v))] is [v]. *)
Lemma parse_stringify (v : JSON.value) : JSON.parse (JSON.stringify v) = Some v.
Proof.
  unfold JSON.parse.
  rewrite <- (string_app_nil_r (JSON.stringify v)) at 2.
  rewrite parse_value_stringify; [reflexivity |].
  pose proof (size_le_length v). lia.
Qed.

(** ** Running asynchronous code *)

Lemma run_pbind {A B} (p : Prog A) (f : A -> Prog B) (net : list FetchOutcome) :
  run (pbind p f) net =
    match run p net with
    | Some (a, reqs, rest) =>
        match run (f a) rest with
        | Some (b, reqs', rest') => Some (b, reqs ++ reqs', rest')
        | None => None
        end
    | None => None
    end.
Proof.
  revert net. induction p as [a | req k IH]; intros net; simpl.
  - destruct (run (f a) net) as [[[b reqs'] rest']|]; reflexivity.
  - destruct net as [|o net]; [reflexivity |].
    rewrite IH. destruct (run (k o) net) as [[[a reqs] rest]|]; [| reflexivity].
    destruct (run (f a) rest) as [[[b reqs'] rest']|]; reflexivity.
Qed.

Lemma run_bind {A B} (m : Action A) (f : A -> Action B) (w : World)
      (net : list FetchOutcome) :
  run (bind m f w) net =
    match run (m w) net with
    | Some (r, reqs, rest) =>
        match fst r with
        | Ok a =>
            match run (f a (snd r)) rest with
            | Some (r', reqs', rest') => Some (r', reqs ++ reqs', rest')
            | None => None
            end
        | Thrown e => Some ((Thrown e, snd r), reqs, rest)
        end
    | None => None
    end.
Proof.
  unfold bind. rewrite run_pbind.
  destruct (run (m w) net) as [[[[[a | e] w'] reqs] rest]|]; simpl; try reflexivity.
  rewrite app_nil_r. reflexivity.
Qed.

Lemma run_try_catch {A} (m : Action A) (handler : string -> Action A) (w : World)
      (net : list FetchOutcome) :
  run (try_catch m handler w) net =
    match run (m w) net with
    | Some (r, reqs, rest) =>
        match fst r with
        | Ok a => Some ((Ok a, snd r), reqs, rest)
        | Thrown e =>
            match run (handler e (snd r)) rest with
            | Some (r', reqs', rest') => Some (r', reqs ++ reqs', rest')
            | None => None
            end
        end
    | None => None
    end.
Proof.
  unfold try_catch. rewrite run_pbind.
  destruct (run (m w) net) as [[[[[a | e] w'] reqs] rest]|]; simpl; try reflexivity.
  rewrite app_nil_r. reflexivity.
Qed.

Lemma run_set (f : AppState -> AppState) (w : World) (net : list FetchOutcome) :
  run (set f w) net = Some ((Ok tt, on_ui f w), [], net).
Proof. reflexivity. Qed.

Lemma run_ret {A} (a : A) (w : World) (net : list FetchOutcome) :
  run (ret a w) net = Some ((Ok a, w), [], net).
Proof. reflexivity. Qed.

(** An agent call issues one request and gives what [agent_reply] makes of
    its outcome; it touches no state. *)
Lemma run_callAgent (systemPrompt userMessage : string) (w : World)
      (o : FetchOutcome) (net : list FetchOutcome) :
  run (callAgent systemPrompt userMessage [] w) (o :: net) =
    Some ((agent_reply o, w), [agent_request systemPrompt userMessage], net).
Proof.
  destruct o as [e | res]; [reflexivity |].
  unfold callAgent, callAgentChat, agent_reply, bind, fetch, json, throw, ret. cbn.
  destruct (ok res); cbn; [destruct (body res) |]; reflexivity.
Qed.

Lemma run_callAgentChat (systemPrompt : string) (msgs : list Turn.t) (w : World)
      (o : FetchOutcome) (net : list FetchOutcome) :
  run (callAgentChat systemPrompt msgs w) (o :: net) =
    Some ((agent_reply o, w), [chat_request systemPrompt msgs], net).
Proof.
  destruct o as [e | res]; [reflexivity |].
  unfold callAgent, callAgentChat, agent_reply, bind, fetch, json, throw, ret. cbn.
  destruct (ok res); cbn; [destruct (body res) |]; reflexivity.
Qed.

(** A call waits as long as the network has not answered. *)
Lemma run_callAgent_pending (systemPrompt userMessage : string) (w : World) :
  run (callAgent systemPrompt userMessage [] w) [] = None.
Proof. reflexivity. Qed.

Ltac run_step :=
  first [ rewrite run_bind | rewrite run_try_catch | rewrite run_set | rewrite run_ret
        | rewrite run_callAgent | rewrite run_callAgentChat ];
  cbn [fst snd app].

(** ** The refinement session *)

Lemma turn_rebuild (l : list Turn.t) :
  map (fun m => {| Turn.role := Turn.role m; Turn.content := Turn.content m |}) l = l.
Proof. induction l as [|[r c] l IH]; simpl; [reflexivity | now rewrite IH]. Qed.

Lemma sendChat_guard (c : AppState) :
  JS.trim (chatInput c) <> EmptyString ->
  chatLoading c = false ->
  negb (JS.truthy (JS.trim (chatInput c))) || chatLoading c = false.
Proof.
  intros Hin Hload. apply truthy_true_iff in Hin. rewrite Hin, Hload. reflexivity.
Qed.

(** The world a refinement turn ends in, for each reply of the agent. *)
Lemma run_sendChat (w : World) (o : FetchOutcome) (net : list FetchOutcome) :
  JS.trim (chatInput (ui w)) <> EmptyString ->
  chatLoading (ui w) = false ->
  run (start sendChat w) (o :: net) =
    Some ((Ok tt, sendChat_end w (agent_reply o)),
          [chat_request CHAT_REFINE
             (chat_preamble (draft (ui w)) ++ chatMessages (ui w)
              ++ [user_turn (JS.trim (chatInput (ui w)))])],
          net).
Proof.
  intros Hin Hload. unfold start, sendChat.
  rewrite (sendChat_guard _ Hin Hload).
  repeat run_step. rewrite turn_rebuild.
  unfold sendChat_end, chat_preamble.
  destruct (agent_reply o) as [response | e]; cbn [fst snd app].
  - repeat run_step.
    destruct (JS.gt_half (JS.length response) (JS.length (draft (ui w))));
      repeat run_step; reflexivity.
  - repeat run_step. reflexivity.
Qed.

(** C1.  In a refinement turn whose agent call succeeds, the draft becomes
    the response exactly when the length of the response is strictly more
    than half the length of the current draft; a response of at most half
    that length leaves the draft as it is.  The turn issues one request, the
    preamble around the draft followed by the transcript. *)
Theorem C1_full_rewrite_detection
        (w : World) (o : FetchOutcome) (response : string) (net : list FetchOutcome) :
  JS.trim (chatInput (ui w)) <> EmptyString ->
  chatLoading (ui w) = false ->
  agent_reply o = Ok response ->
  exists w' req,
    run (start sendChat w) (o :: net) = Some ((Ok tt, w'), [req], net)
    /\ (String.length (draft (ui w)) < 2 * String.length response ->
        draft (ui w') = response)
    /\ (2 * String.length response <= String.length (draft (ui w)) ->
        draft (ui w') = draft (ui w)).
Proof.
  intros Hin Hload Hreply.
  eexists; eexists. split; [apply (run_sendChat w o net Hin Hload) |].
  rewrite Hreply. unfold sendChat_end. rewrite gt_half_spec. unfold JS.length.
  split; intros Hlen.
  - apply Nat.ltb_lt in Hlen. rewrite Hlen. reflexivity.
  - apply Nat.ltb_ge in Hlen. rewrite Hlen. reflexivity.
Qed.

(** C1 at a sample: a draft of 1000 code units, a response of 600. *)
Lemma C1_witness :
  JS.trim (chatInput (ui refine_world)) <> EmptyString
  /\ chatLoading (ui refine_world) = false
  /\ agent_reply (text_reply (filler 600)) = Ok (filler 600)
  /\ exists w' req,
       run (start sendChat refine_world) [text_reply (filler 600)]
       = Some ((Ok tt, w'), [req], [])
       /\ (String.length (draft (ui refine_world)) < 2 * String.length (filler 600) ->
           draft (ui w') = filler 600)
       /\ (2 * String.length (filler 600) <= String.length (draft (ui refine_world)) ->
           draft (ui w') = draft (ui refine_world)).
Proof.
  assert (H1 : JS.trim (chatInput (ui refine_world)) <> EmptyString)
    by (vm_compute; discriminate).
  assert (H2 : chatLoading (ui refine_world) = false) by reflexivity.
  assert (H3 : agent_reply (text_reply (filler 600)) = Ok (filler 600))
    by (vm_compute; reflexivity).
  split; [exact H1 |]. split; [exact H2 |]. split; [exact H3 |].
  exact (C1_full_rewrite_detection refine_world _ _ [] H1 H2 H3).
Defined.

(** The example of the specification: on a draft of 1000 code units, a
    response of 600 replaces the draft and a response of 400 does not. *)
Example refinement_1000_600_400 :
  draft (ui (sendChat_end refine_world (agent_reply (text_reply (filler 600))))) = filler 600
  /\ draft (ui (sendChat_end refine_world (agent_reply (text_reply (filler 400)))))
     = filler 1000.
Proof. split; vm_compute; reflexivity. Qed.

(** C10.  In a refinement turn whose agent call fails, the draft is left as
    it is; the transcript gains the user turn and then an assistant turn
    that holds the description of the error; and the session takes the next
    request: the loading flag is down again, and a next non-blank input
    issues a request that carries the whole transcript. *)
Theorem C10_failed_turn_keeps_session
        (w : World) (o : FetchOutcome) (e : string) (net : list FetchOutcome) :
  JS.trim (chatInput (ui w)) <> EmptyString ->
  chatLoading (ui w) = false ->
  agent_reply o = Thrown e ->
  exists w' req,
    run (start sendChat w) (o :: net) = Some ((Ok tt, w'), [req], net)
    /\ draft (ui w') = draft (ui w)
    /\ chatMessages (ui w') =
         chatMessages (ui w)
         ++ [user_turn (JS.trim (chatInput (ui w))); assistant_turn ("Error: " +:+ e)]
    /\ chatLoading (ui w') = false
    /\ forall (next : string) (o' : FetchOutcome),
         JS.trim next <> EmptyString ->
         exists w'',
           run (start sendChat (on_ui (setChatInput next) w')) [o'] =
             Some ((Ok tt, w''),
                   [chat_request CHAT_REFINE
                      (chat_preamble (draft (ui w)) ++ chatMessages (ui w')
                       ++ [user_turn (JS.trim next)])],
                   []).
Proof.
  intros Hin Hload Hreply.
  eexists; eexists. split; [apply (run_sendChat w o net Hin Hload) |].
  rewrite Hreply. unfold sendChat_end.
  split; [reflexivity |]. split; [cbn; rewrite <- app_assoc; reflexivity |].
  split; [reflexivity |].
  intros next o' Hnext. eexists.
  rewrite run_sendChat; [reflexivity | exact Hnext | reflexivity].
Qed.

(** C10 at a sample: the network fails during the turn. *)
Lemma C10_witness :
  JS.trim (chatInput (ui refine_world)) <> EmptyString
  /\ chatLoading (ui refine_world) = false
  /\ agent_reply (Rejected "Failed to fetch") = Thrown "Failed to fetch"
  /\ exists w' req,
       run (start sendChat refine_world) [Rejected "Failed to fetch"]
       = Some ((Ok tt, w'), [req], [])
       /\ draft (ui w') = draft (ui refine_world)
       /\ chatMessages (ui w') =
            chatMessages (ui refine_world)
            ++ [user_turn (JS.trim (chatInput (ui refine_world)));
                assistant_turn ("Error: " +:+ "Failed to fetch")]
       /\ chatLoading (ui w') = false
       /\ forall (next : string) (o' : FetchOutcome),
            JS.trim next <> EmptyString ->
            exists w'',
              run (start sendChat (on_ui (setChatInput next) w')) [o'] =
                Some ((Ok tt, w''),
                      [chat_request CHAT_REFINE
                         (chat_preamble (draft (ui refine_world)) ++ chatMessages (ui w')
                          ++ [user_turn (JS.trim next)])],
                      []).
Proof.
  assert (H1 : JS.trim (chatInput (ui refine_world)) <> EmptyString)
    by (vm_compute; discriminate).
  split; [exact H1 |]. split; [reflexivity |]. split; [reflexivity |].
  exact (C10_failed_turn_keeps_session refine_world (Rejected "Failed to fetch")
           "Failed to fetch" [] H1 eq_refl eq_refl).
Defined.

(** The transcript of the sample after the failed turn. *)
Example transcript_after_failure :
  map Turn.content
    (chatMessages (ui (sendChat_end refine_world (agent_reply (Rejected "Failed to fetch")))))
  = ["I have your draft ready. What would you like to change? I can adjust tone, restructure sections, expand arguments, cut fluff, add examples, or rewrite specific parts.";
     "Tighten the opening.";
     "Error: Failed to fetch"].
Proof. vm_compute. reflexivity. Qed.

(** ** The pipeline *)

Lemma runPipeline_guard (c : AppState) :
  sources c <> [] -> (length (sources c) =? 0) = false.
Proof. destruct (sources c); [congruence | reflexivity]. Qed.

Lemma run_runPipeline (w : World) (net : list FetchOutcome) :
  sources (ui w) <> [] ->
  run (start runPipeline w) net = pipeline_run w net.
Proof.
  intros Hsrc. unfold start, runPipeline, pipeline_run.
  rewrite (runPipeline_guard _ Hsrc).
  fold (angle_annotation (topicAngle (ui w))).
  fold (research_message (ui w)).
  repeat run_step.
  destruct net as [|o1 net1]; [reflexivity |].
  repeat run_step.
  destruct (agent_reply o1) as [analysis | e]; cbn [fst snd app];
    [| repeat run_step; reflexivity].
  repeat run_step.
  destruct net1 as [|o2 net2]; [reflexivity |].
  repeat run_step.
  destruct (agent_reply o2) as [outlineResult | e]; cbn [fst snd app];
    [| repeat run_step; reflexivity].
  repeat run_step.
  destruct net2 as [|o3 net3]; [reflexivity |].
  repeat run_step.
  destruct (agent_reply o3) as [draftResult | e]; cbn [fst snd app];
    repeat run_step; reflexivity.
Qed.

Lemma join_mapi_entries (l : list Source.t) (i : nat) :
  JS.join (JS.LF +:+ JS.LF) (JS.mapi_from i source_entry l) = Spec.entries (S i) l.
Proof.
  revert i. induction l as [|s l IH]; intros i; [reflexivity |].
  assert (Hentry : source_entry s i = Spec.entry (S i) s).
  { unfold source_entry, Spec.entry. rewrite Nat.add_1_r. reflexivity. }
  destruct l as [|s' l]; [exact Hentry |].
  change (JS.join (JS.LF +:+ JS.LF) (JS.mapi_from i source_entry (s :: s' :: l)))
    with (source_entry s i +:+ (JS.LF +:+ JS.LF)
          +:+ JS.join (JS.LF +:+ JS.LF) (JS.mapi_from (S i) source_entry (s' :: l))).
  rewrite IH, Hentry. reflexivity.
Qed.

Lemma research_message_spec (c : AppState) :
  research_message c = Spec.corpus (sources c) (topicAngle c).
Proof.
  unfold research_message, Spec.corpus, JS.mapi.
  rewrite join_mapi_entries.
  destruct (topicAngle c); reflexivity.
Qed.

Lemma first_request_runPipeline (w : World) :
  sources (ui w) <> [] ->
  first_request (start runPipeline w)
  = Some (agent_request RESEARCH_AGENT (research_message (ui w))).
Proof.
  intros Hsrc. unfold start, runPipeline.
  rewrite (runPipeline_guard _ Hsrc). reflexivity.
Qed.

(** C2.  When the Outline stage fails after the Research stage succeeded,
    the run ends with the stage marker at 0, [researchAnalysis] holding the
    result of the Research stage, and [outline] and [draft] empty.  The
    failure clears nothing: it writes the error and the stage marker only. *)
Theorem C2_outline_failure_keeps_analysis
        (w : World) (o1 o2 : FetchOutcome) (analysis e : string)
        (net : list FetchOutcome) :
  sources (ui w) <> [] ->
  agent_reply o1 = Ok analysis ->
  agent_reply o2 = Thrown e ->
  exists w' req1 req2,
    run (start runPipeline w) (o1 :: o2 :: net) = Some ((Ok tt, w'), [req1; req2], net)
    /\ system req1 = RESEARCH_AGENT
    /\ system req2 = OUTLINE_AGENT
    /\ pipelineStage (ui w') = 0
    /\ researchAnalysis (ui w') = analysis
    /\ outline (ui w') = EmptyString
    /\ draft (ui w') = EmptyString
    /\ w' = pipeline_failed (ui w) e
              (on_ui (setPipelineStage 2)
                 (on_ui (setResearchAnalysis analysis) (pipeline_started w))).
Proof.
  intros Hsrc H1 H2.
  rewrite (run_runPipeline w _ Hsrc). unfold pipeline_run. rewrite H1, H2.
  eexists; eexists; eexists. split; [reflexivity |].
  repeat split; reflexivity.
Qed.

(** C2 at a sample: the Research stage answers, the Outline stage meets an
    overloaded backend. *)
Lemma C2_witness :
  sources (ui collect_world) <> []
  /\ agent_reply (text_reply "KEY INSIGHTS") = Ok "KEY INSIGHTS"
  /\ agent_reply overloaded = Thrown "API 529"
  /\ exists w' req1 req2,
       run (start runPipeline collect_world) [text_reply "KEY INSIGHTS"; overloaded]
       = Some ((Ok tt, w'), [req1; req2], [])
       /\ system req1 = RESEARCH_AGENT
       /\ system req2 = OUTLINE_AGENT
       /\ pipelineStage (ui w') = 0
       /\ researchAnalysis (ui w') = "KEY INSIGHTS"
       /\ outline (ui w') = EmptyString
       /\ draft (ui w') = EmptyString
       /\ w' = pipeline_failed (ui collect_world) "API 529"
                 (on_ui (setPipelineStage 2)
                    (on_ui (setResearchAnalysis "KEY INSIGHTS")
                       (pipeline_started collect_world))).
Proof.
  assert (H1 : sources (ui collect_world) <> []) by (vm_compute; discriminate).
  assert (H2 : agent_reply (text_reply "KEY INSIGHTS") = Ok "KEY INSIGHTS") by reflexivity.
  assert (H3 : agent_reply overloaded = Thrown "API 529") by reflexivity.
  split; [exact H1 |]. split; [exact H2 |]. split; [exact H3 |].
  exact (C2_outline_failure_keeps_analysis collect_world _ _ _ _ [] H1 H2 H3).
Defined.

(** C3.  With an empty working source set, [runPipeline] issues no request:
    it returns at once, the stage marker as it was (0 when it was 0), the
    message of the validation error in the [error] cell, and every artifact,
    the working set, the library and the storage untouched. *)
Theorem C3_empty_sources_refused (w : World) (net : list FetchOutcome) :
  sources (ui w) = [] ->
  first_request (start runPipeline w) = None
  /\ exists w',
       run (start runPipeline w) net = Some ((Ok tt, w'), [], net)
       /\ pipelineStage (ui w') = pipelineStage (ui w)
       /\ (pipelineStage (ui w) = 0 -> pipelineStage (ui w') = 0)
       /\ error (ui w') = "Add at least one source first."
       /\ researchAnalysis (ui w') = researchAnalysis (ui w)
       /\ outline (ui w') = outline (ui w)
       /\ draft (ui w') = draft (ui w)
       /\ sources (ui w') = sources (ui w)
       /\ library (ui w') = library (ui w)
       /\ disk w' = disk w.
Proof.
  intros Hsrc. unfold start, runPipeline. rewrite Hsrc. cbn [length Nat.eqb].
  split; [reflexivity |].
  eexists. split; [apply run_set |].
  repeat split; try reflexivity; auto.
Qed.

(** C3 at a sample: the component as it starts, no source collected. *)
Lemma C3_witness :
  sources (ui {| ui := initial; disk := roomy_storage |}) = []
  /\ first_request (start runPipeline {| ui := initial; disk := roomy_storage |}) = None
  /\ exists w',
       run (start runPipeline {| ui := initial; disk := roomy_storage |}) [overloaded]
       = Some ((Ok tt, w'), [], [overloaded])
       /\ pipelineStage (ui w') = 0
       /\ (0 = 0 -> pipelineStage (ui w') = 0)
       /\ error (ui w') = "Add at least one source first."
       /\ researchAnalysis (ui w') = EmptyString
       /\ outline (ui w') = EmptyString
       /\ draft (ui w') = EmptyString
       /\ sources (ui w') = []
       /\ library (ui w') = Library.empty
       /\ disk w' = roomy_storage.
Proof.
  split; [reflexivity |].
  exact (C3_empty_sources_refused {| ui := initial; disk := roomy_storage |}
           [overloaded] eq_refl).
Defined.

(** C6.  On a non-empty working source set, the first request of the
    pipeline goes to the Research agent, and its conversation is one user
    message: the corpus, every source as ["--- SOURCE i: <title> ---"], a
    newline and its content, numbered from 1 and joined by blank lines, with
    the topic/angle annotation at the end when one is set. *)
Theorem C6_research_corpus (w : World) :
  sources (ui w) <> [] ->
  exists req,
    first_request (start runPipeline w) = Some req
    /\ system req = RESEARCH_AGENT
    /\ messages req = [user_turn (Spec.corpus (sources (ui w)) (topicAngle (ui w)))].
Proof.
  intros Hsrc. eexists. split; [apply (first_request_runPipeline w Hsrc) |].
  split; [reflexivity |].
  cbn [messages agent_request]. rewrite research_message_spec. reflexivity.
Qed.

(** C6 at a sample: one source and an angle. *)
Lemma C6_witness :
  sources (ui collect_world) <> []
  /\ exists req,
       first_request (start runPipeline collect_world) = Some req
       /\ system req = RESEARCH_AGENT
       /\ messages req =
            [user_turn (Spec.corpus (sources (ui collect_world))
                          (topicAngle (ui collect_world)))].
Proof.
  assert (H1 : sources (ui collect_world) <> []) by (vm_compute; discriminate).
  split; [exact H1 |].
  exact (C6_research_corpus collect_world H1).
Defined.

(** The corpus of the sample: one entry, then the annotation. *)
Example corpus_of_sample :
  Spec.corpus (sources (ui collect_world)) (topicAngle (ui collect_world))
  = "--- SOURCE 1: https://example.org/agents ---" +:+ JS.LF
    +:+ "Summary: pipelines of agents pass drafts along." +:+ JS.LF +:+ JS.LF
    +:+ "TOPIC/ANGLE: orchestration".
Proof. vm_compute. reflexivity. Qed.

(** ** The output format *)

(** C7, as stated, fails: the fourth value of the selector is not
    ["outline-only"]. *)
Lemma C7_outline_only_is_not_a_format :
  ~ (forall v : string,
       In v (map format_id FORMATS)
       <-> In v ["blog"; "thread"; "newsletter"; "outline-only"]).
Proof.
  intros H. destruct (proj2 (H "outline-only")) as [E | [E | [E | [E | []]]]];
    [simpl; tauto | discriminate E ..].
Qed.

(** C7, amended.  The values of the selector are [blog], [thread],
    [newsletter] and [outline]; the chip of a format selects its id.  The
    selected value, whatever string it is, reaches the Outline and Writing
    stages inside the directive ["Output format requested: <value>"] of their
    user message, and nothing else depends on it: not the request of the
    Research stage, not the artifacts, not the stage marker. *)
Theorem C7_format_passed_through
        (w : World) (f : string) (o1 o2 o3 : FetchOutcome)
        (analysis outlineResult draftResult : string) (net : list FetchOutcome) :
  sources (ui w) <> [] ->
  agent_reply o1 = Ok analysis ->
  agent_reply o2 = Ok outlineResult ->
  agent_reply o3 = Ok draftResult ->
  map format_id FORMATS = ["blog"; "thread"; "newsletter"; "outline"]
  /\ selectedFormat initial = "blog"
  /\ (forall opt, In opt FORMATS -> selectedFormat (ui (chooseFormat opt w)) = format_id opt)
  /\ exists w',
       run (start runPipeline (on_ui (setSelectedFormat f) w)) (o1 :: o2 :: o3 :: net)
       = Some ((Ok tt, on_ui (setSelectedFormat f) w'),
               [agent_request RESEARCH_AGENT (research_message (ui w));
                agent_request OUTLINE_AGENT
                  ("RESEARCH ANALYSIS:" +:+ JS.LF +:+ analysis +:+ JS.LF +:+ JS.LF
                   +:+ ("Output format requested: " +:+ f)
                   +:+ angle_annotation (topicAngle (ui w)));
                agent_request WRITING_AGENT
                  ("RESEARCH ANALYSIS:" +:+ JS.LF +:+ analysis +:+ JS.LF +:+ JS.LF
                   +:+ "OUTLINE:" +:+ JS.LF +:+ outlineResult +:+ JS.LF +:+ JS.LF
                   +:+ ("Output format requested: " +:+ f)
                   +:+ angle_annotation (topicAngle (ui w)))],
               net)
       /\ run (start runPipeline w) (o1 :: o2 :: o3 :: net)
          = Some ((Ok tt, w'),
                  [agent_request RESEARCH_AGENT (research_message (ui w));
                   agent_request OUTLINE_AGENT
                     (outline_message analysis (selectedFormat (ui w)) (topicAngle (ui w)));
                   agent_request WRITING_AGENT
                     (writing_message analysis outlineResult (selectedFormat (ui w))
                        (topicAngle (ui w)))],
                  net)
       /\ pipelineStage (ui w') = 4
       /\ researchAnalysis (ui w') = analysis
       /\ outline (ui w') = outlineResult
       /\ draft (ui w') = draftResult.
Proof.
  intros Hsrc H1 H2 H3.
  split; [reflexivity |]. split; [reflexivity |]. split; [reflexivity |].
  eexists.
  rewrite (run_runPipeline (on_ui (setSelectedFormat f) w) _ Hsrc).
  rewrite (run_runPipeline w _ Hsrc).
  unfold pipeline_run. rewrite H1, H2, H3.
  split; [| split; [reflexivity |]; repeat split; reflexivity].
  reflexivity.
Qed.

(** C7 at a sample: the three stages answer, the format is [outline]. *)
Lemma C7_witness :
  sources (ui collect_world) <> []
  /\ agent_reply (text_reply "KEY INSIGHTS") = Ok "KEY INSIGHTS"
  /\ agent_reply (text_reply "TITLE OPTIONS") = Ok "TITLE OPTIONS"
  /\ agent_reply (text_reply "Agents, in sequence.") = Ok "Agents, in sequence."
  /\ map format_id FORMATS = ["blog"; "thread"; "newsletter"; "outline"]
  /\ selectedFormat initial = "blog"
  /\ (forall opt, In opt FORMATS ->
                  selectedFormat (ui (chooseFormat opt collect_world)) = format_id opt)
  /\ exists w',
       run (start runPipeline (on_ui (setSelectedFormat "outline") collect_world))
         [text_reply "KEY INSIGHTS"; text_reply "TITLE OPTIONS";
          text_reply "Agents, in sequence."]
       = Some ((Ok tt, on_ui (setSelectedFormat "outline") w'),
               [agent_request RESEARCH_AGENT (research_message (ui collect_world));
                agent_request OUTLINE_AGENT
                  ("RESEARCH ANALYSIS:" +:+ JS.LF +:+ "KEY INSIGHTS" +:+ JS.LF +:+ JS.LF
                   +:+ ("Output format requested: " +:+ "outline")
                   +:+ angle_annotation (topicAngle (ui collect_world)));
                agent_request WRITING_AGENT
                  ("RESEARCH ANALYSIS:" +:+ JS.LF +:+ "KEY INSIGHTS" +:+ JS.LF +:+ JS.LF
                   +:+ "OUTLINE:" +:+ JS.LF +:+ "TITLE OPTIONS" +:+ JS.LF +:+ JS.LF
                   +:+ ("Output format requested: " +:+ "outline")
                   +:+ angle_annotation (topicAngle (ui collect_world)))],
               [])
       /\ run (start runPipeline collect_world)
            [text_reply "KEY INSIGHTS"; text_reply "TITLE OPTIONS";
             text_reply "Agents, in sequence."]
          = Some ((Ok tt, w'),
                  [agent_request RESEARCH_AGENT (research_message (ui collect_world));
                   agent_request OUTLINE_AGENT
                     (outline_message "KEY INSIGHTS" (selectedFormat (ui collect_world))
                        (topicAngle (ui collect_world)));
                   agent_request WRITING_AGENT
                     (writing_message "KEY INSIGHTS" "TITLE OPTIONS"
                        (selectedFormat (ui collect_world))
                        (topicAngle (ui collect_world)))],
                  [])
       /\ pipelineStage (ui w') = 4
       /\ researchAnalysis (ui w') = "KEY INSIGHTS"
       /\ outline (ui w') = "TITLE OPTIONS"
       /\ draft (ui w') = "Agents, in sequence.".
Proof.
  assert (H0 : sources (ui collect_world) <> []) by (vm_compute; discriminate).
  split; [exact H0 |]. split; [reflexivity |]. split; [reflexivity |].
  split; [reflexivity |].
  exact (C7_format_passed_through collect_world "outline"
           (text_reply "KEY INSIGHTS") (text_reply "TITLE OPTIONS")
           (text_reply "Agents, in sequence.")
           "KEY INSIGHTS" "TITLE OPTIONS" "Agents, in sequence." []
           H0 eq_refl eq_refl eq_refl).
Defined.

(** The directive the Outline stage receives for the fourth format. *)
Example outline_only_directive :
  outline_message "KEY INSIGHTS" "outline" EmptyString
  = "RESEARCH ANALYSIS:" +:+ JS.LF +:+ "KEY INSIGHTS" +:+ JS.LF +:+ JS.LF
    +:+ "Output format requested: outline".
Proof. reflexivity. Qed.

(** ** Blank input *)

Lemma trimStart_blank (s : string) :
  blank s = true -> JS.trimStart s = EmptyString.
Proof.
  unfold blank. induction s as [|c s IH]; simpl; [reflexivity |].
  intros H. apply andb_true_iff in H as [Hc Hs]. rewrite Hc. auto.
Qed.

Lemma trimStart_not_blank (s : string) :
  blank s = false ->
  exists c t, JS.trimStart s = String c t /\ JS.is_white_space c = false.
Proof.
  unfold blank. induction s as [|c s IH]; simpl; [discriminate |].
  destruct (JS.is_white_space c) eqn:Hc; simpl; [exact IH |].
  intros _. exists c, s. auto.
Qed.

Lemma trimEnd_head (c : ascii) (t : string) :
  JS.is_white_space c = false -> JS.trimEnd (String c t) <> EmptyString.
Proof.
  intros Hc. simpl. destruct (JS.trimEnd t); [rewrite Hc |]; discriminate.
Qed.

(** [s.trim()] is empty exactly when [s] is made of white space only. *)
Lemma trim_blank (s : string) : JS.trim s = EmptyString <-> blank s = true.
Proof.
  unfold JS.trim. destruct (blank s) eqn:Hb.
  - rewrite (trimStart_blank s Hb). simpl. tauto.
  - destruct (trimStart_not_blank s Hb) as (c & t & -> & Hc).
    split; [| discriminate]. intros H. destruct (trimEnd_head c t Hc H).
Qed.

(** ** Lists keyed by [id] *)

Section keyed.
Context {A : Type} (id_of : A -> string).

Lemma has_id_In (i : string) (xs : list A) :
  has_id id_of i xs = true <-> In i (map id_of xs).
Proof.
  unfold has_id. induction xs as [|x xs IH]; simpl.
  - split; [discriminate | tauto].
  - destruct (String.eqb_spec (id_of x) i) as [E | E].
    + split; auto.
    + rewrite IH. split; [auto | intros [H | H]; [contradiction | exact H]].
Qed.

Lemma has_id_false (i : string) (xs : list A) :
  has_id id_of i xs = false <-> ~ In i (map id_of xs).
Proof.
  rewrite <- has_id_In. destruct (has_id id_of i xs); split; congruence.
Qed.

Lemma NoDup_ids_filter (p : A -> bool) (xs : list A) :
  NoDup (map id_of xs) -> NoDup (map id_of (List.filter p xs)).
Proof.
  induction xs as [|x xs IH]; simpl; intros H; [constructor |].
  inversion H as [|? ? Hx Hxs]; subst.
  destruct (p x); simpl; [constructor |]; auto.
  intros Hin. apply Hx. apply in_map_iff in Hin as (y & Hy & Hin).
  apply in_map_iff. exists y. split; [exact Hy |].
  apply List.filter_In in Hin. tauto.
Qed.

Lemma NoDup_ids_snoc (xs : list A) (x : A) :
  NoDup (map id_of (xs ++ [x])) <-> NoDup (map id_of xs) /\ ~ In (id_of x) (map id_of xs).
Proof.
  rewrite map_app. simpl. split.
  - intros H. apply NoDup_remove in H. rewrite app_nil_r in H. exact H.
  - intros [H Hx]. apply NoDup_app; [exact H | repeat constructor; auto |].
    intros y Hy [E | []]. subst. contradiction.
Qed.

End keyed.

(** ** Merging the working set into the library *)

(** The filter of [saveSourcesAll] keeps what the specification keeps. *)
Lemma newSources_surviving (existing incoming : list Source.t) :
  List.filter (fun s => negb (has_id Source.id (Source.id s) existing)) incoming
  = Spec.surviving existing incoming.
Proof.
  induction incoming as [|s rest IH]; simpl; [reflexivity |].
  destruct (In_dec string_dec (Source.id s) (map Source.id existing)) as [Hin | Hout].
  - apply (has_id_In Source.id) in Hin. rewrite Hin. exact IH.
  - apply (has_id_false Source.id) in Hout. rewrite Hout. simpl. now rewrite IH.
Qed.

Lemma surviving_In (existing incoming : list Source.t) (s : Source.t) :
  In s (Spec.surviving existing incoming)
  <-> In s incoming /\ ~ In (Source.id s) (map Source.id existing).
Proof.
  induction incoming as [|x rest IH]; simpl; [tauto |].
  destruct (In_dec string_dec (Source.id x) (map Source.id existing)) as [Hin | Hout].
  - rewrite IH. split; [tauto |]. intros [[E | H] Hs]; [subst; contradiction | tauto].
  - simpl. rewrite IH. split.
    + intros [E | H]; [subst; tauto | tauto].
    + tauto.
Qed.

(** Once merged, nothing of the incoming list is new any more. *)
Lemma surviving_after_merge (existing incoming : list Source.t) :
  Spec.surviving (Spec.mergeSources existing incoming) incoming = [].
Proof.
  unfold Spec.mergeSources.
  assert (H : forall l,
             (forall s, In s l -> In (Source.id s)
                                     (map Source.id (existing ++ Spec.surviving existing incoming))) ->
             Spec.surviving (existing ++ Spec.surviving existing incoming) l = []).
  { induction l as [|x l IH]; intros Hl; simpl; [reflexivity |].
    destruct (In_dec string_dec _ _) as [Hin | Hout].
    - apply IH. intros s Hs. apply Hl. now right.
    - destruct Hout. apply Hl. now left. }
  apply H. intros s Hs. rewrite map_app, in_app_iff.
  destruct (In_dec string_dec (Source.id s) (map Source.id existing)) as [Hin | Hout];
    [now left | right].
  apply in_map. apply surviving_In. auto.
Qed.

Lemma mergeSources_idempotent (existing incoming : list Source.t) :
  Spec.mergeSources (Spec.mergeSources existing incoming) incoming
  = Spec.mergeSources existing incoming.
Proof.
  unfold Spec.mergeSources at 1. rewrite surviving_after_merge. apply app_nil_r.
Qed.

Lemma saveSourcesAll_sources (w : World) :
  Library.sources (library (ui (saveSourcesAll w)))
  = Spec.mergeSources (Library.sources (library (ui w))) (sources (ui w)).
Proof.
  unfold saveSourcesAll, Spec.mergeSources. rewrite newSources_surviving.
  destruct (Spec.surviving _ _) as [|s l]; simpl; [now rewrite app_nil_r | reflexivity].
Qed.

Lemma saveSourcesAll_working_set (w : World) :
  sources (ui (saveSourcesAll w)) = sources (ui w).
Proof.
  unfold saveSourcesAll. destruct (length _ =? 0); reflexivity.
Qed.

(** C4.  [saveSourcesAll] merges the working set [S] into the sources [L] of
    the library: the result is [L], in its order, followed by the records of
    [S] whose id is not in [L], in their order; an incoming record whose id
    is in [L] is dropped.  Merging [S] once more changes nothing: not the
    list, and not the state of the application or the storage. *)
Theorem C4_merge_sources (w : World) :
  let L := Library.sources (library (ui w)) in
  let S := sources (ui w) in
  let w' := saveSourcesAll w in
  Library.sources (library (ui w')) = Spec.mergeSources L S
  /\ Library.sources (library (ui w')) = L ++ Spec.surviving L S
  /\ (forall s, In s (Spec.surviving L S) <-> In s S /\ ~ In (Source.id s) (map Source.id L))
  /\ Spec.mergeSources (Spec.mergeSources L S) S = Spec.mergeSources L S
  /\ saveSourcesAll w' = w'
  /\ sources (ui w') = S
  /\ Library.drafts (library (ui w')) = Library.drafts (library (ui w))
  /\ Library.notes (library (ui w')) = Library.notes (library (ui w)).
Proof.
  intros L S w'. subst L S w'.
  split; [apply saveSourcesAll_sources |].
  split; [apply saveSourcesAll_sources |].
  split; [intros s; apply surviving_In |].
  split; [apply mergeSources_idempotent |].
  split.
  - unfold saveSourcesAll at 1.
    rewrite saveSourcesAll_working_set, saveSourcesAll_sources, newSources_surviving.
    rewrite surviving_after_merge. reflexivity.
  - split; [apply saveSourcesAll_working_set |].
    unfold saveSourcesAll. destruct (length _ =? 0); split; reflexivity.
Qed.

(** ** The library in storage *)

Lemma storage_get_set (key val : string) (st st' : Storage.t) :
  storage_set key val st = Some st' -> storage_get key st' = Some val.
Proof.
  unfold storage_set, storage_get, Storage.setItem, Storage.getItem.
  destruct (_ <=? _)%N; [| discriminate].
  intros H. injection H as <-. simpl. apply lookup_insert_eq.
Qed.

(** What a load finds after a save: the library saved when the write went
    through, and what was there before when it did not. *)
Lemma loadLibrary_saveLibrary (lib : Library.t) (st : Storage.t) :
  loadLibrary (saveLibrary lib st) =
    match storage_set STORAGE_KEY (JSON.stringify (Library.to_value lib)) st with
    | Some _ => Library.to_value lib
    | None => loadLibrary st
    end.
Proof.
  unfold saveLibrary.
  destruct (storage_set _ _ st) as [st' |] eqn:Hset; [| reflexivity].
  unfold loadLibrary. rewrite (storage_get_set _ _ _ _ Hset).
  rewrite parse_stringify. reflexivity.
Qed.

Lemma kind_name_inj (k k' : Source.kind) :
  Source.kind_name k = Source.kind_name k' -> k = k'.
Proof. destruct k, k'; simpl; congruence. Qed.

Lemma source_to_value_inj (s s' : Source.t) :
  Source.to_value s = Source.to_value s' -> s = s'.
Proof.
  destruct s, s'. unfold Source.to_value. simpl. intros H.
  injection H as -> Hk -> -> ->. apply kind_name_inj in Hk. now subst.
Qed.

Lemma draft_to_value_inj (d d' : Draft.t) :
  Draft.to_value d = Draft.to_value d' -> d = d'.
Proof.
  destruct d, d'. unfold Draft.to_value. simpl. intros H.
  injection H as -> -> -> -> -> -> ->. reflexivity.
Qed.

Lemma map_inj {A B} (f : A -> B) (l l' : list A) :
  (forall x y, f x = f y -> x = y) -> map f l = map f l' -> l = l'.
Proof.
  intros Hf. revert l'. induction l as [|x l IH]; intros [|y l']; simpl;
    try discriminate; [reflexivity |].
  intros H. injection H as Hx Hl. f_equal; auto.
Qed.

Lemma library_to_value_inj (lib lib' : Library.t) :
  Library.to_value lib = Library.to_value lib' -> lib = lib'.
Proof.
  destruct lib as [s d n], lib' as [s' d' n']. unfold Library.to_value. simpl.
  intros H. injection H as Hs Hd Hn.
  apply (map_inj _ _ _ source_to_value_inj) in Hs, Hn.
  apply (map_inj _ _ _ draft_to_value_inj) in Hd.
  now subst.
Qed.

(** Nothing stored, or a text that does not parse: the empty library. *)
Example loadLibrary_without_data :
  loadLibrary roomy_storage = Library.to_value Library.empty
  /\ loadLibrary corrupt_storage = Library.to_value Library.empty.
Proof. split; vm_compute; reflexivity. Qed.

(** C9, as stated, fails: where the storage takes no write, nothing of a
    library saved is found by a later load. *)
Lemma C9_rejected_write_is_lost :
  ~ (forall (lib : Library.t) (st : Storage.t),
       loadLibrary (saveLibrary lib st) = Library.to_value lib).
Proof.
  intros H. specialize (H one_note_library full_storage).
  vm_compute in H. discriminate H.
Qed.

(** C9, amended.  Saving a library and loading it gives the library back,
    structurally equal in its three lists, whenever the storage takes the
    write; a write the storage refuses is dropped by [saveLibrary], and the
    load gives what was stored before. *)
Theorem C9_save_then_load (lib : Library.t) (st : Storage.t) :
  loadLibrary (saveLibrary lib st) =
    match storage_set STORAGE_KEY (JSON.stringify (Library.to_value lib)) st with
    | Some _ => Library.to_value lib
    | None => loadLibrary st
    end
  /\ (forall lib', Library.to_value lib' = Library.to_value lib -> lib' = lib).
Proof.
  split; [apply loadLibrary_saveLibrary |].
  intros lib'. apply library_to_value_inj.
Qed.

(** ** Notes, drafts and deletions *)

Lemma not_blank_truthy (s : string) :
  blank s = false -> negb (JS.truthy (JS.trim s)) = false.
Proof.
  intros Hb. apply negb_false_iff, truthy_true_iff.
  intros H. apply trim_blank in H. congruence.
Qed.

Lemma blank_falsy (s : string) :
  blank s = true -> negb (JS.truthy (JS.trim s)) = true.
Proof.
  intros Hb. apply trim_blank in Hb. rewrite Hb. reflexivity.
Qed.

(** C5, as stated, fails: where the storage takes no write, the note is in
    the working set and in the notes of the library in memory, and the
    persisted list does not hold it: a load gives the empty library. *)
Lemma C5_rejected_write_loses_note :
  ~ (forall (uid now : string) (w : World),
       blank (noteInput (ui w)) = false ->
       loadLibrary (disk (addNote uid now w))
       = Library.to_value (library (ui (addNote uid now w)))).
Proof.
  intros H.
  specialize (H "m5zhp3r7u0e6d" "2025-01-16T08:30:00.000Z" full_note_world eq_refl).
  vm_compute in H. discriminate H.
Qed.

(** The note of that session, in memory only. *)
Example note_in_memory_only :
  let w' := addNote "m5zhp3r7u0e6d" "2025-01-16T08:30:00.000Z" full_note_world in
  map Source.id (Library.notes (library (ui w'))) = ["m5y2k8q04f7zc"; "m5zhp3r7u0e6d"]
  /\ map Source.id (sources (ui w')) = ["m5y2j1ab9k2xw"; "m5y2k8q04f7zc"; "m5zhp3r7u0e6d"]
  /\ loadLibrary (disk w') = Library.to_value Library.empty.
Proof. vm_compute. repeat split. Qed.

(** C5, amended.  A note whose content is not white space only makes one
    record of type [note], and [addNote] appends it both to the working
    source set and to the notes of the library in memory, and saves the
    library to storage, all in the one action: a load finds the note when
    the storage has taken the write, and gives what was stored before when
    the storage has refused it, [saveLibrary] dropping the failure.  A
    content made of white space only changes nothing, in the working set,
    the library or the storage. *)
Theorem C5_note_ingestion (uid now : string) (w : World) :
  let c := ui w in
  let w' := addNote uid now w in
  let note :=
    {| Source.id := uid; Source.type := Source.note;
       Source.title := JS.or_else (noteTitle c) "Note";
       Source.content := noteInput c; Source.date := now |} in
  if blank (noteInput c) then w' = w
  else
    sources (ui w') = sources c ++ [note]
    /\ Library.notes (library (ui w')) = Library.notes (library c) ++ [note]
    /\ Library.sources (library (ui w')) = Library.sources (library c)
    /\ Library.drafts (library (ui w')) = Library.drafts (library c)
    /\ disk w' = saveLibrary (library (ui w')) (disk w)
    /\ loadLibrary (disk w') =
         match storage_set STORAGE_KEY
                 (JSON.stringify (Library.to_value (library (ui w')))) (disk w) with
         | Some _ => Library.to_value (library (ui w'))
         | None => loadLibrary (disk w)
         end.
Proof.
  intros c w' note. subst c w' note. unfold addNote.
  destruct (blank (noteInput (ui w))) eqn:Hb.
  - rewrite (blank_falsy _ Hb). reflexivity.
  - rewrite (not_blank_truthy _ Hb). cbn.
    repeat split. apply loadLibrary_saveLibrary.
Qed.

(** A note saved, then found by a load. *)
Example note_is_persisted :
  loadLibrary (disk (addNote "m5zhp3r7u0e6d" "2025-01-16T08:30:00.000Z" note_world))
  = Library.to_value
      (library (ui (addNote "m5zhp3r7u0e6d" "2025-01-16T08:30:00.000Z" note_world))).
Proof. vm_compute. reflexivity. Qed.

Lemma NoDup_merge (existing incoming : list Source.t) :
  NoDup (map Source.id existing) ->
  NoDup (map Source.id incoming) ->
  NoDup (map Source.id (Spec.mergeSources existing incoming)).
Proof.
  intros HL HS. unfold Spec.mergeSources. rewrite map_app.
  apply NoDup_app; [exact HL | |].
  - rewrite <- newSources_surviving. now apply NoDup_ids_filter.
  - intros i Hi Hin. apply in_map_iff in Hin as (s & <- & Hs).
    apply surviving_In in Hs. tauto.
Qed.

(** C8, as stated, fails: [addNote] appends the new note without looking
    for its id among the notes of the library. *)
Lemma C8_addNote_does_not_skip :
  ~ (forall (uid now : string) (w : World),
       ids_unique (library (ui w)) ->
       ids_unique (library (ui (addNote uid now w)))).
Proof.
  intros H.
  assert (Hw : ids_unique (library (ui note_world))).
  { repeat split; simpl; repeat constructor; simpl; tauto. }
  destruct (H (Source.id sample_note) "2025-01-16T08:30:00.000Z" note_world Hw)
    as (_ & _ & Hn).
  vm_compute in Hn. inversion Hn as [|? ? Hin _]. apply Hin. now left.
Qed.

(** C8, amended.  From a library whose three lists have unique ids:
    [saveSourcesAll] keeps them unique when the ids of the working set are
    unique, since it skips the incoming records whose id is in the target
    list; [saveDraft] and [addNote] append without a check, and keep them
    unique when the id just generated is not in the target list;
    [deleteLibItem] keeps them unique. *)
Theorem C8_library_ids_stay_unique
        (w : World) (uid now id : string) (category : Library.category) :
  ids_unique (library (ui w)) ->
  (NoDup (map Source.id (sources (ui w))) ->
   ids_unique (library (ui (saveSourcesAll w))))
  /\ (~ In uid (map Draft.id (Library.drafts (library (ui w)))) ->
      ids_unique (library (ui (saveDraft uid now w))))
  /\ (~ In uid (map Source.id (Library.notes (library (ui w)))) ->
      ids_unique (library (ui (addNote uid now w))))
  /\ ids_unique (library (ui (deleteLibItem category id w))).
Proof.
  intros (Hs & Hd & Hn).
  split; [| split; [| split]].
  - intros HS. unfold ids_unique. rewrite saveSourcesAll_sources.
    split; [now apply NoDup_merge |].
    unfold saveSourcesAll. destruct (length _ =? 0); split; assumption.
  - intros Hfresh. unfold saveDraft.
    destruct (negb _); [repeat split; assumption |].
    repeat split; try assumption. cbn. apply (NoDup_ids_snoc Draft.id). auto.
  - intros Hfresh. unfold addNote.
    destruct (negb _); [repeat split; assumption |].
    repeat split; try assumption. cbn. apply (NoDup_ids_snoc Source.id). auto.
  - destruct category; repeat split; cbn; try assumption;
      now apply NoDup_ids_filter.
Qed.

(** C8 at a sample: a library with one note, a fresh id. *)
Lemma C8_witness :
  ids_unique (library (ui note_world))
  /\ NoDup (map Source.id (sources (ui note_world)))
  /\ ~ In "m5zhp3r7u0e6d" (map Draft.id (Library.drafts (library (ui note_world))))
  /\ ~ In "m5zhp3r7u0e6d" (map Source.id (Library.notes (library (ui note_world))))
  /\ ids_unique (library (ui (saveSourcesAll note_world)))
  /\ ids_unique
       (library (ui (saveDraft "m5zhp3r7u0e6d" "2025-01-16T08:30:00.000Z" note_world)))
  /\ ids_unique
       (library (ui (addNote "m5zhp3r7u0e6d" "2025-01-16T08:30:00.000Z" note_world)))
  /\ ids_unique (library (ui (deleteLibItem Library.Notes "m5y2k8q04f7zc" note_world))).
Proof.
  assert (H0 : ids_unique (library (ui note_world))).
  { repeat split; simpl; repeat constructor; simpl; tauto. }
  assert (H1 : NoDup (map Source.id (sources (ui note_world)))).
  { simpl. repeat (constructor; [simpl; intuition discriminate |]). constructor. }
  assert (H2 : ~ In "m5zhp3r7u0e6d"
                 (map Draft.id (Library.drafts (library (ui note_world))))).
  { simpl. tauto. }
  assert (H3 : ~ In "m5zhp3r7u0e6d"
                 (map Source.id (Library.notes (library (ui note_world))))).
  { simpl. intros [E | []]. discriminate E. }
  destruct (C8_library_ids_stay_unique note_world "m5zhp3r7u0e6d"
              "2025-01-16T08:30:00.000Z" "m5y2k8q04f7zc" Library.Notes H0)
    as (Hs & Hd & Hn & Hdel).
  split; [exact H0 |]. split; [exact H1 |]. split; [exact H2 |]. split; [exact H3 |].
  split; [exact (Hs H1) |]. split; [exact (Hd H2) |]. split; [exact (Hn H3) |].
  exact Hdel.
Defined.

(** X11.  The ids of the working set stay unique through the handlers that
    write it at once, when the id generated is new to it; [loadFromLibrary]
    looks for the id before it appends. *)
Lemma working_set_ids_stay_unique (w : World) (uid now id : string) (item : Source.t) :
  NoDup (map Source.id (sources (ui w))) ->
  (~ In uid (map Source.id (sources (ui w))) ->
   NoDup (map Source.id (sources (ui (addText uid now w))))
   /\ NoDup (map Source.id (sources (ui (addNote uid now w)))))
  /\ NoDup (map Source.id (sources (ui (removeSource id w))))
  /\ NoDup (map Source.id (sources (ui (loadFromLibrary item w)))).
Proof.
  intros Hw. split; [| split].
  - intros Hfresh. split.
    + unfold addText. destruct (negb _); [assumption |].
      cbn. apply (NoDup_ids_snoc Source.id). auto.
    + unfold addNote. destruct (negb _); [assumption |].
      cbn. apply (NoDup_ids_snoc Source.id). auto.
  - cbn. now apply NoDup_ids_filter.
  - unfold loadFromLibrary.
    destruct (has_id Source.id (Source.id item) (sources (ui w))) eqn:Hid;
      [assumption |].
    cbn. apply (NoDup_ids_snoc Source.id). split; [assumption |].
    now apply (has_id_false Source.id).
Qed.

(** The merge of the sample: the source is new to the library, and so is the
    note, which the library holds among its notes only. *)
Example merge_of_sample :
  Library.sources (library (ui (saveSourcesAll note_world))) = [sample_source; sample_note]
  /\ Library.notes (library (ui (saveSourcesAll note_world))) = [sample_note].
Proof. split; reflexivity. Qed.

(** * More of the component *)

(** ** The agent calls *)

Lemma run_callAgent_tools (systemPrompt userMessage : string) (ts : list Tool) (w : World)
      (o : FetchOutcome) (net : list FetchOutcome) :
  run (callAgent systemPrompt userMessage ts w) (o :: net) =
    Some ((agent_reply o, w),
          [{| endpoint := API_URL; model := MODEL; max_tokens := 4000;
              system := systemPrompt; messages := [user_turn userMessage];
              tools := match ts with [] => None | _ :: _ => Some ts end |}],
          net).
Proof.
  destruct o as [e | res]; [destruct ts; reflexivity |].
  unfold callAgent, agent_reply, bind, fetch, json, throw, ret. cbn.
  destruct (ok res); cbn; [destruct (body res) |]; destruct ts; reflexivity.
Qed.

Lemma run_fetchUrlContent (url : string) (w : World) (o : FetchOutcome)
      (net : list FetchOutcome) :
  run (fetchUrlContent url w) (o :: net) = Some ((url_reply o, w), [url_request url], net).
Proof.
  destruct o as [e | res]; [reflexivity |].
  unfold fetchUrlContent, url_reply, bind, fetch, json, throw, ret. cbn.
  destruct (ok res); cbn; [destruct (body res) |]; reflexivity.
Qed.

Lemma ok_status (st : nat) (b : Body) :
  ok {| status := st; body := b |} = true <-> 200 <= st <= 299.
Proof.
  unfold ok. cbn [status]. rewrite andb_true_iff, !Nat.leb_le. tauto.
Qed.

Lemma not_ok_status (st : nat) (b : Body) :
  st < 200 \/ 299 < st -> negb (ok {| status := st; body := b |}) = true.
Proof.
  intros H. apply negb_true_iff. destruct (ok _) eqn:E; [| reflexivity].
  apply ok_status in E. lia.
Qed.

(** X1.  A call of [callAgent] issues exactly one request, whatever the
    network answers: no retry after a failure.  The request carries the
    system prompt, the user message as its only turn, and the tools only
    when the list given is not empty; the call writes no cell and nothing to
    storage. *)
Theorem callAgent_one_request
        (systemPrompt userMessage : string) (ts : list Tool) (w : World)
        (o : FetchOutcome) (net : list FetchOutcome) :
  exists result req,
    run (callAgent systemPrompt userMessage ts w) (o :: net) = Some ((result, w), [req], net)
    /\ system req = systemPrompt
    /\ messages req = [user_turn userMessage]
    /\ tools req = match ts with [] => None | _ :: _ => Some ts end.
Proof.
  eexists; eexists. split; [apply run_callAgent_tools |].
  repeat split.
Qed.

(** X2.  The three ways a call of the agent fails: when [fetch] rejects,
    the message of the rejection is thrown; on a status outside 200..299 the
    error is ["API <status>"], whatever the body holds; on a status inside
    with a body that does not read, the error of the reading. *)
Theorem callAgent_failures
        (systemPrompt userMessage : string) (w : World) (net : list FetchOutcome) :
  (forall e,
     run (callAgent systemPrompt userMessage [] w) (Rejected e :: net)
     = Some ((Thrown e, w), [agent_request systemPrompt userMessage], net))
  /\ (forall st b,
        st < 200 \/ 299 < st ->
        run (callAgent systemPrompt userMessage [] w)
          (Resolved {| status := st; body := b |} :: net)
        = Some ((Thrown ("API " +:+ JS.of_nat st), w),
                [agent_request systemPrompt userMessage], net))
  /\ (forall st e,
        200 <= st <= 299 ->
        run (callAgent systemPrompt userMessage [] w)
          (Resolved {| status := st; body := BodyError e |} :: net)
        = Some ((Thrown e, w), [agent_request systemPrompt userMessage], net)).
Proof.
  split; [| split].
  - intros e. apply run_callAgent.
  - intros st b Hst. rewrite run_callAgent. unfold agent_reply.
    rewrite (not_ok_status st b Hst). reflexivity.
  - intros st e Hst. rewrite run_callAgent. unfold agent_reply.
    apply (ok_status st (BodyError e)) in Hst. rewrite Hst. reflexivity.
Qed.

Lemma callAgent_failures_witness :
  (529 < 200 \/ 299 < 529)
  /\ run (callAgent OUTLINE_AGENT "RESEARCH ANALYSIS:" [] collect_world)
       [Resolved {| status := 529; body := BodyData None |}]
     = Some ((Thrown "API 529", collect_world),
             [agent_request OUTLINE_AGENT "RESEARCH ANALYSIS:"], [])
  /\ 200 <= 200 <= 299
  /\ run (callAgent OUTLINE_AGENT "RESEARCH ANALYSIS:" [] collect_world)
       [Resolved {| status := 200; body := BodyError "Unexpected end of JSON input" |}]
     = Some ((Thrown "Unexpected end of JSON input", collect_world),
             [agent_request OUTLINE_AGENT "RESEARCH ANALYSIS:"], []).
Proof.
  destruct (callAgent_failures OUTLINE_AGENT "RESEARCH ANALYSIS:" collect_world [])
    as (_ & Hstatus & Hbody).
  assert (H1 : 529 < 200 \/ 299 < 529) by lia.
  assert (H2 : 200 <= 200 <= 299) by lia.
  split; [exact H1 |]. split; [exact (Hstatus 529 (BodyData None) H1) |].
  split; [exact H2 |]. exact (Hbody 200 "Unexpected end of JSON input" H2).
Defined.

Lemma reply_text_filter (blocks : list ContentBlock) :
  reply_text (Some blocks)
  = JS.join JS.LF
      (map (fun b => match text b with Some t => t | None => EmptyString end)
         (List.filter has_text blocks)).
Proof.
  unfold reply_text.
  assert (H : List.filter JS.truthy
                (map (fun b => match text b with
                               | Some t => JS.or_else t EmptyString
                               | None => EmptyString
                               end) blocks)
              = map (fun b => match text b with Some t => t | None => EmptyString end)
                  (List.filter has_text blocks)).
  { induction blocks as [|[[t|]] bs IH]; cbn; [reflexivity | | exact IH].
    destruct t as [|c t]; cbn; [exact IH | now rewrite IH]. }
  rewrite H. unfold JS.or_else. destruct (JS.join _ _); reflexivity.
Qed.

(** X3.  A response with a success status never makes the call throw for
    what its content holds: with no [content], or with blocks none of which
    has a text, the call gives the empty string. *)
Theorem callAgent_empty_response
        (systemPrompt userMessage : string) (w : World) (st : nat)
        (blocks : list ContentBlock) (net : list FetchOutcome) :
  200 <= st <= 299 ->
  Forall (fun b => has_text b = false) blocks ->
  run (callAgent systemPrompt userMessage [] w) (response_of st None :: net)
  = Some ((Ok EmptyString, w), [agent_request systemPrompt userMessage], net)
  /\ run (callAgent systemPrompt userMessage [] w) (response_of st (Some blocks) :: net)
     = Some ((Ok EmptyString, w), [agent_request systemPrompt userMessage], net).
Proof.
  intros Hst Hblocks. rewrite !run_callAgent. unfold agent_reply, response_of.
  rewrite (proj2 (ok_status st _) Hst), (proj2 (ok_status st _) Hst). cbn [negb body].
  split; [reflexivity |].
  rewrite reply_text_filter.
  replace (List.filter has_text blocks) with (@nil ContentBlock); [reflexivity |].
  induction Hblocks as [|b bs Hb _ IH]; cbn; [reflexivity |]. now rewrite Hb.
Qed.

Lemma callAgent_empty_response_witness :
  200 <= 200 <= 299
  /\ Forall (fun b => has_text b = false) [{| text := None |}; {| text := Some EmptyString |}]
  /\ run (callAgent RESEARCH_AGENT "corpus" [] collect_world) [response_of 200 None]
     = Some ((Ok EmptyString, collect_world), [agent_request RESEARCH_AGENT "corpus"], [])
  /\ run (callAgent RESEARCH_AGENT "corpus" [] collect_world)
       [response_of 200 (Some [{| text := None |}; {| text := Some EmptyString |}])]
     = Some ((Ok EmptyString, collect_world), [agent_request RESEARCH_AGENT "corpus"], []).
Proof.
  assert (H1 : 200 <= 200 <= 299) by lia.
  assert (H2 : Forall (fun b => has_text b = false)
                 [{| text := None |}; {| text := Some EmptyString |}]).
  { repeat constructor. }
  split; [exact H1 |]. split; [exact H2 |].
  exact (callAgent_empty_response RESEARCH_AGENT "corpus" collect_world 200 _ [] H1 H2).
Defined.

Lemma newline_separated_join (ts : list string) :
  JS.join JS.LF ts = newline_separated ts.
Proof.
  unfold JS.join. induction ts as [|t [|t' rest] IH]; [reflexivity | reflexivity |].
  change (String.concat JS.LF (t :: t' :: rest))
    with (t +:+ JS.LF +:+ String.concat JS.LF (t' :: rest)).
  rewrite IH. reflexivity.
Qed.

Lemma texts_of_filter (blocks : list ContentBlock) :
  map (fun b => match text b with Some t => t | None => EmptyString end)
    (List.filter has_text blocks)
  = texts_of blocks.
Proof.
  induction blocks as [|[[[|c t]|]] rest IH]; cbn; [reflexivity | exact IH | | exact IH].
  now rewrite IH.
Qed.

(** X4.  The text of a reply is the texts of the blocks that have one, in
    their order, with a newline between one and the next, and the empty
    string when there is no [content]: a block without a text, that of a
    tool use for one, leaves no trace, wherever it stands. *)
Theorem reply_joins_text_blocks (blocks before after : list ContentBlock) (b : ContentBlock) :
  reply_text None = EmptyString
  /\ reply_text (Some blocks) = newline_separated (texts_of blocks)
  /\ (has_text b = false ->
      reply_text (Some (before ++ b :: after)) = reply_text (Some (before ++ after))).
Proof.
  split; [reflexivity |]. split.
  - now rewrite reply_text_filter, texts_of_filter, newline_separated_join.
  - intros Hb. rewrite !reply_text_filter, !List.filter_app. cbn. rewrite Hb. reflexivity.
Qed.

(** A reply of two texts around a block of a tool use. *)
Example reply_of_three_blocks :
  reply_text (Some [{| text := Some "Title: Agents" |}; {| text := None |};
                    {| text := Some "Summary." |}])
  = "Title: Agents" +:+ JS.LF +:+ "Summary.".
Proof. reflexivity. Qed.

(** ** Collecting sources *)

Lemma addUrl_guard (c : AppState) :
  blank (urlInput c) = false -> negb (JS.truthy (JS.trim (urlInput c))) = false.
Proof. apply not_blank_truthy. Qed.

(** The world a fetch of a URL ends in, for each outcome. *)
Lemma run_addUrl (uid now : string) (w : World) (o : FetchOutcome)
      (net : list FetchOutcome) :
  blank (urlInput (ui w)) = false ->
  run (start (addUrl uid now) w) (o :: net) =
    Some ((Ok tt, addUrl_end uid now w (url_reply o)),
          [url_request (JS.trim (urlInput (ui w)))], net).
Proof.
  intros Hb. unfold start, addUrl. rewrite (addUrl_guard _ Hb).
  repeat run_step. rewrite run_fetchUrlContent. cbn [fst snd app].
  unfold addUrl_end.
  destruct (url_reply o) as [content | e]; cbn [fst snd app];
    repeat run_step; reflexivity.
Qed.

(** X5.  A fetch of a URL that succeeds appends one source of type [url] to
    the working set: its title is the URL as typed, trimmed, its content the
    text of the reply.  The input is cleared, the flag [fetchingUrl] is down
    and no error is shown; the library and the storage are not written. *)
Theorem addUrl_success
        (uid now : string) (w : World) (o : FetchOutcome) (content : string)
        (net : list FetchOutcome) :
  blank (urlInput (ui w)) = false ->
  url_reply o = Ok content ->
  exists w' req,
    run (start (addUrl uid now) w) (o :: net) = Some ((Ok tt, w'), [req], net)
    /\ messages req =
         [user_turn ("Please fetch and summarize the content at: "
                     +:+ JS.trim (urlInput (ui w)))]
    /\ tools req = Some [{| tool_type := "web_search_20250305"; tool_name := "web_search" |}]
    /\ sources (ui w') =
         sources (ui w)
         ++ [{| Source.id := uid; Source.type := Source.url;
                Source.title := JS.trim (urlInput (ui w)); Source.content := content;
                Source.date := now |}]
    /\ urlInput (ui w') = EmptyString
    /\ fetchingUrl (ui w') = false
    /\ error (ui w') = EmptyString
    /\ library (ui w') = library (ui w)
    /\ disk w' = disk w.
Proof.
  intros Hb Hreply. eexists; eexists.
  split; [apply (run_addUrl uid now w o net Hb) |].
  rewrite Hreply. repeat split.
Qed.

Lemma addUrl_success_witness :
  blank (urlInput (ui url_world)) = false
  /\ url_reply (text_reply "Title: Agents") = Ok "Title: Agents"
  /\ exists w' req,
       run (start (addUrl "m5zk0c1d2e3f4" "2025-01-16T09:00:00.000Z") url_world)
         [text_reply "Title: Agents"]
       = Some ((Ok tt, w'), [req], [])
       /\ messages req =
            [user_turn ("Please fetch and summarize the content at: "
                        +:+ JS.trim (urlInput (ui url_world)))]
       /\ tools req
          = Some [{| tool_type := "web_search_20250305"; tool_name := "web_search" |}]
       /\ sources (ui w') =
            sources (ui url_world)
            ++ [{| Source.id := "m5zk0c1d2e3f4"; Source.type := Source.url;
                   Source.title := JS.trim (urlInput (ui url_world));
                   Source.content := "Title: Agents";
                   Source.date := "2025-01-16T09:00:00.000Z" |}]
       /\ urlInput (ui w') = EmptyString
       /\ fetchingUrl (ui w') = false
       /\ error (ui w') = EmptyString
       /\ library (ui w') = library (ui url_world)
       /\ disk w' = disk url_world.
Proof.
  split; [reflexivity |]. split; [reflexivity |].
  exact (addUrl_success "m5zk0c1d2e3f4" "2025-01-16T09:00:00.000Z" url_world
           (text_reply "Title: Agents") "Title: Agents" [] eq_refl eq_refl).
Defined.

(** X6.  A fetch of a URL that fails leaves the working set as it was and
    keeps the URL in the input; the error shown is ["URL fetch failed: "]
    followed by the message, which is ["Fetch failed: <status>"] for a
    status outside 200..299; the flag [fetchingUrl] is down again. *)
Theorem addUrl_failure
        (uid now : string) (w : World) (o : FetchOutcome) (e : string)
        (net : list FetchOutcome) :
  blank (urlInput (ui w)) = false ->
  url_reply o = Thrown e ->
  (forall st b, o = Resolved {| status := st; body := b |} -> st < 200 \/ 299 < st ->
                e = "Fetch failed: " +:+ JS.of_nat st)
  /\ exists w' req,
       run (start (addUrl uid now) w) (o :: net) = Some ((Ok tt, w'), [req], net)
       /\ sources (ui w') = sources (ui w)
       /\ urlInput (ui w') = urlInput (ui w)
       /\ error (ui w') = "URL fetch failed: " +:+ e
       /\ fetchingUrl (ui w') = false
       /\ library (ui w') = library (ui w)
       /\ disk w' = disk w.
Proof.
  intros Hb Hreply. split.
  - intros st b -> Hst. unfold url_reply in Hreply.
    rewrite (not_ok_status st b Hst) in Hreply. injection Hreply as <-. reflexivity.
  - eexists; eexists. split; [apply (run_addUrl uid now w o net Hb) |].
    rewrite Hreply. repeat split.
Qed.

Lemma addUrl_failure_witness :
  blank (urlInput (ui url_world)) = false
  /\ url_reply (Resolved {| status := 404; body := BodyData None |})
     = Thrown "Fetch failed: 404"
  /\ exists w' req,
       run (start (addUrl "m5zk0c1d2e3f4" "2025-01-16T09:00:00.000Z") url_world)
         [Resolved {| status := 404; body := BodyData None |}]
       = Some ((Ok tt, w'), [req], [])
       /\ sources (ui w') = sources (ui url_world)
       /\ urlInput (ui w') = urlInput (ui url_world)
       /\ error (ui w') = "URL fetch failed: " +:+ "Fetch failed: 404"
       /\ fetchingUrl (ui w') = false
       /\ library (ui w') = library (ui url_world)
       /\ disk w' = disk url_world.
Proof.
  split; [reflexivity |]. split; [reflexivity |].
  exact (proj2 (addUrl_failure "m5zk0c1d2e3f4" "2025-01-16T09:00:00.000Z" url_world
                  (Resolved {| status := 404; body := BodyData None |})
                  "Fetch failed: 404" [] eq_refl eq_refl)).
Defined.

(** X7.  [addUrl] looks at the input only: on a blank input it returns at
    once, no request issued and no cell written; on any other input it
    issues its request even while an earlier fetch is in flight, the flag
    [fetchingUrl] being what disables the button and nothing more.
    [sendChat] does look at its flag: while [chatLoading] is up it issues
    nothing. *)
Theorem addUrl_has_no_in_flight_guard (uid now : string) (w : World) :
  first_request (start (addUrl uid now) w)
  = (if blank (urlInput (ui w)) then None
     else Some (url_request (JS.trim (urlInput (ui w)))))
  /\ (blank (urlInput (ui w)) = true -> start (addUrl uid now) w = Ret (Ok tt, w))
  /\ (chatLoading (ui w) = true -> start sendChat w = Ret (Ok tt, w)).
Proof.
  split; [| split].
  - unfold start, addUrl. destruct (blank (urlInput (ui w))) eqn:Hb.
    + rewrite (blank_falsy _ Hb). reflexivity.
    + rewrite (not_blank_truthy _ Hb). reflexivity.
  - intros Hb. unfold start, addUrl. rewrite (blank_falsy _ Hb). reflexivity.
  - intros Hl. unfold start, sendChat. rewrite Hl, orb_true_r. reflexivity.
Qed.

Lemma addUrl_has_no_in_flight_guard_witness :
  first_request
    (start (addUrl "m5zk0c1d2e3f4" "2025-01-16T09:00:00.000Z")
       (on_ui (setFetchingUrl true) url_world))
  = Some (url_request "https://example.org/agents")
  /\ blank (urlInput (ui (new_session roomy_storage))) = true
  /\ start (addUrl "m5zk0c1d2e3f4" "2025-01-16T09:00:00.000Z") (new_session roomy_storage)
     = Ret (Ok tt, new_session roomy_storage)
  /\ chatLoading (ui (on_ui (setChatLoading true) refine_world)) = true
  /\ start sendChat (on_ui (setChatLoading true) refine_world)
     = Ret (Ok tt, on_ui (setChatLoading true) refine_world).
Proof.
  split.
  - exact (proj1 (addUrl_has_no_in_flight_guard "m5zk0c1d2e3f4" "2025-01-16T09:00:00.000Z"
                    (on_ui (setFetchingUrl true) url_world))).
  - split; [reflexivity |]. split.
    + exact (proj1 (proj2 (addUrl_has_no_in_flight_guard "m5zk0c1d2e3f4"
                             "2025-01-16T09:00:00.000Z" (new_session roomy_storage)))
               eq_refl).
    + split; [reflexivity |].
      exact (proj2 (proj2 (addUrl_has_no_in_flight_guard "m5zk0c1d2e3f4"
                             "2025-01-16T09:00:00.000Z"
                             (on_ui (setChatLoading true) refine_world))) eq_refl).
Defined.

Lemma world_eta (w : World) : {| ui := ui w; disk := disk w |} = w.
Proof. destruct w. reflexivity. Qed.

Lemma setSources_same (c : AppState) (f : list Source.t -> list Source.t) :
  f (sources c) = sources c -> setSources f c = c.
Proof. destruct c. unfold setSources. cbn. intros ->. reflexivity. Qed.

Lemma setSources_setSources (c : AppState) (f g : list Source.t -> list Source.t) :
  setSources f (setSources g c) = setSources (fun p => f (g p)) c.
Proof. reflexivity. Qed.

Lemma without_id_absent {A} (id_of : A -> string) (id : string) (xs : list A) :
  has_id id_of id xs = false -> without_id id_of id xs = xs.
Proof.
  intros H. apply (has_id_false id_of) in H. unfold without_id.
  induction xs as [|x xs IH]; cbn; [reflexivity |].
  destruct (String.eqb_spec (id_of x) id) as [E | E]; cbn.
  - exfalso. apply H. left. exact E.
  - f_equal. apply IH. intros Hin. apply H. now right.
Qed.

Lemma without_id_In {A} (id_of : A -> string) (id : string) (xs : list A) (x : A) :
  In x (without_id id_of id xs) <-> In x xs /\ id_of x <> id.
Proof.
  unfold without_id. rewrite List.filter_In, negb_true_iff, String.eqb_neq. tauto.
Qed.

Lemma without_id_gone {A} (id_of : A -> string) (id : string) (xs : list A) :
  has_id id_of id (without_id id_of id xs) = false.
Proof.
  apply (has_id_false id_of). intros Hin.
  apply in_map_iff in Hin as (x & Hx & Hin). apply without_id_In in Hin. tauto.
Qed.

Lemma without_id_snoc_fresh {A} (id_of : A -> string) (xs : list A) (x : A) :
  has_id id_of (id_of x) xs = false ->
  without_id id_of (id_of x) (xs ++ [x]) = xs.
Proof.
  intros H. unfold without_id. rewrite List.filter_app. cbn.
  rewrite String.eqb_refl. cbn. rewrite app_nil_r.
  now apply without_id_absent.
Qed.

(** X8.  Removing a source takes every record of that id out of the working
    set and keeps the others, in their order; an id that is not there
    changes nothing.  The removal does not reach the library: a source saved
    there stays saved, in memory and in storage. *)
Theorem removeSource_does_not_cascade (id : string) (w : World) :
  let w' := removeSource id w in
  has_id Source.id id (sources (ui w')) = false
  /\ (forall s, In s (sources (ui w')) <-> In s (sources (ui w)) /\ Source.id s <> id)
  /\ sources (ui w') = List.filter (fun s => negb (String.eqb (Source.id s) id)) (sources (ui w))
  /\ library (ui w') = library (ui w)
  /\ disk w' = disk w
  /\ (if has_id Source.id id (sources (ui w)) then True else w' = w).
Proof.
  intros w'. subst w'. unfold removeSource. cbn.
  split; [apply without_id_gone |].
  split; [intros s; apply without_id_In |].
  split; [reflexivity |]. split; [reflexivity |]. split; [reflexivity |].
  destruct (has_id Source.id id (sources (ui w))) eqn:Hid; [exact I |].
  unfold on_ui. rewrite setSources_same; [apply world_eta |].
  now apply without_id_absent.
Qed.

(** X9.  Loading an item of the library into the working set appends it
    when no source of the set has its id, and changes nothing otherwise: the
    item is in the set afterwards, once, and a second click on the same card
    is without effect. *)
Theorem loadFromLibrary_idempotent (item : Source.t) (w : World) :
  let w' := loadFromLibrary item w in
  has_id Source.id (Source.id item) (sources (ui w')) = true
  /\ loadFromLibrary item w' = w'
  /\ sources (ui w') =
       (if has_id Source.id (Source.id item) (sources (ui w)) then sources (ui w)
        else sources (ui w) ++ [item])
  /\ library (ui w') = library (ui w)
  /\ disk w' = disk w.
Proof.
  intros w'. subst w'. unfold loadFromLibrary.
  destruct (has_id Source.id (Source.id item) (sources (ui w))) eqn:Hid; cbn [negb].
  - rewrite Hid. cbn [negb]. repeat split.
  - assert (H : has_id Source.id (Source.id item) (sources (ui w) ++ [item]) = true).
    { apply (has_id_In Source.id). rewrite map_app, in_app_iff. right. now left. }
    cbn [on_ui ui setSources sources]. rewrite H. cbn [negb]. repeat split.
Qed.

(** X10.  Loading an item whose id is new to the working set and then
    removing it by its id gives the working set back. *)
Theorem removeSource_undoes_loadFromLibrary (item : Source.t) (w : World) :
  has_id Source.id (Source.id item) (sources (ui w)) = false ->
  removeSource (Source.id item) (loadFromLibrary item w) = w.
Proof.
  intros Hid. unfold loadFromLibrary. rewrite Hid. cbn [negb].
  unfold removeSource, on_ui. cbn [ui disk].
  rewrite setSources_setSources, setSources_same; [apply world_eta |].
  now apply without_id_snoc_fresh.
Qed.

Lemma removeSource_undoes_loadFromLibrary_witness :
  has_id Source.id (Source.id sample_note) (sources (ui collect_world)) = false
  /\ removeSource (Source.id sample_note) (loadFromLibrary sample_note collect_world)
     = collect_world.
Proof.
  split; [reflexivity |].
  exact (removeSource_undoes_loadFromLibrary sample_note collect_world eq_refl).
Defined.

(** ** The library *)

Lemma without_id_twice {A} (id_of : A -> string) (id : string) (xs : list A) :
  without_id id_of id (without_id id_of id xs) = without_id id_of id xs.
Proof. apply without_id_absent, without_id_gone. Qed.

Lemma saveLibrary_twice (lib : Library.t) (st : Storage.t) :
  saveLibrary lib (saveLibrary lib st) = saveLibrary lib st.
Proof.
  unfold saveLibrary, storage_set, Storage.setItem. cbv zeta.
  destruct (Storage.used _ <=? Storage.quota st)%N eqn:Hfit;
    cbn [Storage.items Storage.quota].
  - rewrite insert_insert_eq, Hfit. reflexivity.
  - rewrite Hfit. reflexivity.
Qed.

(** X12.  Deleting an item of the library takes the records of that id out
    of the list of its category and out of no other: the two other lists and
    the working set are as they were, so a source deleted from the library
    stays in the working set it was loaded into.  The new library is saved
    in the same action, and a second deletion of the same id changes
    nothing, in memory or in storage. *)
Theorem deleteLibItem_one_list_only (category : Library.category) (id : string) (w : World) :
  let lib := library (ui w) in
  let w' := deleteLibItem category id w in
  let lib' := library (ui w') in
  match category with
  | Library.Sources =>
      Library.sources lib' = without_id Source.id id (Library.sources lib)
      /\ has_id Source.id id (Library.sources lib') = false
      /\ Library.drafts lib' = Library.drafts lib
      /\ Library.notes lib' = Library.notes lib
  | Library.Drafts =>
      Library.drafts lib' = without_id Draft.id id (Library.drafts lib)
      /\ has_id Draft.id id (Library.drafts lib') = false
      /\ Library.sources lib' = Library.sources lib
      /\ Library.notes lib' = Library.notes lib
  | Library.Notes =>
      Library.notes lib' = without_id Source.id id (Library.notes lib)
      /\ has_id Source.id id (Library.notes lib') = false
      /\ Library.sources lib' = Library.sources lib
      /\ Library.drafts lib' = Library.drafts lib
  end
  /\ sources (ui w') = sources (ui w)
  /\ disk w' = saveLibrary lib' (disk w)
  /\ deleteLibItem category id w' = w'.
Proof.
  intros lib w' lib'. subst lib w' lib'.
  split; [| split; [| split]].
  - destruct category; cbn; repeat split; apply without_id_gone.
  - reflexivity.
  - reflexivity.
  - destruct category; unfold deleteLibItem, on_ui, on_disk, Library.with_sources,
      Library.with_drafts, Library.with_notes;
      cbn [ui disk library setLibrary Library.sources Library.drafts Library.notes];
      rewrite without_id_twice, saveLibrary_twice; reflexivity.
Qed.



Lemma storage_set_other_key (key other val : string) (st st' : Storage.t) :
  other <> key ->
  storage_set key val st = Some st' -> storage_get other st' = storage_get other st.
Proof.
  unfold storage_set, storage_get, Storage.setItem, Storage.getItem.
  intros Hne. destruct (_ <=? _)%N; [| discriminate].
  intros H. injection H as <-. cbn. now apply lookup_insert_ne.
Qed.

(** X14.  [saveLibrary] writes under the key of the library and nowhere
    else: what the storage holds under any other key is as it was, whether
    the write went through or not. *)
Theorem saveLibrary_writes_its_key_only (lib : Library.t) (st : Storage.t) (key : string) :
  key <> STORAGE_KEY ->
  storage_get key (saveLibrary lib st) = storage_get key st.
Proof.
  intros Hne. unfold saveLibrary.
  destruct (storage_set _ _ st) as [st' |] eqn:Hset; [| reflexivity].
  exact (storage_set_other_key _ _ _ _ _ Hne Hset).
Qed.

Lemma saveLibrary_writes_its_key_only_witness :
  "theme" <> STORAGE_KEY
  /\ storage_get "theme" (saveLibrary one_note_library shared_storage)
     = storage_get "theme" shared_storage.
Proof.
  assert (H : "theme" <> STORAGE_KEY) by discriminate.
  split; [exact H |].
  exact (saveLibrary_writes_its_key_only one_note_library shared_storage "theme" H).
Defined.

(** X15.  A save the storage refuses does not damage what an earlier save
    left there: a load still gives the library of the last save that went
    through, while the library in memory is the newer one. *)
Theorem rejected_save_keeps_last_saved (older newer : Library.t) (st st1 : Storage.t) :
  storage_set STORAGE_KEY (JSON.stringify (Library.to_value older)) st = Some st1 ->
  storage_set STORAGE_KEY (JSON.stringify (Library.to_value newer)) st1 = None ->
  loadLibrary (saveLibrary newer (saveLibrary older st)) = Library.to_value older.
Proof.
  intros H1 H2.
  assert (E : saveLibrary older st = st1) by (unfold saveLibrary; now rewrite H1).
  rewrite loadLibrary_saveLibrary, E, H2, <- E, loadLibrary_saveLibrary, H1.
  reflexivity.
Qed.

Lemma rejected_save_keeps_last_saved_witness :
  storage_set STORAGE_KEY (JSON.stringify (Library.to_value Library.empty)) tight_storage
  = Some (saveLibrary Library.empty tight_storage)
  /\ storage_set STORAGE_KEY (JSON.stringify (Library.to_value one_note_library))
       (saveLibrary Library.empty tight_storage)
     = None
  /\ loadLibrary (saveLibrary one_note_library (saveLibrary Library.empty tight_storage))
     = Library.to_value Library.empty.
Proof.
  assert (H1 : storage_set STORAGE_KEY (JSON.stringify (Library.to_value Library.empty))
                 tight_storage
               = Some (saveLibrary Library.empty tight_storage))
    by (vm_compute; reflexivity).
  assert (H2 : storage_set STORAGE_KEY (JSON.stringify (Library.to_value one_note_library))
                 (saveLibrary Library.empty tight_storage)
               = None)
    by (vm_compute; reflexivity).
  split; [exact H1 |]. split; [exact H2 |].
  exact (rejected_save_keeps_last_saved Library.empty one_note_library tight_storage _ H1 H2).
Defined.

(** The view of a stored value reads back what [to_value] writes. *)
Lemma source_of_to_value (s : Source.t) : source_of_value (Source.to_value s) = Some s.
Proof. destruct s as [i [] t c d]; reflexivity. Qed.

Lemma draft_of_to_value (d : Draft.t) : draft_of_value (Draft.to_value d) = Some d.
Proof. destruct d; reflexivity. Qed.

Lemma all_of_map {A B} (f : A -> option B) (g : B -> A) (ys : list B) :
  (forall y, f (g y) = Some y) -> all_of f (map g ys) = Some ys.
Proof.
  intros H. induction ys as [|y ys IH]; cbn; [reflexivity |]. now rewrite H, IH.
Qed.

Lemma library_of_to_value (lib : Library.t) :
  library_of_value (Library.to_value lib) = Some lib.
Proof.
  destruct lib as [s d n]. unfold Library.to_value, library_of_value.
  cbn [Library.sources Library.drafts Library.notes String.eqb Ascii.eqb Bool.eqb andb].
  rewrite !(all_of_map _ _ _ source_of_to_value), (all_of_map _ _ _ draft_of_to_value).
  reflexivity.
Qed.

(** X16.  What a session saves, the next session starts with: when the
    storage has taken the write of a library, the mount of a new session on
    that storage puts this library in the cell [library] and raises
    [libLoaded]; the other cells are the initial ones. *)
Theorem mount_restores_saved_library (lib : Library.t) (st st' : Storage.t) :
  storage_set STORAGE_KEY (JSON.stringify (Library.to_value lib)) st = Some st' ->
  mount (new_session (saveLibrary lib st))
  = Some {| ui := setLibLoaded true (setLibrary lib initial); disk := st' |}.
Proof.
  intros Hset. unfold mount, new_session. cbn [disk].
  rewrite loadLibrary_saveLibrary, Hset, library_of_to_value.
  unfold saveLibrary. rewrite Hset. reflexivity.
Qed.

Lemma mount_restores_saved_library_witness :
  storage_set STORAGE_KEY (JSON.stringify (Library.to_value one_note_library)) roomy_storage
  = Some (saveLibrary one_note_library roomy_storage)
  /\ mount (new_session (saveLibrary one_note_library roomy_storage))
     = Some {| ui := setLibLoaded true (setLibrary one_note_library initial);
               disk := saveLibrary one_note_library roomy_storage |}.
Proof.
  assert (H : storage_set STORAGE_KEY (JSON.stringify (Library.to_value one_note_library))
                roomy_storage
              = Some (saveLibrary one_note_library roomy_storage))
    by (vm_compute; reflexivity).
  split; [exact H |].
  exact (mount_restores_saved_library one_note_library roomy_storage _ H).
Defined.

Lemma parse_starts_no_value (text : string) :
  starts_no_value text = true -> JSON.parse text = None.
Proof.
  destruct text as [|c rest]; [discriminate |].
  unfold starts_no_value, JSON.parse.
  destruct c as [[] [] [] [] [] [] [] []]; cbn; intros H;
    first [discriminate H | reflexivity].
Qed.

(** X17.  With nothing under the key of the library, with an empty text
    there, or with a text that is no JSON from its first code unit on, the
    mount does not fail: the session starts with the empty library,
    [libLoaded] raised, and the storage is left as it is, the text that is
    no JSON included. *)
Theorem mount_without_usable_data (st : Storage.t) :
  match storage_get STORAGE_KEY st with
  | None => True
  | Some text => text = EmptyString \/ starts_no_value text = true
  end ->
  mount (new_session st)
  = Some {| ui := setLibLoaded true (setLibrary Library.empty initial); disk := st |}.
Proof.
  intros H. unfold mount, new_session, loadLibrary. cbn [disk].
  destruct (storage_get STORAGE_KEY st) as [text |]; [| reflexivity].
  destruct H as [-> | Hno]; [reflexivity |].
  rewrite (parse_starts_no_value text Hno). destruct (JS.truthy text); reflexivity.
Qed.

Lemma mount_without_usable_data_witness :
  match storage_get STORAGE_KEY undefined_storage with
  | None => True
  | Some text => text = EmptyString \/ starts_no_value text = true
  end
  /\ mount (new_session undefined_storage)
     = Some {| ui := setLibLoaded true (setLibrary Library.empty initial);
               disk := undefined_storage |}.
Proof.
  assert (H : match storage_get STORAGE_KEY undefined_storage with
              | None => True
              | Some text => text = EmptyString \/ starts_no_value text = true
              end).
  { vm_compute. right. reflexivity. }
  split; [exact H |].
  exact (mount_without_usable_data undefined_storage H).
Defined.

(** X18.  A note goes to the notes of the library when it is created, and
    to its sources as well with the next "Save All to Library", which
    merges the whole working set, the note included: the library then holds
    the record in both lists. *)
Theorem note_saved_twice (uid now : string) (w : World) :
  blank (noteInput (ui w)) = false ->
  has_id Source.id uid (Library.sources (library (ui w))) = false ->
  let note :=
    {| Source.id := uid; Source.type := Source.note;
       Source.title := JS.or_else (noteTitle (ui w)) "Note";
       Source.content := noteInput (ui w); Source.date := now |} in
  let w' := saveSourcesAll (addNote uid now w) in
  In note (Library.notes (library (ui w')))
  /\ In note (Library.sources (library (ui w'))).
Proof.
  intros Hb Hid note w'. subst w'.
  assert (Hs : sources (ui (addNote uid now w)) = sources (ui w) ++ [note]).
  { unfold addNote. rewrite (not_blank_truthy _ Hb). reflexivity. }
  assert (Hl : library (ui (addNote uid now w))
               = Library.with_notes (library (ui w))
                   (Library.notes (library (ui w)) ++ [note])).
  { unfold addNote. rewrite (not_blank_truthy _ Hb). reflexivity. }
  split.
  - replace (Library.notes (library (ui (saveSourcesAll (addNote uid now w)))))
      with (Library.notes (library (ui (addNote uid now w)))).
    + rewrite Hl. cbn. apply in_or_app. right. now left.
    + unfold saveSourcesAll. destruct (length _ =? 0); reflexivity.
  - rewrite saveSourcesAll_sources, Hs, Hl. unfold Spec.mergeSources.
    cbn [Library.with_notes Library.sources].
    apply in_or_app. right. apply surviving_In. split.
    + apply in_or_app. right. now left.
    + now apply (has_id_false Source.id).
Qed.

Lemma note_saved_twice_witness :
  blank (noteInput (ui note_world)) = false
  /\ has_id Source.id "m5zhp3r7u0e6d" (Library.sources (library (ui note_world))) = false
  /\ let note :=
       {| Source.id := "m5zhp3r7u0e6d"; Source.type := Source.note;
          Source.title := JS.or_else (noteTitle (ui note_world)) "Note";
          Source.content := noteInput (ui note_world);
          Source.date := "2025-01-16T08:30:00.000Z" |} in
     let w' := saveSourcesAll (addNote "m5zhp3r7u0e6d" "2025-01-16T08:30:00.000Z" note_world) in
     In note (Library.notes (library (ui w')))
     /\ In note (Library.sources (library (ui w'))).
Proof.
  split; [reflexivity |]. split; [reflexivity |].
  exact (note_saved_twice "m5zhp3r7u0e6d" "2025-01-16T08:30:00.000Z" note_world
           eq_refl eq_refl).
Defined.

(** The ids of the working set of the sample are unique, and stay so. *)
Lemma working_set_ids_stay_unique_witness :
  NoDup (map Source.id (sources (ui note_world)))
  /\ ~ In "m5zhp3r7u0e6d" (map Source.id (sources (ui note_world)))
  /\ NoDup (map Source.id
              (sources (ui (addText "m5zhp3r7u0e6d" "2025-01-16T08:30:00.000Z" note_world))))
  /\ NoDup (map Source.id
              (sources (ui (addNote "m5zhp3r7u0e6d" "2025-01-16T08:30:00.000Z" note_world))))
  /\ NoDup (map Source.id (sources (ui (removeSource "m5y2j1ab9k2xw" note_world))))
  /\ NoDup (map Source.id (sources (ui (loadFromLibrary sample_note note_world)))).
Proof.
  assert (H1 : NoDup (map Source.id (sources (ui note_world)))).
  { simpl. repeat (constructor; [simpl; intuition discriminate |]). constructor. }
  assert (H2 : ~ In "m5zhp3r7u0e6d" (map Source.id (sources (ui note_world)))).
  { simpl. intuition discriminate. }
  destruct (working_set_ids_stay_unique note_world "m5zhp3r7u0e6d"
              "2025-01-16T08:30:00.000Z" "m5y2j1ab9k2xw" sample_note H1)
    as (Hadd & Hrm & Hload).
  destruct (Hadd H2) as (Htext & Hnote).
  split; [exact H1 |]. split; [exact H2 |]. split; [exact Htext |].
  split; [exact Hnote |]. split; [exact Hrm |]. exact Hload.
Defined.

(** ** The pipeline, stage by stage *)

(** X19.  When the Research stage fails, the run stops there: one request
    issued, the stage marker back at 0.  The three artifacts are empty, those
    of an earlier run included, since the run empties them before its first
    call; and the error shown names the stage the marker was at when the run
    started, not the stage that failed. *)
Theorem research_failure_clears_previous_run
        (w : World) (o : FetchOutcome) (e : string) (net : list FetchOutcome) :
  sources (ui w) <> [] ->
  agent_reply o = Thrown e ->
  exists w',
    run (start runPipeline w) (o :: net)
    = Some ((Ok tt, w'), [agent_request RESEARCH_AGENT (research_message (ui w))], net)
    /\ pipelineStage (ui w') = 0
    /\ researchAnalysis (ui w') = EmptyString
    /\ outline (ui w') = EmptyString
    /\ draft (ui w') = EmptyString
    /\ error (ui w') =
         "Pipeline failed at stage " +:+ JS.of_nat (pipelineStage (ui w)) +:+ ": " +:+ e
    /\ view (ui w') = pipeline.
Proof.
  intros Hsrc Hreply. rewrite (run_runPipeline w _ Hsrc). unfold pipeline_run.
  rewrite Hreply. eexists. split; [reflexivity |]. repeat split.
Qed.

Lemma research_failure_clears_previous_run_witness :
  sources (ui drafted_world) <> []
  /\ agent_reply overloaded = Thrown "API 529"
  /\ draft (ui drafted_world) = "Agents, in sequence."
  /\ exists w',
       run (start runPipeline drafted_world) [overloaded]
       = Some ((Ok tt, w'),
               [agent_request RESEARCH_AGENT (research_message (ui drafted_world))], [])
       /\ pipelineStage (ui w') = 0
       /\ researchAnalysis (ui w') = EmptyString
       /\ outline (ui w') = EmptyString
       /\ draft (ui w') = EmptyString
       /\ error (ui w') = "Pipeline failed at stage " +:+ JS.of_nat 4 +:+ ": " +:+ "API 529"
       /\ view (ui w') = pipeline.
Proof.
  assert (H : sources (ui drafted_world) <> []) by (vm_compute; discriminate).
  split; [exact H |]. split; [reflexivity |]. split; [reflexivity |].
  exact (research_failure_clears_previous_run drafted_world overloaded "API 529" []
           H eq_refl).
Defined.

(** X20.  When the Writing stage fails after the two others succeeded, the
    analysis and the outline of this run are kept and the draft is empty;
    three requests were issued, the stage marker is back at 0. *)
Theorem writing_failure_keeps_analysis_and_outline
        (w : World) (o1 o2 o3 : FetchOutcome) (analysis outlineResult e : string)
        (net : list FetchOutcome) :
  sources (ui w) <> [] ->
  agent_reply o1 = Ok analysis ->
  agent_reply o2 = Ok outlineResult ->
  agent_reply o3 = Thrown e ->
  exists w' req1 req2 req3,
    run (start runPipeline w) (o1 :: o2 :: o3 :: net)
    = Some ((Ok tt, w'), [req1; req2; req3], net)
    /\ system req3 = WRITING_AGENT
    /\ pipelineStage (ui w') = 0
    /\ researchAnalysis (ui w') = analysis
    /\ outline (ui w') = outlineResult
    /\ draft (ui w') = EmptyString
    /\ error (ui w') =
         "Pipeline failed at stage " +:+ JS.of_nat (pipelineStage (ui w)) +:+ ": " +:+ e.
Proof.
  intros Hsrc H1 H2 H3. rewrite (run_runPipeline w _ Hsrc). unfold pipeline_run.
  rewrite H1, H2, H3. eexists; eexists; eexists; eexists.
  split; [reflexivity |]. repeat split.
Qed.

Lemma writing_failure_keeps_analysis_and_outline_witness :
  sources (ui collect_world) <> []
  /\ agent_reply (text_reply "KEY INSIGHTS") = Ok "KEY INSIGHTS"
  /\ agent_reply (text_reply "TITLE OPTIONS") = Ok "TITLE OPTIONS"
  /\ agent_reply (Rejected "Failed to fetch") = Thrown "Failed to fetch"
  /\ exists w' req1 req2 req3,
       run (start runPipeline collect_world)
         [text_reply "KEY INSIGHTS"; text_reply "TITLE OPTIONS"; Rejected "Failed to fetch"]
       = Some ((Ok tt, w'), [req1; req2; req3], [])
       /\ system req3 = WRITING_AGENT
       /\ pipelineStage (ui w') = 0
       /\ researchAnalysis (ui w') = "KEY INSIGHTS"
       /\ outline (ui w') = "TITLE OPTIONS"
       /\ draft (ui w') = EmptyString
       /\ error (ui w') =
            "Pipeline failed at stage " +:+ JS.of_nat 0 +:+ ": " +:+ "Failed to fetch".
Proof.
  assert (H : sources (ui collect_world) <> []) by (vm_compute; discriminate).
  split; [exact H |]. split; [reflexivity |]. split; [reflexivity |].
  split; [reflexivity |].
  exact (writing_failure_keeps_analysis_and_outline collect_world
           (text_reply "KEY INSIGHTS") (text_reply "TITLE OPTIONS")
           (Rejected "Failed to fetch") "KEY INSIGHTS" "TITLE OPTIONS" "Failed to fetch" []
           H eq_refl eq_refl eq_refl).
Defined.

(** X21.  A failed run can be run again: the failure leaves the working
    set, the topic and the format as they were, so the next run sends the
    requests a first run would have sent, and when its three stages succeed
    it ends at stage 4 with its three artifacts and the error cleared. *)
Theorem pipeline_retry_after_failure
        (w : World) (o o1 o2 o3 : FetchOutcome)
        (e analysis outlineResult draftResult : string) :
  sources (ui w) <> [] ->
  agent_reply o = Thrown e ->
  agent_reply o1 = Ok analysis ->
  agent_reply o2 = Ok outlineResult ->
  agent_reply o3 = Ok draftResult ->
  exists w1 w2,
    run (start runPipeline w) [o]
    = Some ((Ok tt, w1), [agent_request RESEARCH_AGENT (research_message (ui w))], [])
    /\ run (start runPipeline w1) [o1; o2; o3]
       = Some ((Ok tt, w2),
               [agent_request RESEARCH_AGENT (research_message (ui w));
                agent_request OUTLINE_AGENT
                  (outline_message analysis (selectedFormat (ui w)) (topicAngle (ui w)));
                agent_request WRITING_AGENT
                  (writing_message analysis outlineResult (selectedFormat (ui w))
                     (topicAngle (ui w)))],
               [])
    /\ pipelineStage (ui w2) = 4
    /\ researchAnalysis (ui w2) = analysis
    /\ outline (ui w2) = outlineResult
    /\ draft (ui w2) = draftResult
    /\ error (ui w2) = EmptyString.
Proof.
  intros Hsrc H H1 H2 H3.
  rewrite (run_runPipeline w _ Hsrc). unfold pipeline_run at 1. rewrite H.
  eexists; eexists. split; [reflexivity |].
  rewrite run_runPipeline by exact Hsrc.
  unfold pipeline_run. rewrite H1, H2, H3.
  split; [reflexivity |]. repeat split.
Qed.

Lemma pipeline_retry_after_failure_witness :
  sources (ui collect_world) <> []
  /\ agent_reply overloaded = Thrown "API 529"
  /\ agent_reply (text_reply "KEY INSIGHTS") = Ok "KEY INSIGHTS"
  /\ agent_reply (text_reply "TITLE OPTIONS") = Ok "TITLE OPTIONS"
  /\ agent_reply (text_reply "Agents, in sequence.") = Ok "Agents, in sequence."
  /\ exists w1 w2,
       run (start runPipeline collect_world) [overloaded]
       = Some ((Ok tt, w1),
               [agent_request RESEARCH_AGENT (research_message (ui collect_world))], [])
       /\ run (start runPipeline w1)
            [text_reply "KEY INSIGHTS"; text_reply "TITLE OPTIONS";
             text_reply "Agents, in sequence."]
          = Some ((Ok tt, w2),
                  [agent_request RESEARCH_AGENT (research_message (ui collect_world));
                   agent_request OUTLINE_AGENT
                     (outline_message "KEY INSIGHTS" (selectedFormat (ui collect_world))
                        (topicAngle (ui collect_world)));
                   agent_request WRITING_AGENT
                     (writing_message "KEY INSIGHTS" "TITLE OPTIONS"
                        (selectedFormat (ui collect_world)) (topicAngle (ui collect_world)))],
                  [])
       /\ pipelineStage (ui w2) = 4
       /\ researchAnalysis (ui w2) = "KEY INSIGHTS"
       /\ outline (ui w2) = "TITLE OPTIONS"
       /\ draft (ui w2) = "Agents, in sequence."
       /\ error (ui w2) = EmptyString.
Proof.
  assert (H : sources (ui collect_world) <> []) by (vm_compute; discriminate).
  split; [exact H |]. split; [reflexivity |]. split; [reflexivity |].
  split; [reflexivity |]. split; [reflexivity |].
  exact (pipeline_retry_after_failure collect_world overloaded
           (text_reply "KEY INSIGHTS") (text_reply "TITLE OPTIONS")
           (text_reply "Agents, in sequence.")
           "API 529" "KEY INSIGHTS" "TITLE OPTIONS" "Agents, in sequence."
           H eq_refl eq_refl eq_refl eq_refl).
Defined.

(** ** What never reaches the library *)

Lemma guard_false (a b : bool) : negb a || b = false -> a = true /\ b = false.
Proof. destruct a, b; cbn; intros H; try discriminate; auto. Qed.

Lemma run_sendChat_untouched (w : World) (net : list FetchOutcome)
      (r : Result unit) (w' : World) (reqs : list Request) (rest : list FetchOutcome) :
  run (start sendChat w) net = Some ((r, w'), reqs, rest) ->
  library (ui w') = library (ui w) /\ disk w' = disk w /\ sources (ui w') = sources (ui w).
Proof.
  destruct (negb (JS.truthy (JS.trim (chatInput (ui w)))) || chatLoading (ui w)) eqn:Hg.
  - unfold start, sendChat. rewrite Hg. cbn. intros H. injection H as _ <- _ _.
    repeat split.
  - destruct net as [|o net].
    + unfold start, sendChat. rewrite Hg. repeat run_step. discriminate.
    + apply guard_false in Hg as [Hin Hload]. apply truthy_true_iff in Hin.
      rewrite (run_sendChat w o net Hin Hload). intros H. injection H as _ <- _ _.
      unfold sendChat_end.
      destruct (agent_reply o) as [response | e]; [| repeat split].
      destruct (JS.gt_half _ _); repeat split.
Qed.

Lemma run_runPipeline_untouched (w : World) (net : list FetchOutcome)
      (r : Result unit) (w' : World) (reqs : list Request) (rest : list FetchOutcome) :
  run (start runPipeline w) net = Some ((r, w'), reqs, rest) ->
  library (ui w') = library (ui w) /\ disk w' = disk w /\ sources (ui w') = sources (ui w).
Proof.
  destruct (sources (ui w)) as [|s l] eqn:Hsrc.
  - unfold start, runPipeline. rewrite Hsrc. cbn. intros H. injection H as _ <- _ _.
    repeat split. exact Hsrc.
  - assert (Hne : sources (ui w) <> []) by (rewrite Hsrc; discriminate).
    rewrite (run_runPipeline w net Hne). unfold pipeline_run. rewrite <- Hsrc.
    destruct net as [|o1 net]; [discriminate |].
    destruct (agent_reply o1); [| intros H; injection H as _ <- _ _; repeat split].
    destruct net as [|o2 net]; [discriminate |].
    destruct (agent_reply o2); [| intros H; injection H as _ <- _ _; repeat split].
    destruct net as [|o3 net]; [discriminate |].
    destruct (agent_reply o3); intros H; injection H as _ <- _ _; repeat split.
Qed.

Lemma run_addUrl_untouched (uid now : string) (w : World) (net : list FetchOutcome)
      (r : Result unit) (w' : World) (reqs : list Request) (rest : list FetchOutcome) :
  run (start (addUrl uid now) w) net = Some ((r, w'), reqs, rest) ->
  library (ui w') = library (ui w) /\ disk w' = disk w.
Proof.
  destruct (blank (urlInput (ui w))) eqn:Hb.
  - unfold start, addUrl. rewrite (blank_falsy _ Hb). cbn.
    intros H. injection H as _ <- _ _. repeat split.
  - destruct net as [|o net].
    + unfold start, addUrl. rewrite (not_blank_truthy _ Hb). repeat run_step. discriminate.
    + rewrite (run_addUrl uid now w o net Hb). intros H. injection H as _ <- _ _.
      unfold addUrl_end. destruct (url_reply o); repeat split.
Qed.

(** X22.  The library and the storage are written by the four handlers of
    the library and by no other: a paste, a removal from the working set, a
    load from the library, the start of a refinement and the opening of a
    draft leave both as they were, and so do a fetch of a URL, a run of the
    pipeline and a turn of the chat, however they end.  A draft the pipeline
    or the chat produced is in the library only once it is saved. *)
Theorem only_library_handlers_write_storage
        (uid now id : string) (item : Source.t) (d : Draft.t) (w : World)
        (net : list FetchOutcome)
        (r : Result unit) (w' : World) (reqs : list Request) (rest : list FetchOutcome) :
  run (start runPipeline w) net = Some ((r, w'), reqs, rest)
  \/ run (start sendChat w) net = Some ((r, w'), reqs, rest)
  \/ run (start (addUrl uid now) w) net = Some ((r, w'), reqs, rest) ->
  (library (ui w') = library (ui w) /\ disk w' = disk w)
  /\ Forall (fun w'' => library (ui w'') = library (ui w) /\ disk w'' = disk w)
       [addText uid now w; removeSource id w; loadFromLibrary item w; startRefine w;
        openDraft d w].
Proof.
  intros H. split.
  - destruct H as [H | [H | H]].
    + apply run_runPipeline_untouched in H. tauto.
    + apply run_sendChat_untouched in H. tauto.
    + apply run_addUrl_untouched in H. exact H.
  - repeat constructor.
    + unfold addText. destruct (negb _); reflexivity.
    + unfold addText. destruct (negb _); reflexivity.
    + unfold loadFromLibrary. destruct (negb _); reflexivity.
    + unfold loadFromLibrary. destruct (negb _); reflexivity.
    + unfold startRefine. destruct (negb _); reflexivity.
    + unfold startRefine. destruct (negb _); reflexivity.
Qed.

Lemma only_library_handlers_write_storage_witness :
  (run (start runPipeline collect_world)
     [text_reply "KEY INSIGHTS"; text_reply "TITLE OPTIONS"; text_reply "Agents, in sequence."]
   = Some ((Ok tt, drafted_after_run), requests_of_run, [])
   \/ run (start sendChat collect_world)
        [text_reply "KEY INSIGHTS"; text_reply "TITLE OPTIONS";
         text_reply "Agents, in sequence."]
      = Some ((Ok tt, drafted_after_run), requests_of_run, [])
   \/ run (start (addUrl "m5zk0c1d2e3f4" "2025-01-16T09:00:00.000Z") collect_world)
        [text_reply "KEY INSIGHTS"; text_reply "TITLE OPTIONS";
         text_reply "Agents, in sequence."]
      = Some ((Ok tt, drafted_after_run), requests_of_run, []))
  /\ draft (ui drafted_after_run) = "Agents, in sequence."
  /\ library (ui drafted_after_run) = library (ui collect_world)
  /\ disk drafted_after_run = disk collect_world.
Proof.
  assert (H : run (start runPipeline collect_world)
                [text_reply "KEY INSIGHTS"; text_reply "TITLE OPTIONS";
                 text_reply "Agents, in sequence."]
              = Some ((Ok tt, drafted_after_run), requests_of_run, []))
    by (vm_compute; reflexivity).
  split; [left; exact H |]. split; [reflexivity |].
  exact (proj1 (only_library_handlers_write_storage
                  "m5zk0c1d2e3f4" "2025-01-16T09:00:00.000Z" "m5y2j1ab9k2xw"
                  sample_note sample_draft collect_world _ _ _ _ _ (or_introl H))).
Defined.

(** ** The refinement chat, turn after turn *)

(** X23.  A turn of the chat that succeeds sends the message trimmed, after
    the preamble and the whole transcript, and appends to the transcript
    the user turn and then the response, whether the response replaces the
    draft or not; the input is cleared and the loading flag is down.  The
    artifacts of the pipeline other than the draft are not written. *)
Theorem sendChat_success_transcript
        (w : World) (o : FetchOutcome) (response : string) (net : list FetchOutcome) :
  JS.trim (chatInput (ui w)) <> EmptyString ->
  chatLoading (ui w) = false ->
  agent_reply o = Ok response ->
  exists w',
    run (start sendChat w) (o :: net)
    = Some ((Ok tt, w'),
            [chat_request CHAT_REFINE
               (chat_preamble (draft (ui w)) ++ chatMessages (ui w)
                ++ [user_turn (JS.trim (chatInput (ui w)))])],
            net)
    /\ chatMessages (ui w') =
         chatMessages (ui w)
         ++ [user_turn (JS.trim (chatInput (ui w))); assistant_turn response]
    /\ chatInput (ui w') = EmptyString
    /\ chatLoading (ui w') = false
    /\ outline (ui w') = outline (ui w)
    /\ researchAnalysis (ui w') = researchAnalysis (ui w)
    /\ pipelineStage (ui w') = pipelineStage (ui w).
Proof.
  intros Hin Hload Hreply. eexists.
  split; [apply (run_sendChat w o net Hin Hload) |].
  rewrite Hreply. unfold sendChat_end.
  destruct (JS.gt_half _ _); repeat split; cbn; now rewrite <- List.app_assoc.
Qed.

Lemma sendChat_success_transcript_witness :
  JS.trim (chatInput (ui refine_world)) <> EmptyString
  /\ chatLoading (ui refine_world) = false
  /\ agent_reply (text_reply "Which opening?") = Ok "Which opening?"
  /\ exists w',
       run (start sendChat refine_world) [text_reply "Which opening?"]
       = Some ((Ok tt, w'),
               [chat_request CHAT_REFINE
                  (chat_preamble (draft (ui refine_world)) ++ chatMessages (ui refine_world)
                   ++ [user_turn (JS.trim (chatInput (ui refine_world)))])],
               [])
       /\ chatMessages (ui w') =
            chatMessages (ui refine_world)
            ++ [user_turn (JS.trim (chatInput (ui refine_world)));
                assistant_turn "Which opening?"]
       /\ chatInput (ui w') = EmptyString
       /\ chatLoading (ui w') = false
       /\ outline (ui w') = outline (ui refine_world)
       /\ researchAnalysis (ui w') = researchAnalysis (ui refine_world)
       /\ pipelineStage (ui w') = pipelineStage (ui refine_world).
Proof.
  assert (H1 : JS.trim (chatInput (ui refine_world)) <> EmptyString)
    by (vm_compute; discriminate).
  split; [exact H1 |]. split; [reflexivity |]. split; [reflexivity |].
  exact (sendChat_success_transcript refine_world (text_reply "Which opening?")
           "Which opening?" [] H1 eq_refl eq_refl).
Defined.

(** X24.  Two turns in a row: when the response of the first turn replaced
    the draft, the second turn presents that response as the current draft
    in its preamble, and carries it once more as the assistant turn of the
    transcript, between the two user turns. *)
Theorem second_turn_presents_new_draft
        (w : World) (o1 o2 : FetchOutcome) (response next : string) :
  JS.trim (chatInput (ui w)) <> EmptyString ->
  chatLoading (ui w) = false ->
  agent_reply o1 = Ok response ->
  String.length (draft (ui w)) < 2 * String.length response ->
  JS.trim next <> EmptyString ->
  exists w1 w2 req1,
    run (start sendChat w) [o1] = Some ((Ok tt, w1), [req1], [])
    /\ run (start sendChat (on_ui (setChatInput next) w1)) [o2]
       = Some ((Ok tt, w2),
               [chat_request CHAT_REFINE
                  (chat_preamble response ++ chatMessages (ui w)
                   ++ [user_turn (JS.trim (chatInput (ui w))); assistant_turn response;
                       user_turn (JS.trim next)])],
               []).
Proof.
  intros Hin Hload Hreply Hlen Hnext.
  eexists; eexists; eexists.
  split; [apply (run_sendChat w o1 [] Hin Hload) |].
  rewrite Hreply. set (w1 := sendChat_end w (Ok response)).
  rewrite run_sendChat; [| exact Hnext | reflexivity].
  assert (Hd : draft (ui (on_ui (setChatInput next) w1)) = response).
  { subst w1. unfold sendChat_end. rewrite gt_half_spec. unfold JS.length.
    apply Nat.ltb_lt in Hlen. rewrite Hlen. reflexivity. }
  assert (Hm : chatMessages (ui (on_ui (setChatInput next) w1))
               = chatMessages (ui w)
                 ++ [user_turn (JS.trim (chatInput (ui w))); assistant_turn response]).
  { subst w1. unfold sendChat_end.
    destruct (JS.gt_half _ _); cbn; now rewrite <- List.app_assoc. }
  rewrite Hd, Hm.
  change (chatInput (ui (on_ui (setChatInput next) w1))) with next.
  rewrite <- List.app_assoc. reflexivity.
Qed.

Lemma second_turn_presents_new_draft_witness :
  JS.trim (chatInput (ui refine_world)) <> EmptyString
  /\ chatLoading (ui refine_world) = false
  /\ agent_reply (text_reply (filler 600)) = Ok (filler 600)
  /\ String.length (draft (ui refine_world)) < 2 * String.length (filler 600)
  /\ JS.trim "Shorter." <> EmptyString
  /\ exists w1 w2 req1,
       run (start sendChat refine_world) [text_reply (filler 600)]
       = Some ((Ok tt, w1), [req1], [])
       /\ run (start sendChat (on_ui (setChatInput "Shorter.") w1)) [overloaded]
          = Some ((Ok tt, w2),
                  [chat_request CHAT_REFINE
                     (chat_preamble (filler 600) ++ chatMessages (ui refine_world)
                      ++ [user_turn (JS.trim (chatInput (ui refine_world)));
                          assistant_turn (filler 600); user_turn (JS.trim "Shorter.")])],
                  []).
Proof.
  assert (H1 : JS.trim (chatInput (ui refine_world)) <> EmptyString)
    by (vm_compute; discriminate).
  assert (H3 : agent_reply (text_reply (filler 600)) = Ok (filler 600))
    by (vm_compute; reflexivity).
  assert (H4 : String.length (draft (ui refine_world)) < 2 * String.length (filler 600))
    by (vm_compute; lia).
  assert (H5 : JS.trim "Shorter." <> EmptyString) by (vm_compute; discriminate).
  split; [exact H1 |]. split; [reflexivity |]. split; [exact H3 |].
  split; [exact H4 |]. split; [exact H5 |].
  exact (second_turn_presents_new_draft refine_world (text_reply (filler 600)) overloaded
           (filler 600) "Shorter." H1 eq_refl H3 H4 H5).
Defined.

(** X25.  Starting a refinement opens a new session: the transcript
    becomes one assistant turn, the greeting, whatever it held before, and
    the view is the chat; the draft is not written.  Without a draft
    nothing happens.  The greeting is part of the transcript, so the first
    request of the session carries it right after the assistant turn of the
    preamble: two assistant turns in a row. *)
Theorem startRefine_opens_new_session (w : World) (o : FetchOutcome) (input : string) :
  let w' := startRefine w in
  match draft (ui w) with
  | EmptyString => w' = w
  | _ =>
      draft (ui w') = draft (ui w)
      /\ view (ui w') = refine
      /\ (exists greeting, chatMessages (ui w') = [assistant_turn greeting])
      /\ (JS.trim input <> EmptyString ->
          chatLoading (ui w) = false ->
          map Turn.role
            (match run (start sendChat (on_ui (setChatInput input) w')) [o] with
             | Some (_, [req], _) => messages req
             | _ => []
             end)
          = [Turn.user; Turn.assistant; Turn.assistant; Turn.user])
  end.
Proof.
  intros w'. subst w'. unfold startRefine.
  destruct (draft (ui w)) as [|ch d] eqn:Hd; [reflexivity |].
  cbn [JS.truthy negb].
  split; [exact Hd |]. split; [reflexivity |]. split; [eexists; reflexivity |].
  intros Hin Hload.
  rewrite run_sendChat; [reflexivity | exact Hin | exact Hload].
Qed.

Lemma startRefine_opens_new_session_witness :
  JS.trim "Tighten the opening." <> EmptyString
  /\ chatLoading (ui drafted_world) = false
  /\ map Turn.role
       (match run (start sendChat (on_ui (setChatInput "Tighten the opening.")
                                     (startRefine drafted_world))) [overloaded] with
        | Some (_, [req], _) => messages req
        | _ => []
        end)
     = [Turn.user; Turn.assistant; Turn.assistant; Turn.user].
Proof.
  assert (H1 : JS.trim "Tighten the opening." <> EmptyString)
    by (vm_compute; discriminate).
  split; [exact H1 |]. split; [reflexivity |].
  exact (proj2 (proj2 (proj2 (startRefine_opens_new_session drafted_world overloaded
                                "Tighten the opening."))) H1 eq_refl).
Defined.

(** ** The buttons and the guards *)

(** X26.  The Send button and the Run Pipeline button are disabled exactly
    when their handler would do nothing: a click that is possible issues a
    request, and the Enter key, which calls [sendChat] past the button, is
    held back by the same test.  The Fetch button is disabled in more cases
    than [addUrl] refuses: whenever it is enabled, [addUrl] issues its
    request. *)
Theorem buttons_match_guards (uid now : string) (w : World) :
  (send_disabled (ui w) = true <-> first_request (start sendChat w) = None)
  /\ (run_disabled (ui w) = true <-> first_request (start runPipeline w) = None)
  /\ (first_request (start (addUrl uid now) w) = None -> fetch_disabled (ui w) = true).
Proof.
  split; [| split].
  - unfold send_disabled, start, sendChat. rewrite orb_comm.
    destruct (negb (JS.truthy (JS.trim (chatInput (ui w)))) || chatLoading (ui w));
      cbn; split; congruence.
  - unfold run_disabled, start, runPipeline.
    destruct (length (sources (ui w)) =? 0); cbn; split; congruence.
  - unfold fetch_disabled, start, addUrl.
    destruct (negb (JS.truthy (JS.trim (urlInput (ui w))))); cbn;
      [intros _; apply orb_true_r | discriminate].
Qed.
